(** * workTimeReporter: the weekly work-hours report of [report.py]

    The development embeds [report.py] in Rocq and settles the properties
    its specification states about it.

    Layout:
    - [Datetime]: the part of Python's [datetime.date] the program calls
      ([fromisocalendar], [isocalendar], [month], [strftime]), written
      after the reference implementation [Lib/_pydatetime.py];
    - [Py]: exceptions, the state-and-exception monad the program runs
      in, and how the interpreter ends a process;
    - the functions of [report.py], one definition each, over the process
      state (the global [CFG] and standard output) and the environment
      (the clock, the configuration file, [json], [workalendar]);
    - the notions the properties are stated with, and example
      environments;
    - the calendar arithmetic, the run of the program step by step, and
      the properties of the specification, each with its claim number. *)

From Stdlib Require Import ZArith List String Ascii Bool Lia Sorted.
Import ListNotations.
Local Open Scope Z_scope.

(* ===================================================================== *)
(** * Python's [datetime.date] *)
(* ===================================================================== *)

Module Datetime.

(** [datetime.MINYEAR], [datetime.MAXYEAR]. *)
Definition MINYEAR : Z := 1.
Definition MAXYEAR : Z := 9999.

(** A [date] object: its three read-only attributes. *)
Record date : Type := mkdate { year : Z; month : Z; day : Z }.

Definition date_eqb (a b : date) : bool :=
  (year a =? year b) && (month a =? month b) && (day a =? day b).

(** What [date.isocalendar()] returns: [IsoCalendarDate(year, week, weekday)]. *)
Record IsoCalendarDate : Type :=
  mkiso { iso_year : Z; iso_week : Z; iso_weekday : Z }.

(** The [ValueError]s the calls used by the program can raise. *)
Inductive value_error : Type :=
| YearOutOfRange (y : Z)     (* fromisocalendar: "Year is out of range" *)
| InvalidWeek (w : Z)        (* fromisocalendar: "Invalid week" *)
| InvalidWeekday (d : Z)     (* fromisocalendar: "Invalid weekday" *)
| BadYear (y : Z)            (* date(...): "year must be in 1..9999" *)
| BadMonth (m : Z)           (* date(...): "month must be in 1..12" *)
| BadDay (d : Z).            (* date(...): "day must be in 1..dim" *)

(** [_DAYS_IN_MONTH] and [_DAYS_BEFORE_MONTH]; index 0 is the placeholder -1. *)
Definition DAYS_IN_MONTH : list Z :=
  [-1; 31; 28; 31; 30; 31; 30; 31; 31; 30; 31; 30; 31].
Definition DAYS_BEFORE_MONTH : list Z :=
  [-1; 0; 31; 59; 90; 120; 151; 181; 212; 243; 273; 304; 334].

(** Table lookup [t[i]] for the indices the library uses (0..12). *)
Definition tbl (t : list Z) (i : Z) : Z := nth (Z.to_nat i) t (-1).

(** [_is_leap(year)] *)
Definition is_leap (y : Z) : bool :=
  (y mod 4 =? 0) && (negb (y mod 100 =? 0) || (y mod 400 =? 0)).

(** [_days_before_year(year)]: days before January 1st of [year]. *)
Definition days_before_year (y : Z) : Z :=
  let y' := y - 1 in
  y' * 365 + y' / 4 - y' / 100 + y' / 400.

(** [_days_in_month(year, month)] *)
Definition days_in_month (y m : Z) : Z :=
  if (m =? 2) && is_leap y then 29 else tbl DAYS_IN_MONTH m.

(** [_days_before_month(year, month)] *)
Definition days_before_month (y m : Z) : Z :=
  tbl DAYS_BEFORE_MONTH m + (if (2 <? m) && is_leap y then 1 else 0).

(** [_ymd2ord(year, month, day)]: the proleptic Gregorian ordinal,
    01-Jan-0001 being day 1.  (The library's [assert]s hold on every
    [date] object and are not part of the value.) *)
Definition ymd2ord (y m d : Z) : Z :=
  days_before_year y + days_before_month y m + d.

Definition toordinal (dt : date) : Z := ymd2ord (year dt) (month dt) (day dt).

Definition DI400Y : Z := 146097.
Definition DI100Y : Z := 36524.
Definition DI4Y : Z := 1461.

(** [_ord2ymd(n)] *)
Definition ord2ymd (n : Z) : Z * Z * Z :=
  let n := n - 1 in
  let n400 := n / DI400Y in
  let n := n mod DI400Y in
  let y := n400 * 400 + 1 in
  let n100 := n / DI100Y in
  let n := n mod DI100Y in
  let n4 := n / DI4Y in
  let n := n mod DI4Y in
  let n1 := n / 365 in
  let n := n mod 365 in
  let y := y + n100 * 100 + n4 * 4 + n1 in
  if (n1 =? 4) || (n100 =? 4) then (y - 1, 12, 31)
  else
    let leapyear := (n1 =? 3) && (negb (n4 =? 24) || (n100 =? 3)) in
    let m := Z.shiftr (n + 50) 5 in
    let preceding :=
      tbl DAYS_BEFORE_MONTH m + (if (2 <? m) && leapyear then 1 else 0) in
    if n <? preceding then
      let m := m - 1 in
      let preceding :=
        preceding - (tbl DAYS_IN_MONTH m
                     + (if (m =? 2) && leapyear then 1 else 0)) in
      (y, m, n - preceding + 1)
    else (y, m, n - preceding + 1).

(** [_check_date_fields] followed by the construction: [date(y, m, d)]. *)
Definition new_date (y m d : Z) : value_error + date :=
  if negb ((MINYEAR <=? y) && (y <=? MAXYEAR)) then inl (BadYear y)
  else if negb ((1 <=? m) && (m <=? 12)) then inl (BadMonth m)
  else if negb ((1 <=? d) && (d <=? days_in_month y m)) then inl (BadDay d)
  else inr (mkdate y m d).

(** [_isoweek1monday(year)]: ordinal of the Monday starting ISO week 1. *)
Definition isoweek1monday (y : Z) : Z :=
  let THURSDAY := 3 in
  let firstday := ymd2ord y 1 1 in
  let firstweekday := (firstday + 6) mod 7 in
  let week1monday := firstday - firstweekday in
  if THURSDAY <? firstweekday then week1monday + 7 else week1monday.

(** [_isoweek_to_gregorian(year, week, day)] *)
Definition isoweek_to_gregorian (y w d : Z) : value_error + Z * Z * Z :=
  if negb ((MINYEAR <=? y) && (y <=? MAXYEAR)) then inl (YearOutOfRange y)
  else
    let out_of_range :=
      if negb ((0 <? w) && (w <? 53)) then
        if w =? 53 then
          let first_weekday := ymd2ord y 1 1 mod 7 in
          if (first_weekday =? 4) || ((first_weekday =? 3) && is_leap y)
          then false else true
        else true
      else false in
    if out_of_range then inl (InvalidWeek w)
    else if negb ((0 <? d) && (d <? 8)) then inl (InvalidWeekday d)
    else
      let day_offset := (w - 1) * 7 + (d - 1) in
      let day_1 := isoweek1monday y in
      let ord_day := day_1 + day_offset in
      inr (ord2ymd ord_day).

(** [date.fromisocalendar(year, week, day)]:
    [cls( *_isoweek_to_gregorian(year, week, day))]. *)
Definition fromisocalendar (y w d : Z) : value_error + date :=
  match isoweek_to_gregorian y w d with
  | inl e => inl e
  | inr (y', m', d') => new_date y' m' d'
  end.

(** [date.isocalendar()] *)
Definition isocalendar (dt : date) : IsoCalendarDate :=
  let y := year dt in
  let week1monday := isoweek1monday y in
  let today := ymd2ord (year dt) (month dt) (day dt) in
  let week := (today - week1monday) / 7 in
  let dy := (today - week1monday) mod 7 in
  if week <? 0 then
    let y := y - 1 in
    let week1monday := isoweek1monday y in
    let week := (today - week1monday) / 7 in
    let dy := (today - week1monday) mod 7 in
    mkiso y (week + 1) (dy + 1)
  else if 52 <=? week then
    if isoweek1monday (y + 1) <=? today
    then mkiso (y + 1) (0 + 1) (dy + 1)
    else mkiso y (week + 1) (dy + 1)
  else mkiso y (week + 1) (dy + 1).

(** ** [strftime]

    [date.strftime(fmt)] hands [fmt] and [date.timetuple()] to the C
    library's [strftime].  The model covers the directives the program
    uses, in the C locale Python starts in: [%a], [%B], [%d], [%m] (and
    [%%]); every other character is copied. *)

(** [tm_wday] of [date.timetuple()]: 0 is Monday. *)
Definition weekday (dt : date) : Z := (toordinal dt + 6) mod 7.

(** The C library counts [tm_wday] from Sunday; [time.strftime] converts. *)
Definition c_wday (dt : date) : Z := (weekday dt + 1) mod 7.

Definition abday : list string :=
  ["Sun"; "Mon"; "Tue"; "Wed"; "Thu"; "Fri"; "Sat"]%string.

Definition mon_names : list string :=
  ["January"; "February"; "March"; "April"; "May"; "June"; "July";
   "August"; "September"; "October"; "November"; "December"]%string.

Definition digit (z : Z) : ascii := ascii_of_N (48 + Z.to_N z).

(** [%02d] on a number of at most two digits. *)
Definition fmt02d (z : Z) : string :=
  String (digit (z / 10)) (String (digit (z mod 10)) EmptyString).

Fixpoint strftime_aux (fmt : string) (dt : date) : string :=
  match fmt with
  | EmptyString => EmptyString
  | String "%"%char (String c rest) =>
      let piece :=
        if Ascii.eqb c "a" then nth (Z.to_nat (c_wday dt)) abday EmptyString
        else if Ascii.eqb c "B"
             then nth (Z.to_nat (month dt - 1)) mon_names EmptyString
        else if Ascii.eqb c "d" then fmt02d (day dt)
        else if Ascii.eqb c "m" then fmt02d (month dt)
        else if Ascii.eqb c "%" then "%"%string
        else String "%" (String c EmptyString) in
      (piece ++ strftime_aux rest dt)%string
  | String c rest => String c (strftime_aux rest dt)
  end.

Definition strftime (dt : date) (fmt : string) : string := strftime_aux fmt dt.

(** [date.__format__(fmt)], which an f-string field [{d:fmt}] calls:
    [strftime] for a non-empty [fmt], [str(d)] otherwise (not used). *)
Definition format (dt : date) (fmt : string) : string := strftime dt fmt.

End Datetime.

Import Datetime.

(* ===================================================================== *)
(** * The Python run-time the program relies on *)
(* ===================================================================== *)

Module Py.

(** Exceptions the program can meet.  [sys.exit(n)] raises [SystemExit]. *)
Inductive exn : Type :=
| ValueError (e : value_error)
| IndexError
| AttributeError (attr : string)
| JSONDecodeError
| SystemExit (code : Z).

Section Monad.
(** [S] is the mutable state of the process. *)
Variable S : Type.

(** A computation ends with a value or a raised exception; the state
    reached (what was printed, what was cached) is kept in both cases. *)
Definition M (A : Type) : Type := S -> (exn + A) * S.

Definition ret {A} (a : A) : M A := fun st => (inr a, st).

Definition bind {A B} (c : M A) (k : A -> M B) : M B :=
  fun st =>
    match c st with
    | (inr a, st') => k a st'
    | (inl e, st') => (inl e, st')
    end.

Definition raise {A} (e : exn) : M A := fun st => (inl e, st).

(** A list comprehension [[f(x) for x in l]]. *)
Fixpoint mapM {A B} (f : A -> M B) (l : list A) : M (list B) :=
  match l with
  | [] => ret []
  | x :: xs =>
      bind (f x) (fun y => bind (mapM f xs) (fun ys => ret (y :: ys)))
  end.

(** A list comprehension [[x for x in l if p(x)]]. *)
Fixpoint filterM {A} (p : A -> M bool) (l : list A) : M (list A) :=
  match l with
  | [] => ret []
  | x :: xs =>
      bind (p x) (fun b =>
      bind (filterM p xs) (fun ys => ret (if b then x :: ys else ys)))
  end.

(** A [for x in l: body(x)] loop. *)
Fixpoint forM_ {A} (body : A -> M unit) (l : list A) : M unit :=
  match l with
  | [] => ret tt
  | x :: xs => bind (body x) (fun _ => forM_ body xs)
  end.

(** [l[i]]: a negative index counts from the end, an index outside the
    list raises [IndexError]. *)
Definition getitem {A} (l : list A) (i : Z) : M A :=
  let n := Z.of_nat (List.length l) in
  let j := if i <? 0 then i + n else i in
  if (0 <=? j) && (j <? n) then
    match nth_error l (Z.to_nat j) with
    | Some a => ret a
    | None => raise IndexError
    end
  else raise IndexError.

(** Reading an attribute that was never assigned raises [AttributeError]. *)
Definition getattr {A} (name : string) (field : option A) : M A :=
  match field with
  | Some a => ret a
  | None => raise (AttributeError name)
  end.

Definition lift_date {A} (r : value_error + A) : M A :=
  match r with
  | inr a => ret a
  | inl e => raise (ValueError e)
  end.
End Monad.

Arguments ret {S A} a.
Arguments bind {S A B} c k.
Arguments raise {S A} e.
Arguments mapM {S A B} f l.
Arguments filterM {S A} p l.
Arguments forM_ {S A} body l.
Arguments getitem {S A} l i.
Arguments getattr {S A} name field.
Arguments lift_date {S A} r.

(** [range(a, b)] *)
Definition range (a b : Z) : list Z :=
  map (fun i => a + Z.of_nat i) (seq 0 (Z.to_nat (b - a))).

(** [str.lower()] on ASCII text. *)
Definition lower_char (c : ascii) : ascii :=
  let n := N_of_ascii c in
  if ((65 <=? n) && (n <=? 90))%N then ascii_of_N (n + 32) else c.

Fixpoint lower (s : string) : string :=
  match s with
  | EmptyString => EmptyString
  | String c r => String (lower_char c) (lower r)
  end.

(** The status the interpreter ends the process with: 0 after a normal
    end, the code of an uncaught [SystemExit], 1 after any other uncaught
    exception (whose traceback the interpreter writes to standard error). *)
Definition exit_status {A} (r : exn + A) : Z :=
  match r with
  | inr _ => 0
  | inl (SystemExit c) => c
  | inl _ => 1
  end.

(** Whether the interpreter writes a traceback to standard error as the
    process ends: it does for an uncaught exception other than
    [SystemExit]. *)
Definition traceback {A} (r : exn + A) : bool :=
  match r with
  | inl (SystemExit _) => false
  | inl _ => true
  | inr _ => false
  end.

End Py.

Import Py.

Declare Scope py_scope.
Delimit Scope py_scope with py.
Notation "x <- c ;; k" := (bind c (fun x => k))
  (at level 61, c at next level, right associativity) : py_scope.
Notation "c ;;; k" := (bind c (fun _ => k))
  (at level 61, right associativity) : py_scope.

(* ===================================================================== *)
(** * [report.py] *)
(* ===================================================================== *)

Local Open Scope string_scope.
Local Open Scope Z_scope.
Local Open Scope py_scope.

Definition CONFIG_FILE_NAME : string := "time_report_config.json".
Definition DAYS_IN_A_WEEK : Z := 7.

(** The line feed. *)
Definition LF : string := String (ascii_of_N 10) EmptyString.

(** A [Configuration] object.  An attribute is [None] until [__init__]
    assigns it; [calendar] holds the [is_holiday] method of the country's
    calendar instance. *)
Record Configuration : Type := mkcfg {
  report_language : option string;
  country : option string;
  continent : option string;
  start_hour : option string;
  end_hour : option string;
  work_days : option (list Z);
  vacation_spelling : option string;
  holiday_spelling : option string;
  calendar : option (date -> bool)
}.

Definition no_attributes : Configuration :=
  mkcfg None None None None None None None None None.

(** What [json.loads] returns for the configuration file, seen through
    the eight keys [__init__] reads: a key is absent or holds a value of
    the type the configuration format gives it. *)
Record config_doc : Type := mkdoc {
  doc_report_language : option string;
  doc_country : option string;
  doc_continent : option string;
  doc_start_hour : option string;
  doc_end_hour : option string;
  doc_work_days : option (list Z);
  doc_vacation : option string;
  doc_holiday : option string
}.

(** What surrounds the process. *)
Record World : Type := mkworld {
  (** [date.today()] *)
  today : date;
  (** the text of [CONFIG_FILE_NAME], [None] when there is no such file *)
  config_file : option string;
  (** [json.loads]; [None] stands for its [JSONDecodeError] *)
  json_loads : string -> option config_doc;
  (** [importlib.import_module] on the installed [workalendar]: the error
      text of the [ImportError], or the module, which maps a class name to
      the error text of the [AttributeError] or to the class (given by the
      [is_holiday] of its instances) *)
  import_module : string -> string + (string -> string + (date -> bool))
}.

(** The mutable state: the module global [CFG] and what was printed. *)
Record state : Type := mkstate { CFG : option Configuration; stdout : string }.

Definition M := Py.M state.

(** [print(s)] *)
Definition print (s : string) : M unit :=
  fun st => (inr tt, mkstate (CFG st) (stdout st ++ s ++ LF)).

Definition set_CFG (c : Configuration) : M unit :=
  fun st => (inr tt, mkstate (Some c) (stdout st)).

Definition read_CFG : M (option Configuration) :=
  fun st => (inr (CFG st), st).

(** The attribute assignments of [__init__], in order, up to the first
    key the document lacks ([KeyError]): the object as far as it was
    filled, and the missing key if there is one. *)
Definition assign {V} (v : option V) (key : string)
    (set : V -> Configuration) (k : Configuration -> Configuration * option string)
    (self : Configuration) : Configuration * option string :=
  match v with
  | Some x => k (set x)
  | None => (self, Some key)
  end.

Definition assign_attributes (data : config_doc) (self : Configuration)
  : Configuration * option string :=
  assign (doc_report_language data) "report_language"
    (fun v => mkcfg (Some v) (country self) (continent self) (start_hour self)
                (end_hour self) (work_days self) (vacation_spelling self)
                (holiday_spelling self) (calendar self))
  (fun self => assign (doc_country data) "country"
    (fun v => mkcfg (report_language self) (Some v) (continent self)
                (start_hour self) (end_hour self) (work_days self)
                (vacation_spelling self) (holiday_spelling self) (calendar self))
  (fun self => assign (doc_continent data) "continent"
    (fun v => mkcfg (report_language self) (country self) (Some v)
                (start_hour self) (end_hour self) (work_days self)
                (vacation_spelling self) (holiday_spelling self) (calendar self))
  (fun self => assign (doc_start_hour data) "start_hour"
    (fun v => mkcfg (report_language self) (country self) (continent self)
                (Some v) (end_hour self) (work_days self)
                (vacation_spelling self) (holiday_spelling self) (calendar self))
  (fun self => assign (doc_end_hour data) "end_hour"
    (fun v => mkcfg (report_language self) (country self) (continent self)
                (start_hour self) (Some v) (work_days self)
                (vacation_spelling self) (holiday_spelling self) (calendar self))
  (fun self => assign (doc_work_days data) "work_days"
    (fun v => mkcfg (report_language self) (country self) (continent self)
                (start_hour self) (end_hour self) (Some v)
                (vacation_spelling self) (holiday_spelling self) (calendar self))
  (fun self => assign (doc_vacation data) "vacation"
    (fun v => mkcfg (report_language self) (country self) (continent self)
                (start_hour self) (end_hour self) (work_days self)
                (Some v) (holiday_spelling self) (calendar self))
  (fun self => assign (doc_holiday data) "holiday"
    (fun v => mkcfg (report_language self) (country self) (continent self)
                (start_hour self) (end_hour self) (work_days self)
                (vacation_spelling self) (Some v) (calendar self))
  (fun self => (self, None)) self) self) self) self) self) self) self) self.

Section Program.
Variable w : World.

(** [load_country_module(continent_name, country_name)] *)
Definition load_country_module (continent_name country_name : string)
  : M (date -> bool) :=
  let failed (error_info : string) : M (date -> bool) :=
    print ("Failed to import country: " ++ country_name) ;;;
    print ("Error: " ++ error_info) ;;;
    print "Please note, country needs to be formatted like this: 'continent.country'" ;;;
    print "Example: 'europe.poland'" ;;;
    raise (SystemExit 1) in
  let module_name :=
    "workalendar." ++ lower continent_name ++ "." ++ lower country_name in
  match import_module w module_name with
  | inl error_info => failed error_info
  | inr country_module =>
      let class_name := country_name in
      match country_module class_name with
      | inl error_info => failed error_info
      | inr country_class => ret country_class
      end
  end.

(** [Configuration.__init__] *)
Definition Configuration_init : M Configuration :=
  json_data <-
    match config_file w with
    | Some text => ret text
    | None =>
        print ("Failed to load configuration file: "
               ++ "[Errno 2] No such file or directory: '"
               ++ CONFIG_FILE_NAME ++ "'") ;;;
        raise (SystemExit 1)
    end ;;
  data <-
    match json_loads w json_data with
    | Some data => ret data
    | None => raise JSONDecodeError
    end ;;
  self <-
    match assign_attributes data no_attributes with
    | (self, None) => ret self
    | (self, Some key) =>
        print ("Failed to access configuration parameter: '" ++ key ++ "'") ;;;
        ret self
    end ;;
  continent_name <- getattr "continent" (continent self) ;;
  country_name <- getattr "country" (country self) ;;
  country_class <- load_country_module continent_name country_name ;;
  ret (mkcfg (report_language self) (country self) (continent self)
         (start_hour self) (end_hour self) (work_days self)
         (vacation_spelling self) (holiday_spelling self)
         (Some country_class)).

(** [Configuration.is_holiday] *)
Definition is_holiday (self : Configuration) (day : date) : M bool :=
  cal <- getattr "calendar" (calendar self) ;;
  ret (cal day).

(** [Configuration.is_workday] *)
Definition is_workday (self : Configuration) (day : date) : M bool :=
  let day_of_week := iso_weekday (isocalendar day) in
  days <- getattr "work_days" (work_days self) ;;
  ret (existsb (Z.eqb day_of_week) days).

(** [Configuration.is_vacation] *)
Definition is_vacation (self : Configuration) (day : date) : M bool :=
  ret false.

(** [get_cfg] *)
Definition get_cfg : M Configuration :=
  cached <- read_CFG ;;
  match cached with
  | None => c <- Configuration_init ;; set_CFG c ;;; ret c
  | Some c => ret c
  end.

(** [get_current_year], [get_current_week] *)
Definition get_current_year : Z := iso_year (isocalendar (today w)).
Definition get_current_week : Z := iso_week (isocalendar (today w)).

(** [get_day_from_week] *)
Definition get_day_from_week (week day : Z) : M date :=
  let year := get_current_year in
  lift_date (fromisocalendar year week day).

(** The list [get_list_of_days] binds to [week_days]. *)
Definition week_days (week : Z) : M (list date) :=
  mapM (fun day => get_day_from_week week day) (range 1 (DAYS_IN_A_WEEK + 1)).

(** [get_list_of_days]; the tuple it returns is the list of its groups. *)
Definition get_list_of_days (week : Z) : M (list (list date)) :=
  week_days <- week_days week ;;
  work_days <- filterM (fun day => cfg <- get_cfg ;; is_workday cfg day)
                       week_days ;;
  first <- getitem work_days 0 ;;
  last <- getitem work_days (-1) ;;
  if negb (month first =? month last) then
    first <- getitem work_days 0 ;;
    let first_moth := month first in
    last <- getitem work_days (-1) ;;
    let second_month := month last in
    let first_moth_days :=
      filter (fun day => month day =? first_moth) work_days in
    let second_moth_days :=
      filter (fun day => month day =? second_month) work_days in
    ret [first_moth_days; second_moth_days]
  else ret [work_days].

(** [format_day] *)
Definition format_day (day : date) : M string :=
  cfg <- get_cfg ;;
  let date_str := strftime day "%d:%m" in
  let day_name := strftime day "%a" in
  description <-
    (holiday <- is_holiday cfg day ;;
     if holiday then getattr "holiday_spelling" (holiday_spelling cfg)
     else
       vacation <- is_vacation cfg day ;;
       if vacation then getattr "vacation_spelling" (vacation_spelling cfg)
       else
         work_start <- getattr "start_hour" (start_hour cfg) ;;
         work_end <- getattr "end_hour" (end_hour cfg) ;;
         ret ("Start: " ++ work_start ++ "; End: " ++ work_end)) ;;
  let report := day_name ++ "-" ++ date_str ++ ".: " ++ description in
  ret report.

(** [get_reports] *)
Definition get_reports (week : Z) : M (list (list string)) :=
  days <- get_list_of_days week ;;
  mapM (fun sub_week =>
          d_first <- getitem sub_week 0 ;;
          d_last <- getitem sub_week (-1) ;;
          d_month <- getitem sub_week 0 ;;
          let title := "Working hours " ++ format d_first "%d" ++ "-"
                       ++ format d_last "%d" ++ " Of "
                       ++ format d_month "%B" in
          days_lines <- mapM format_day sub_week ;;
          ret (title :: days_lines))
       days.

(** [print_report] *)
Definition print_report (week : Z) : M unit :=
  reports <- get_reports week ;;
  forM_ (fun sub_report => forM_ print sub_report ;;; print LF) reports.

(** [main], given the value of the [--week] argument. *)
Definition main (week_delta : Z) : M unit :=
  let week := get_current_week + week_delta in
  print_report week.

End Program.

(** The state a process starts in. *)
Definition initial_state : state := mkstate None "".

(* ===================================================================== *)
(** * Notions the properties are stated with *)
(* ===================================================================== *)

(** ** Dates of the calendar *)

(** Month [m] and day [d] are a month and a day of that month in year [y]. *)
Definition valid_ymd (y m d : Z) : Prop :=
  1 <= m <= 12 /\ 1 <= d <= days_in_month y m.

(** A [date] object always holds a date of the calendar. *)
Definition valid_date (dt : date) : Prop :=
  MINYEAR <= year dt <= MAXYEAR /\ valid_ymd (year dt) (month dt) (day dt).

(** Python's order on dates: by year, then month, then day. *)
Definition date_lt (a b : date) : Prop :=
  year a < year b
  \/ (year a = year b /\ (month a < month b
                          \/ (month a = month b /\ day a < day b))).

(** The [date] object of a triple. *)
Definition date_of (t : Z * Z * Z) : date :=
  let '(y, m, d) := t in mkdate y m d.

(** The number of ISO weeks of ISO year [y]. *)
Definition weeks_in_year (y : Z) : Z :=
  (isoweek1monday (y + 1) - isoweek1monday y) / 7.

(** The ordinal of day [d] of ISO week [w] of ISO year [y]. *)
Definition week_day_ordinal (y w d : Z) : Z :=
  isoweek1monday y + ((w - 1) * 7 + (d - 1)).

(** The seven dates of ISO week [w] of ISO year [y]. *)
Definition week_of (y w : Z) : list date :=
  map (fun d => date_of (ord2ymd (week_day_ordinal y w d))) [1; 2; 3; 4; 5; 6; 7].

(** The month after month [m] of year [y], with its year. *)
Definition next_month (y m : Z) : Z * Z :=
  if m <? 12 then (y, m + 1) else (y + 1, 1).

(** ** What the program computes, step by step *)

(** What [is_workday] computes from the configured work days. *)
Definition workday (days : list Z) (d : date) : bool :=
  existsb (Z.eqb (iso_weekday (isocalendar d))) days.

(** What [get_list_of_days] does with the filtered list [work]. *)
Definition month_split (work : list date) : exn + list (list date) :=
  match work with
  | [] => inl IndexError
  | first :: _ =>
      let last_day := last work first in
      if negb (month first =? month last_day) then
        inr [filter (fun day => month day =? month first) work;
             filter (fun day => month day =? month last_day) work]
      else inr [work]
  end.

(** The description [format_day] puts after the date. *)
Definition hours_text (work_start work_end : string) : string :=
  "Start: " ++ work_start ++ "; End: " ++ work_end.

(** What [format_day] puts before the description. *)
Definition line_head (d : date) : string :=
  strftime d "%a" ++ "-" ++ strftime d "%d:%m" ++ ".: ".

(** The text of some lines, each ended by a line feed. *)
Fixpoint lines_text (lines : list string) : string :=
  match lines with
  | [] => ""
  | line :: rest => line ++ LF ++ lines_text rest
  end.

(** What [print_report] writes for [reports]: the lines of each
    sub-report, and after each sub-report the text of [print("\n")],
    two line feeds. *)
Fixpoint render (reports : list (list string)) : string :=
  match reports with
  | [] => ""
  | sub_report :: rest => lines_text sub_report ++ LF ++ LF ++ render rest
  end.


(** The line [Configuration.__init__] prints when there is no file. *)
Definition no_file_diagnostic : string :=
  "Failed to load configuration file: [Errno 2] No such file or directory: 'time_report_config.json'".

(** ** The shape of the report lines *)

(** The three-letter English name of the weekday of a date, by its ISO
    weekday number. *)
Definition weekday_abbrev (d : date) : string :=
  match iso_weekday (isocalendar d) with
  | 1 => "Mon" | 2 => "Tue" | 3 => "Wed" | 4 => "Thu"
  | 5 => "Fri" | 6 => "Sat" | 7 => "Sun" | _ => ""
  end.

(** The full English name of month [m]. *)
Definition month_name (m : Z) : string :=
  match m with
  | 1 => "January" | 2 => "February" | 3 => "March" | 4 => "April"
  | 5 => "May" | 6 => "June" | 7 => "July" | 8 => "August"
  | 9 => "September" | 10 => "October" | 11 => "November"
  | 12 => "December" | _ => ""
  end.

(** The number a string of decimal digits writes. *)
Fixpoint decimal_from (acc : Z) (s : string) : option Z :=
  match s with
  | EmptyString => Some acc
  | String c rest =>
      let v := Z.of_N (N_of_ascii c) - 48 in
      if (0 <=? v) && (v <=? 9) then decimal_from (10 * acc + v) rest else None
  end.

(** The number a non-empty string of decimal digits writes. *)
Definition decimal (s : string) : option Z :=
  match s with
  | EmptyString => None
  | _ => decimal_from 0 s
  end.

(** [s] writes [n] with exactly two decimal digits. *)
Definition two_digits (s : string) (n : Z) : Prop :=
  String.length s = 2%nat /\ decimal s = Some n.

(** ** States that differ in the vacation label *)

(** [cfg] with [v] for its [vacation_spelling]. *)
Definition set_vacation (v : option string) (cfg : Configuration)
  : Configuration :=
  mkcfg (report_language cfg) (country cfg) (continent cfg) (start_hour cfg)
        (end_hour cfg) (work_days cfg) v (holiday_spelling cfg) (calendar cfg).

(** Two states that differ at most in the vacation label of the cached
    configuration. *)
Definition same_but_vacation (cfg : Configuration) (v : option string)
    (s1 s2 : state) : Prop :=
  CFG s1 = Some cfg /\ CFG s2 = Some (set_vacation v cfg)
  /\ stdout s1 = stdout s2.

(** Two computations that, from such states, end alike in such states. *)
Definition alike {A} (cfg : Configuration) (v : option string)
    (c1 c2 : M A) : Prop :=
  forall s1 s2, same_but_vacation cfg v s1 s2 ->
    fst (c1 s1) = fst (c2 s2)
    /\ same_but_vacation cfg v (snd (c1 s1)) (snd (c2 s2)).

(** ** Tables checked by computation *)

(** The month-and-day tail of [ord2ymd]. *)
Definition month_day (leapyear : bool) (n : Z) : Z * Z :=
  let m := Z.shiftr (n + 50) 5 in
  let preceding :=
    tbl DAYS_BEFORE_MONTH m + (if (2 <? m) && leapyear then 1 else 0) in
  if n <? preceding then
    let m := m - 1 in
    let preceding :=
      preceding - (tbl DAYS_IN_MONTH m
                   + (if (m =? 2) && leapyear then 1 else 0)) in
    (m, n - preceding + 1)
  else (m, n - preceding + 1).

(** [_days_in_month] and [_days_before_month] of a year known only as leap
    or not. *)
Definition dim_of (leap : bool) (m : Z) : Z :=
  if (m =? 2) && leap then 29 else tbl DAYS_IN_MONTH m.

Definition dbm_of (leap : bool) (m : Z) : Z :=
  tbl DAYS_BEFORE_MONTH m + (if (2 <? m) && leap then 1 else 0).

(** The check of [month_day] on one day of the year: the month and the day
    are in range and count back to the day of the year. *)
Definition month_day_ok (leap : bool) (n : Z) : bool :=
  let '(m, d) := month_day leap n in
  (1 <=? m) && (m <=? 12) && (1 <=? d) && (d <=? dim_of leap m)
  && (dbm_of leap m + d =? n + 1).

(** The check that [fmt02d] writes [z] in two digits. *)
Definition two_digits_ok (z : Z) : bool :=
  (String.length (fmt02d z) =? 2)%nat
  && match decimal (fmt02d z) with
     | Some n => n =? z
     | None => false
     end.

(** ** Example environments *)

(** The double quote. *)
Definition DQ : string := String (ascii_of_N 34) EmptyString.

(** A member and a string of a JSON text. *)
Definition json_pair (key value : string) : string :=
  DQ ++ key ++ DQ ++ ": " ++ value.

Definition json_string (s : string) : string := DQ ++ s ++ DQ.

(** The text [json.dumps] gives a configuration like that of
    [generate_config.py], with [days] for the value of [work_days] and the
    two labels [holiday] and [vacation]. *)
Definition config_text (days holiday vacation : string) : string :=
  "{" ++ json_pair "report_language" (json_string "English") ++ ", "
  ++ json_pair "country" (json_string "Poland") ++ ", "
  ++ json_pair "continent" (json_string "Europe") ++ ", "
  ++ json_pair "start_hour" (json_string "8:00") ++ ", "
  ++ json_pair "end_hour" (json_string "17:00") ++ ", "
  ++ json_pair "work_days" days ++ ", "
  ++ json_pair "holiday" (json_string holiday) ++ ", "
  ++ json_pair "vacation" (json_string vacation) ++ "}".

(** The text [json.dumps(config_dict)] of [generate_config.py]. *)
Definition default_config_text : string :=
  config_text "[1, 2, 3, 4, 5]" "Holiday" "Vacation".

(** [config_dict] of [generate_config.py]. *)
Definition default_config_doc : config_doc :=
  mkdoc (Some "English") (Some "Poland") (Some "Europe") (Some "8:00")
        (Some "17:00") (Some [1; 2; 3; 4; 5]) (Some "Vacation") (Some "Holiday").

(** The holidays of Poland that fall on a fixed date. *)
Definition poland (d : date) : bool :=
  existsb (fun md => (month d =? fst md) && (day d =? snd md))
    [(1, 1); (1, 6); (5, 1); (5, 3); (8, 15); (11, 1); (11, 11);
     (12, 25); (12, 26)].

(** An environment for the examples: the file holds [text], which the
    decoder reads as [doc] ([None] when [text] is not JSON), and
    [workalendar] has the one module [workalendar.europe.poland]. *)
Definition example_world (now : date) (text : string) (doc : option config_doc)
  : World :=
  mkworld now (Some text) (fun s => if String.eqb s text then doc else None)
    (fun name =>
       if String.eqb name "workalendar.europe.poland"
       then inr (fun cls => if String.eqb cls "Poland" then inr poland
                            else inl "module 'workalendar.europe.poland' has no attribute")
       else inl "No module named 'workalendar'").

(** The environment with the configuration of [generate_config.py]. *)
Definition default_world (now : date) : World :=
  example_world now default_config_text (Some default_config_doc).

(** The configuration object [default_world] loads. *)
Definition default_cfg : Configuration :=
  mkcfg (Some "English") (Some "Poland") (Some "Europe") (Some "8:00")
        (Some "17:00") (Some [1; 2; 3; 4; 5]) (Some "Vacation") (Some "Holiday")
        (Some poland).

(** Wednesday 2024-02-28, in ISO week 9 of 2024, which runs from Monday
    February 26th to Sunday March 3rd. *)
Definition example_today : date := mkdate 2024 2 28.

(** The seven dates of that week. *)
Definition example_week : list date :=
  [mkdate 2024 2 26; mkdate 2024 2 27; mkdate 2024 2 28; mkdate 2024 2 29;
   mkdate 2024 3 1; mkdate 2024 3 2; mkdate 2024 3 3].

(** The working days of that week. *)
Definition example_work : list date :=
  [mkdate 2024 2 26; mkdate 2024 2 27; mkdate 2024 2 28; mkdate 2024 2 29;
   mkdate 2024 3 1].

(** The state once [default_cfg] is cached and nothing is printed. *)
Definition loaded_state : state := mkstate (Some default_cfg) "".

(** The report of the example week. *)
Definition example_reports : list (list string) :=
  [["Working hours 26-29 Of February";
    "Mon-26:02.: Start: 8:00; End: 17:00";
    "Tue-27:02.: Start: 8:00; End: 17:00";
    "Wed-28:02.: Start: 8:00; End: 17:00";
    "Thu-29:02.: Start: 8:00; End: 17:00"];
   ["Working hours 01-01 Of March";
    "Fri-01:03.: Start: 8:00; End: 17:00"]].

(** A configuration without any work day. *)
Definition idle_cfg : Configuration :=
  mkcfg (Some "English") (Some "Poland") (Some "Europe") (Some "8:00")
        (Some "17:00") (Some []) (Some "Vacation") (Some "Holiday")
        (Some poland).

(** Its environment. *)
Definition idle_world (now : date) : World :=
  example_world now (config_text "[]" "Holiday" "Vacation")
    (Some (mkdoc (Some "English") (Some "Poland") (Some "Europe") (Some "8:00")
             (Some "17:00") (Some []) (Some "Vacation") (Some "Holiday"))).

(** Wednesday 2024-01-03, in the first ISO week of 2024. *)
Definition new_year_world : World := default_world (mkdate 2024 1 3).

(** Monday 9999-12-27, which starts the last ISO week of the last year. *)
Definition last_week_world : World := default_world (mkdate 9999 12 27).

(** An environment without the configuration file. *)
Definition missing_file_world (now : date) : World :=
  mkworld now None (fun _ => None) (fun _ => inl "No module named 'workalendar'").

(** An environment whose file holds text that is not JSON. *)
Definition malformed_file_world (now : date) : World :=
  example_world now "{" None.

(** ** The attributes [__init__] assigns *)

(** A key of the document is there. *)
Definition present {V} (v : option V) : bool :=
  match v with
  | Some _ => true
  | None => false
  end.

(** The value [v] when [b] holds, no value otherwise. *)
Definition when {V} (b : bool) (v : option V) : option V :=
  if b then v else None.

(** The first key, in the order [__init__] reads them, that the document
    lacks. *)
Definition first_missing_key (data : config_doc) : option string :=
  if negb (present (doc_report_language data)) then Some "report_language"
  else if negb (present (doc_country data)) then Some "country"
  else if negb (present (doc_continent data)) then Some "continent"
  else if negb (present (doc_start_hour data)) then Some "start_hour"
  else if negb (present (doc_end_hour data)) then Some "end_hour"
  else if negb (present (doc_work_days data)) then Some "work_days"
  else if negb (present (doc_vacation data)) then Some "vacation"
  else if negb (present (doc_holiday data)) then Some "holiday"
  else None.

(** The line [__init__] prints for a missing key. *)
Definition missing_key_diagnostic (key : string) : string :=
  "Failed to access configuration parameter: '" ++ key ++ "'".

(** The four lines [load_country_module] prints when the import fails. *)
Definition import_diagnostic (country_name error_info : string) : string :=
  lines_text
    ["Failed to import country: " ++ country_name;
     "Error: " ++ error_info;
     "Please note, country needs to be formatted like this: 'continent.country'";
     "Example: 'europe.poland'"].

(** The name of the module [load_country_module] imports. *)
Definition country_module_name (continent_name country_name : string) : string :=
  "workalendar." ++ lower continent_name ++ "." ++ lower country_name.

(** ** Work days by their number *)

(** Weekday number [d] is listed in [days]. *)
Definition listed (days : list Z) (d : Z) : bool := existsb (Z.eqb d) days.

(** The weekday numbers of a week that [days] lists. *)
Definition listed_weekdays (days : list Z) : list Z :=
  filter (listed days) [1; 2; 3; 4; 5; 6; 7].

(** The two groups of the example week. *)
Definition example_work_february : list date :=
  [mkdate 2024 2 26; mkdate 2024 2 27; mkdate 2024 2 28; mkdate 2024 2 29].

Definition example_work_march : list date := [mkdate 2024 3 1].

(** ** Computations that leave the state alone *)

(** Once a configuration is cached, [c] changes neither [CFG] nor what
    was printed. *)
Definition keeps {A} (c : M A) : Prop :=
  forall st cfg, CFG st = Some cfg -> snd (c st) = st.

(** A configuration object with nothing but work days, listed out of
    order, twice, and with numbers that are no weekday. *)
Definition shuffled_cfg : Configuration :=
  mkcfg None None None None None (Some [9; 5; 4; 4; 3; 0; 2; 1]) None None None.

(** The state once it is cached. *)
Definition shuffled_state : state := mkstate (Some shuffled_cfg) "".

(** An environment whose document has the key [report_language] only. *)
Definition no_country_world : World :=
  example_world example_today
    ("{" ++ json_pair "report_language" (json_string "English") ++ "}")
    (Some (mkdoc (Some "English") None None None None None None None)).

(** The state [Configuration()] ends in there. *)
Definition no_country_state : state :=
  mkstate None (missing_key_diagnostic "country" ++ LF).

(** An environment whose document lacks the key [holiday], on Wednesday
    2024-05-01, a holiday of Poland, in ISO week 18 of 2024. *)
Definition no_holiday_key_text : string :=
  "{" ++ json_pair "report_language" (json_string "English") ++ ", "
  ++ json_pair "country" (json_string "Poland") ++ ", "
  ++ json_pair "continent" (json_string "Europe") ++ ", "
  ++ json_pair "start_hour" (json_string "8:00") ++ ", "
  ++ json_pair "end_hour" (json_string "17:00") ++ ", "
  ++ json_pair "work_days" "[1, 2, 3, 4, 5]" ++ ", "
  ++ json_pair "vacation" (json_string "Vacation") ++ "}".

Definition no_holiday_key_doc : config_doc :=
  mkdoc (Some "English") (Some "Poland") (Some "Europe") (Some "8:00")
        (Some "17:00") (Some [1; 2; 3; 4; 5]) (Some "Vacation") None.

Definition no_holiday_key_world : World :=
  example_world (mkdate 2024 5 1) no_holiday_key_text (Some no_holiday_key_doc).

(** The configuration object it loads, and the state after loading. *)
Definition no_holiday_key_cfg : Configuration :=
  mkcfg (Some "English") (Some "Poland") (Some "Europe") (Some "8:00")
        (Some "17:00") (Some [1; 2; 3; 4; 5]) (Some "Vacation") None
        (Some poland).

Definition no_holiday_key_state : state :=
  mkstate (Some no_holiday_key_cfg) (missing_key_diagnostic "holiday" ++ LF).

(** An environment whose document lacks the key [end_hour]. *)
Definition no_end_hour_doc : config_doc :=
  mkdoc (Some "English") (Some "Poland") (Some "Europe") (Some "8:00")
        None (Some [1; 2; 3; 4; 5]) (Some "Vacation") (Some "Holiday").

Definition no_end_hour_text : string :=
  "{" ++ json_pair "report_language" (json_string "English") ++ ", "
  ++ json_pair "country" (json_string "Poland") ++ ", "
  ++ json_pair "continent" (json_string "Europe") ++ ", "
  ++ json_pair "start_hour" (json_string "8:00") ++ ", "
  ++ json_pair "work_days" "[1, 2, 3, 4, 5]" ++ ", "
  ++ json_pair "holiday" (json_string "Holiday") ++ ", "
  ++ json_pair "vacation" (json_string "Vacation") ++ "}".

Definition no_end_hour_world : World :=
  example_world example_today no_end_hour_text (Some no_end_hour_doc).

(** The configuration object it loads, and the state after loading. *)
Definition no_end_hour_cfg : Configuration :=
  mkcfg (Some "English") (Some "Poland") (Some "Europe") (Some "8:00")
        None None None None (Some poland).

Definition no_end_hour_state : state :=
  mkstate (Some no_end_hour_cfg) (missing_key_diagnostic "end_hour" ++ LF).

(** ** Names of ASCII characters *)

(** Every character of [s] is an ASCII character.  On such a string
    [lower] is [str.lower]. *)
Fixpoint is_ascii (s : string) : bool :=
  match s with
  | EmptyString => true
  | String c rest => (N_of_ascii c <? 128)%N && is_ascii rest
  end.

(** An environment whose document names a country [workalendar] does not
    have. *)
Definition unknown_country_doc : config_doc :=
  mkdoc (Some "English") (Some "Narnia") (Some "Europe") (Some "8:00")
        (Some "17:00") (Some [1; 2; 3; 4; 5]) (Some "Vacation") (Some "Holiday").

Definition unknown_country_text : string :=
  "{" ++ json_pair "report_language" (json_string "English") ++ ", "
  ++ json_pair "country" (json_string "Narnia") ++ ", "
  ++ json_pair "continent" (json_string "Europe") ++ ", "
  ++ json_pair "start_hour" (json_string "8:00") ++ ", "
  ++ json_pair "end_hour" (json_string "17:00") ++ ", "
  ++ json_pair "work_days" "[1, 2, 3, 4, 5]" ++ ", "
  ++ json_pair "holiday" (json_string "Holiday") ++ ", "
  ++ json_pair "vacation" (json_string "Vacation") ++ "}".

Definition unknown_country_world : World :=
  mkworld example_today (Some unknown_country_text)
    (fun s => if String.eqb s unknown_country_text
              then Some unknown_country_doc else None)
    (fun name =>
       if String.eqb name "workalendar.europe.poland"
       then inr (fun cls => if String.eqb cls "Poland" then inr poland
                            else inl "module 'workalendar.europe.poland' has no attribute")
       else inl ("No module named '" ++ name ++ "'")).

(** ** Environments that differ in the vacation label *)

(** The document [d] with [v] for the value of its key [vacation]. *)
Definition set_doc_vacation (v : string) (d : config_doc) : config_doc :=
  mkdoc (doc_report_language d) (doc_country d) (doc_continent d)
        (doc_start_hour d) (doc_end_hour d) (doc_work_days d) (Some v)
        (doc_holiday d).

(** Two environments with the same day and the same [workalendar], whose
    configuration files, when they are there and decode, hold documents
    that differ at most in the value of the key [vacation]. *)
Definition differ_in_vacation (w1 w2 : World) : Prop :=
  today w1 = today w2
  /\ (forall name, import_module w1 name = import_module w2 name)
  /\ match config_file w1, config_file w2 with
     | None, None => True
     | Some text1, Some text2 =>
         match json_loads w1 text1, json_loads w2 text2 with
         | None, None => True
         | Some d1, Some d2 =>
             exists v1 v2,
               doc_vacation d1 = Some v1 /\ d2 = set_doc_vacation v2 d1
         | _, _ => False
         end
     | _, _ => False
     end.

(** The environment of [generate_config.py]'s configuration with the
    vacation label [Leave]. *)
Definition leave_world (now : date) : World :=
  example_world now (config_text "[1, 2, 3, 4, 5]" "Holiday" "Leave")
    (Some (set_doc_vacation "Leave" default_config_doc)).

(* ===================================================================== *)
(** * The calendar arithmetic *)
(* ===================================================================== *)

Example ymd2ord_2024 : ymd2ord 2024 1 1 = 738886.
Proof. reflexivity. Qed.
Example ord2ymd_2024 : ord2ymd 738886 = (2024, 1, 1).
Proof. reflexivity. Qed.
Example ord2ymd_leap : ord2ymd (ymd2ord 2024 2 29) = (2024, 2, 29).
Proof. reflexivity. Qed.
Example ord2ymd_dec31 : ord2ymd (ymd2ord 2000 12 31) = (2000, 12, 31).
Proof. reflexivity. Qed.
Example iso_2021_01_03 :
  isocalendar (mkdate 2021 1 3) = mkiso 2020 53 7.
Proof. reflexivity. Qed.
Example fromiso_2020_53 :
  fromisocalendar 2020 53 7 = inr (mkdate 2021 1 3).
Proof. reflexivity. Qed.
Example fromiso_2021_53 :
  fromisocalendar 2021 53 1 = inl (InvalidWeek 53).
Proof. reflexivity. Qed.
Example fromiso_9999 :
  fromisocalendar 9999 52 6 = inl (BadYear 10000).
Proof. reflexivity. Qed.
Example strftime_ex :
  strftime (mkdate 2024 2 29) "%a-%d:%m %B" = "Thu-29:02 February"%string.
Proof. reflexivity. Qed.

Lemma is_leap_spec y :
  is_leap y = true <-> (y mod 4 = 0 /\ (y mod 100 <> 0 \/ y mod 400 = 0)).
Proof.
  unfold is_leap. rewrite andb_true_iff, orb_true_iff, negb_true_iff.
  rewrite !Z.eqb_eq, Z.eqb_neq. tauto.
Qed.

Lemma days_before_year_succ y :
  days_before_year (y + 1)
  = days_before_year y + 365 + (if is_leap y then 1 else 0).
Proof.
  destruct (is_leap y) eqn:E.
  - apply is_leap_spec in E. unfold days_before_year.
    Z.div_mod_to_equations; lia.
  - assert (H : ~ (y mod 4 = 0 /\ (y mod 100 <> 0 \/ y mod 400 = 0)))
      by (rewrite <- is_leap_spec, E; discriminate).
    unfold days_before_year.
    Z.div_mod_to_equations; lia.
Qed.

Lemma month_day_table (leap : bool) :
  forallb (fun i => month_day_ok leap (Z.of_nat i))
          (seq 0 (if leap then 366 else 365)%nat) = true.
Proof. destruct leap; vm_compute; reflexivity. Qed.

Lemma month_day_spec (leap : bool) n :
  0 <= n < 365 + (if leap then 1 else 0) ->
  let '(m, d) := month_day leap n in
  1 <= m <= 12 /\ 1 <= d <= dim_of leap m /\ dbm_of leap m + d = n + 1.
Proof.
  intros Hn.
  pose proof (month_day_table leap) as T.
  rewrite forallb_forall in T.
  specialize (T (Z.to_nat n)).
  rewrite Z2Nat.id in T by lia.
  unfold month_day_ok in T.
  destruct (month_day leap n) as [m d].
  assert (HT : In (Z.to_nat n) (seq 0 (if leap then 366 else 365)%nat)).
  { apply in_seq. destruct leap; lia. }
  specialize (T HT).
  rewrite !andb_true_iff in T.
  rewrite !Z.leb_le, Z.eqb_eq in T. lia.
Qed.

Lemma ord2ymd_unfold n :
  ord2ymd n =
  let n0 := n - 1 in
  let n400 := n0 / 146097 in
  let r400 := n0 mod 146097 in
  let n100 := r400 / 36524 in
  let r100 := r400 mod 36524 in
  let n4 := r100 / 1461 in
  let r4 := r100 mod 1461 in
  let n1 := r4 / 365 in
  let r1 := r4 mod 365 in
  let y := n400 * 400 + 1 + n100 * 100 + n4 * 4 + n1 in
  if (n1 =? 4) || (n100 =? 4) then (y - 1, 12, 31)
  else
    let '(m, d) := month_day ((n1 =? 3) && (negb (n4 =? 24) || (n100 =? 3))) r1 in
    (y, m, d).
Proof.
  unfold ord2ymd, month_day, DI400Y, DI100Y, DI4Y. cbv zeta.
  repeat match goal with |- context [if ?b then _ else _] => destruct b end; reflexivity.
Qed.

Lemma ord2ymd_spec n :
  1 <= n ->
  let '(y, m, d) := ord2ymd n in
  1 <= y /\ valid_ymd y m d /\ ymd2ord y m d = n.
Proof.
  intros Hn. rewrite ord2ymd_unfold. cbv zeta.
  set (n0 := n - 1).
  set (n400 := n0 / 146097). set (r400 := n0 mod 146097).
  set (n100 := r400 / 36524). set (r100 := r400 mod 36524).
  set (n4 := r100 / 1461). set (r4 := r100 mod 1461).
  set (n1 := r4 / 365). set (r1 := r4 mod 365).
  assert (E400 : n0 = 146097 * n400 + r400 /\ 0 <= r400 < 146097)
    by (subst n400 r400; Z.div_mod_to_equations; lia).
  assert (E100 : r400 = 36524 * n100 + r100 /\ 0 <= r100 < 36524)
    by (subst n100 r100; Z.div_mod_to_equations; lia).
  assert (E4 : r100 = 1461 * n4 + r4 /\ 0 <= r4 < 1461)
    by (subst n4 r4; Z.div_mod_to_equations; lia).
  assert (E1 : r4 = 365 * n1 + r1 /\ 0 <= r1 < 365)
    by (subst n1 r1; Z.div_mod_to_equations; lia).
  assert (B400 : 0 <= n400) by (subst n0; lia).
  assert (B100 : 0 <= n100 <= 4) by lia.
  assert (B4 : 0 <= n4 <= 24) by lia.
  assert (B1 : 0 <= n1 <= 4) by lia.
  clearbody n400 r400 n100 r100 n4 r4 n1 r1.
  set (y := n400 * 400 + 1 + n100 * 100 + n4 * 4 + n1).
  destruct ((n1 =? 4) || (n100 =? 4)) eqn:Sp.
  - (* the last day of a leap cycle *)
    apply orb_true_iff in Sp. rewrite !Z.eqb_eq in Sp.
    assert (Hy : days_before_year y = n).
    { unfold days_before_year. subst y n0.
      Z.div_mod_to_equations; lia. }
    pose proof (days_before_year_succ (y - 1)) as S1.
    replace (y - 1 + 1) with y in S1 by lia.
    unfold valid_ymd, ymd2ord, days_in_month, days_before_month.
    change (tbl DAYS_IN_MONTH 12) with 31.
    change (tbl DAYS_BEFORE_MONTH 12) with 334.
    change (12 =? 2) with false. change (2 <? 12) with true. cbn [andb].
    subst y. destruct (is_leap _); lia.
  - apply orb_false_iff in Sp. rewrite !Z.eqb_neq in Sp.
    set (leap := (n1 =? 3) && (negb (n4 =? 24) || (n100 =? 3))).
    assert (Hy : days_before_year y = n0 - r1).
    { unfold days_before_year. subst y.
      Z.div_mod_to_equations; lia. }
    assert (Hl : is_leap y = leap).
    { subst leap. apply eq_true_iff_eq. rewrite is_leap_spec.
      rewrite andb_true_iff, orb_true_iff, negb_true_iff, !Z.eqb_eq, Z.eqb_neq.
      subst y. Z.div_mod_to_equations; lia. }
    assert (Hr : 0 <= r1 < 365 + (if leap then 1 else 0)).
    { destruct leap; lia. }
    pose proof (month_day_spec leap r1 Hr) as MD.
    destruct (month_day leap r1) as [m d].
    unfold valid_ymd, ymd2ord, days_in_month, days_before_month.
    rewrite Hl. fold (dim_of leap m). fold (dbm_of leap m).
    subst y n0. lia.
Qed.

Lemma days_before_year_mono_nat y (k : nat) :
  days_before_year y + 365 * Z.of_nat k <= days_before_year (y + Z.of_nat k).
Proof.
  induction k as [|k IH].
  - change (Z.of_nat 0) with 0. replace (y + 0) with y by lia. lia.
  - rewrite Nat2Z.inj_succ.
    replace (y + Z.succ (Z.of_nat k)) with (y + Z.of_nat k + 1) by lia.
    rewrite days_before_year_succ. destruct (is_leap _); lia.
Qed.

Lemma days_before_year_mono a b :
  a <= b -> days_before_year a + 365 * (b - a) <= days_before_year b.
Proof.
  intros H. pose proof (days_before_year_mono_nat a (Z.to_nat (b - a))) as M.
  rewrite Z2Nat.id in M by lia. replace (a + (b - a)) with b in M by lia.
  exact M.
Qed.

Ltac month_cases m :=
  let H := fresh in
  assert (H : m = 1 \/ m = 2 \/ m = 3 \/ m = 4 \/ m = 5 \/ m = 6 \/ m = 7
              \/ m = 8 \/ m = 9 \/ m = 10 \/ m = 11 \/ m = 12) by lia;
  repeat (destruct H as [H | H]); subst m.

Ltac tables := unfold tbl, DAYS_IN_MONTH, DAYS_BEFORE_MONTH in *; simpl in *.

Lemma days_in_month_bounds y m : 1 <= m <= 12 -> 28 <= days_in_month y m <= 31.
Proof.
  intros H. unfold days_in_month. month_cases m; destruct (is_leap y); tables; lia.
Qed.

(** A month ends where the next one starts. *)
Lemma month_start_succ y m :
  1 <= m <= 12 ->
  days_before_year y + days_before_month y m + days_in_month y m
  = if m <? 12 then days_before_year y + days_before_month y (m + 1)
    else days_before_year (y + 1) + days_before_month (y + 1) 1.
Proof.
  intros H. pose proof (days_before_year_succ y) as S1.
  unfold days_before_month, days_in_month.
  month_cases m; destruct (is_leap y); tables; lia.
Qed.

Lemma ymd2ord_bounds y m d :
  valid_ymd y m d ->
  days_before_year y < ymd2ord y m d <= days_before_year (y + 1).
Proof.
  intros [Hm Hd]. rewrite days_before_year_succ.
  unfold ymd2ord, days_before_month. unfold days_in_month in Hd.
  month_cases m; destruct (is_leap y); tables; lia.
Qed.

Lemma ymd2ord_inj y m d y' m' d' :
  valid_ymd y m d -> valid_ymd y' m' d' ->
  ymd2ord y m d = ymd2ord y' m' d' -> y = y' /\ m = m' /\ d = d'.
Proof.
  intros V V' E.
  pose proof (ymd2ord_bounds _ _ _ V) as B.
  pose proof (ymd2ord_bounds _ _ _ V') as B'.
  assert (y = y').
  { destruct (Z.lt_trichotomy y y') as [L | [L | L]]; [exfalso | assumption | exfalso].
    - pose proof (days_before_year_mono (y + 1) y'). lia.
    - pose proof (days_before_year_mono (y' + 1) y). lia. }
  subst y'. split; [reflexivity |].
  destruct V as [Hm Hd], V' as [Hm' Hd'].
  unfold ymd2ord, days_before_month in E. unfold days_in_month in Hd, Hd'.
  month_cases m; month_cases m'; destruct (is_leap y); tables; lia.
Qed.

Lemma days_before_year_nonneg y : 1 <= y -> 0 <= days_before_year y.
Proof.
  intros H. pose proof (days_before_year_mono 1 y H) as M.
  change (days_before_year 1) with 0 in M. lia.
Qed.

(** [ord2ymd] inverts [ymd2ord] on the dates of the calendar. *)
Lemma ord2ymd_ymd2ord y m d :
  1 <= y -> valid_ymd y m d -> ord2ymd (ymd2ord y m d) = (y, m, d).
Proof.
  intros Hy V.
  pose proof (ymd2ord_bounds _ _ _ V) as B.
  pose proof (days_before_year_nonneg y Hy) as P.
  pose proof (ord2ymd_spec (ymd2ord y m d)) as Sp.
  destruct (ord2ymd (ymd2ord y m d)) as [[y' m'] d'].
  destruct Sp as (_ & V' & E); [lia |].
  destruct (ymd2ord_inj _ _ _ _ _ _ V' V E) as (-> & -> & ->). reflexivity.
Qed.

(** ** ISO weeks *)

Lemma ymd2ord_jan1 y : ymd2ord y 1 1 = days_before_year y + 1.
Proof. unfold ymd2ord, days_before_month. tables. lia. Qed.

(** Week 1 starts on a Monday at most three days away from January 1st. *)
Lemma isoweek1monday_spec y :
  (isoweek1monday y - 1) mod 7 = 0
  /\ days_before_year y - 2 <= isoweek1monday y <= days_before_year y + 4.
Proof.
  unfold isoweek1monday. cbv zeta. rewrite ymd2ord_jan1.
  generalize (days_before_year y). intros b.
  destruct (Z.ltb_spec 3 ((b + 1 + 6) mod 7)); Z.div_mod_to_equations; lia.
Qed.

Lemma weeks_in_year_spec y :
  isoweek1monday (y + 1) = isoweek1monday y + 7 * weeks_in_year y
  /\ (weeks_in_year y = 52 \/ weeks_in_year y = 53).
Proof.
  unfold weeks_in_year.
  pose proof (isoweek1monday_spec y) as A.
  pose proof (isoweek1monday_spec (y + 1)) as B.
  pose proof (days_before_year_succ y) as S1.
  destruct (is_leap y); Z.div_mod_to_equations; lia.
Qed.

(** The test [fromisocalendar] makes for week 53: the year starts on a
    Thursday, or on a Wednesday and is a leap year. *)
Lemma long_year_test y :
  ((ymd2ord y 1 1 mod 7 =? 4) || ((ymd2ord y 1 1 mod 7 =? 3) && is_leap y))
  = (weeks_in_year y =? 53).
Proof.
  apply eq_true_iff_eq.
  rewrite orb_true_iff, andb_true_iff, !Z.eqb_eq.
  unfold weeks_in_year, isoweek1monday. cbv zeta.
  rewrite !ymd2ord_jan1, days_before_year_succ.
  generalize (days_before_year y). intros b.
  destruct (is_leap y);
    destruct (Z.ltb_spec 3 ((b + 1 + 6) mod 7));
    destruct (Z.ltb_spec 3 ((b + 365 + 1 + 1 + 6) mod 7));
    destruct (Z.ltb_spec 3 ((b + 365 + 0 + 1 + 6) mod 7));
    Z.div_mod_to_equations; split; intros; try lia; try discriminate;
    intuition (try discriminate; try lia).
Qed.

Lemma iso_weekday_ord dt :
  iso_weekday (isocalendar dt) = (toordinal dt - 1) mod 7 + 1.
Proof.
  unfold isocalendar, toordinal. cbv zeta.
  pose proof (isoweek1monday_spec (year dt)) as A.
  pose proof (isoweek1monday_spec (year dt - 1)) as B.
  set (w1 := isoweek1monday (year dt)) in *.
  set (w0 := isoweek1monday (year dt - 1)) in *.
  set (n := ymd2ord (year dt) (month dt) (day dt)).
  clearbody w1 w0 n.
  destruct (_ <? 0); [| destruct (52 <=? _); [destruct (_ <=? n) |]];
    cbn [iso_weekday]; Z.div_mod_to_equations; lia.
Qed.

Lemma isoweek1monday_pos y : 1 <= y -> 1 <= isoweek1monday y.
Proof.
  intros H. destruct (Z.eq_dec y 1) as [-> | N]; [vm_compute; discriminate |].
  pose proof (isoweek1monday_spec y) as [_ A].
  pose proof (days_before_year_mono 2 y). change (days_before_year 2) with 365 in *.
  lia.
Qed.

(** The date [fromisocalendar] computes for week [w], day [d] of ISO year
    [y] has exactly that ISO calendar triple. *)
Lemma isocalendar_ord2ymd y w d :
  1 <= y -> 1 <= w <= weeks_in_year y -> 1 <= d <= 7 ->
  let '(y', m', d') := ord2ymd (isoweek1monday y + ((w - 1) * 7 + (d - 1))) in
  isocalendar (mkdate y' m' d') = mkiso y w d.
Proof.
  intros Hy Hw Hd.
  set (n := isoweek1monday y + ((w - 1) * 7 + (d - 1))).
  pose proof (isoweek1monday_pos y Hy) as P.
  pose proof (ord2ymd_spec n) as Sp.
  destruct (ord2ymd n) as [[y' m'] d'].
  destruct Sp as (Hy' & V & E); [lia |].
  pose proof (ymd2ord_bounds _ _ _ V) as B. rewrite E in B.
  pose proof (weeks_in_year_spec y) as [W1 W2].
  pose proof (weeks_in_year_spec (y - 1)) as [W3 W4].
  replace (y - 1 + 1) with y in W3 by lia.
  pose proof (weeks_in_year_spec (y + 1)) as [W5 W6].
  pose proof (isoweek1monday_spec (y - 1)) as [M0 R0].
  pose proof (isoweek1monday_spec y) as [M1 R1].
  pose proof (isoweek1monday_spec (y + 1)) as [M2 R2].
  pose proof (isoweek1monday_spec (y + 1 + 1)) as [M3 R3].
  pose proof (days_before_year_succ (y - 1)) as S0.
  replace (y - 1 + 1) with y in S0 by lia.
  pose proof (days_before_year_succ y) as S1.
  pose proof (days_before_year_succ (y + 1)) as S2.
  assert (Y : y' = y - 1 \/ y' = y \/ y' = y + 1).
  { destruct (Z_lt_le_dec y' (y - 1)) as [L | L].
    - pose proof (days_before_year_mono (y' + 1) (y - 1)).
      destruct (is_leap (y - 1)); lia.
    - destruct (Z_lt_le_dec (y + 1) y') as [L' | L'].
      + pose proof (days_before_year_mono (y + 1 + 1) y').
        destruct (is_leap y), (is_leap (y + 1)); lia.
      + lia. }
  unfold isocalendar. cbn [year month day]. cbv zeta. rewrite E.
  destruct Y as [-> | [-> | ->]].
  - replace (y - 1 + 1) with y in * by lia.
    set (w0 := isoweek1monday (y - 1)) in *. set (w1 := isoweek1monday y) in *.
    set (wm := isoweek1monday (y - 1 - 1)).
    clearbody w0 w1 wm.
    destruct (Z.ltb_spec ((n - w0) / 7) 0);
      [| destruct (Z.leb_spec 52 ((n - w0) / 7)); [destruct (Z.leb_spec w1 n) |]].
    all: try (exfalso; subst n; destruct (is_leap (y - 1));
              Z.div_mod_to_equations; lia).
    f_equal; subst n; destruct (is_leap (y - 1)); Z.div_mod_to_equations; lia.
  - set (w0 := isoweek1monday (y - 1)) in *. set (w1 := isoweek1monday y) in *.
    set (w2 := isoweek1monday (y + 1)) in *.
    clearbody w0 w1 w2.
    destruct (Z.ltb_spec ((n - w1) / 7) 0);
      [| destruct (Z.leb_spec 52 ((n - w1) / 7)); [destruct (Z.leb_spec w2 n) |]].
    all: try (exfalso; subst n; Z.div_mod_to_equations; lia).
    all: f_equal; subst n; Z.div_mod_to_equations; lia.
  - replace (y + 1 - 1) with y by lia.
    set (w1 := isoweek1monday y) in *. set (w2 := isoweek1monday (y + 1)) in *.
    set (w3 := isoweek1monday (y + 1 + 1)) in *.
    clearbody w1 w2 w3.
    destruct (Z.ltb_spec ((n - w2) / 7) 0);
      [| destruct (Z.leb_spec 52 ((n - w2) / 7)); [destruct (Z.leb_spec w3 n) |]].
    all: try (exfalso; subst n; destruct (is_leap y);
              Z.div_mod_to_equations; lia).
    f_equal; subst n; destruct (is_leap y); Z.div_mod_to_equations; lia.
Qed.

Lemma toordinal_date_of n :
  1 <= n ->
  toordinal (date_of (ord2ymd n)) = n
  /\ 1 <= year (date_of (ord2ymd n))
  /\ valid_ymd (year (date_of (ord2ymd n))) (month (date_of (ord2ymd n)))
       (day (date_of (ord2ymd n))).
Proof.
  intros H. pose proof (ord2ymd_spec n H) as Sp.
  destruct (ord2ymd n) as [[y m] d]. cbn. unfold toordinal. cbn. tauto.
Qed.

Lemma toordinal_lt_date_lt a b :
  valid_ymd (year a) (month a) (day a) ->
  valid_ymd (year b) (month b) (day b) ->
  toordinal a < toordinal b -> date_lt a b.
Proof.
  destruct a as [y m d], b as [y' m' d']. unfold toordinal, date_lt. cbn.
  intros V V' L.
  pose proof (ymd2ord_bounds _ _ _ V) as B.
  pose proof (ymd2ord_bounds _ _ _ V') as B'.
  destruct (Z.lt_trichotomy y y') as [Ly | [-> | Ly]]; [left; assumption | | exfalso].
  - right. split; [reflexivity |].
    destruct V as [Hm Hd], V' as [Hm' Hd'].
    unfold ymd2ord, days_before_month in L. unfold days_in_month in Hd, Hd'.
    destruct (Z.lt_trichotomy m m') as [Lm | [-> | Lm]]; [left; assumption | right; lia |].
    exfalso. month_cases m; month_cases m'; try lia; destruct (is_leap y'); tables; lia.
  - pose proof (days_before_year_mono (y' + 1) y). lia.
Qed.

Lemma iso_year_range dt :
  valid_date dt -> MINYEAR <= iso_year (isocalendar dt) <= MAXYEAR.
Proof.
  unfold valid_date, MINYEAR, MAXYEAR. intros [Hy V].
  pose proof (ymd2ord_bounds _ _ _ V) as B.
  unfold isocalendar. cbv zeta.
  set (n := ymd2ord (year dt) (month dt) (day dt)) in *.
  pose proof (isoweek1monday_spec (year dt)) as [_ R1].
  pose proof (isoweek1monday_spec (year dt + 1)) as [_ R2].
  destruct (Z.ltb_spec ((n - isoweek1monday (year dt)) / 7) 0) as [L | L].
  - cbn [iso_year]. destruct (Z.eq_dec (year dt) 1) as [E | N]; [| lia].
    exfalso. rewrite E in *. change (isoweek1monday 1) with 1 in L.
    change (days_before_year 1) with 0 in B. Z.div_mod_to_equations. lia.
  - destruct (52 <=? _); [destruct (Z.leb_spec (isoweek1monday (year dt + 1)) n) as [L' | L'] |];
      cbn [iso_year]; try lia.
    destruct (Z.eq_dec (year dt) 9999) as [E | N]; [| lia].
    exfalso. rewrite E in *.
    change (isoweek1monday (9999 + 1)) with 3652062 in L'.
    change (days_before_year (9999 + 1)) with 3652059 in B. lia.
Qed.

(** ** Seven consecutive days meet at most one month boundary *)

Lemma ord2ymd_same_month n y m d i :
  1 <= n -> ord2ymd n = (y, m, d) ->
  0 <= i -> d + i <= days_in_month y m ->
  ord2ymd (n + i) = (y, m, d + i).
Proof.
  intros Hn E Hi Hd. pose proof (ord2ymd_spec n Hn) as Sp. rewrite E in Sp.
  destruct Sp as (Hy & [Hm Hd'] & O).
  replace (n + i) with (ymd2ord y m (d + i)) by (unfold ymd2ord in *; lia).
  apply ord2ymd_ymd2ord; [assumption |]. split; lia.
Qed.

Lemma ord2ymd_next_month n y m d i :
  1 <= n -> ord2ymd n = (y, m, d) ->
  days_in_month y m < d + i <= days_in_month y m + 28 ->
  ord2ymd (n + i)
  = (fst (next_month y m), snd (next_month y m), d + i - days_in_month y m).
Proof.
  intros Hn E Hd. pose proof (ord2ymd_spec n Hn) as Sp. rewrite E in Sp.
  destruct Sp as (Hy & [Hm Hd'] & O).
  pose proof (month_start_succ y m Hm) as MS.
  unfold next_month. revert MS.
  destruct (Z.ltb_spec m 12) as [L | L]; intros MS; cbn [fst snd].
  - pose proof (days_in_month_bounds y (m + 1)).
    replace (n + i) with (ymd2ord y (m + 1) (d + i - days_in_month y m))
      by (unfold ymd2ord in *; lia).
    apply ord2ymd_ymd2ord; [assumption |]. split; lia.
  - pose proof (days_in_month_bounds (y + 1) 1).
    replace (n + i) with (ymd2ord (y + 1) 1 (d + i - days_in_month y m))
      by (unfold ymd2ord in *; lia).
    apply ord2ymd_ymd2ord; [lia |]. split; lia.
Qed.

Lemma week_months n :
  1 <= n ->
  exists j m1 m2,
    m1 <> m2 /\ 1 <= j /\
    forall i, 0 <= i < 7 ->
      month (date_of (ord2ymd (n + i))) = if i <? j then m1 else m2.
Proof.
  intros Hn. destruct (ord2ymd n) as [[y m] d] eqn:E.
  pose proof (ord2ymd_spec n Hn) as Sp. rewrite E in Sp.
  destruct Sp as (Hy & [Hm Hd] & O).
  pose proof (days_in_month_bounds y m Hm) as Bd.
  exists (days_in_month y m - d + 1), m, (snd (next_month y m)).
  split; [| split; [lia |]].
  - unfold next_month. destruct (Z.ltb_spec m 12); cbn [snd]; lia.
  - intros i Hi. destruct (Z.ltb_spec i (days_in_month y m - d + 1)) as [L | L].
    + rewrite (ord2ymd_same_month n y m d i Hn E) by lia. reflexivity.
    + rewrite (ord2ymd_next_month n y m d i Hn E) by lia. reflexivity.
Qed.

(** ** What [fromisocalendar] accepts and returns *)

Lemma isoweek_to_gregorian_week y w d :
  MINYEAR <= y <= MAXYEAR ->
  isoweek_to_gregorian y w d =
  if (1 <=? w) && (w <=? weeks_in_year y) then
    if (1 <=? d) && (d <=? 7) then inr (ord2ymd (week_day_ordinal y w d))
    else inl (InvalidWeekday d)
  else inl (InvalidWeek w).
Proof.
  intros Hy. unfold isoweek_to_gregorian, week_day_ordinal.
  replace ((MINYEAR <=? y) && (y <=? MAXYEAR)) with true
    by (symmetry; apply andb_true_iff; rewrite !Z.leb_le; lia).
  cbn [negb]. rewrite long_year_test.
  pose proof (weeks_in_year_spec y) as [_ W].
  destruct (Z.ltb_spec 0 w), (Z.ltb_spec w 53), (Z.eqb_spec w 53),
    (Z.eqb_spec (weeks_in_year y) 53), (Z.leb_spec 1 w),
    (Z.leb_spec w (weeks_in_year y)); cbn [andb negb]; try lia;
    destruct (Z.ltb_spec 0 d), (Z.ltb_spec d 8), (Z.leb_spec 1 d),
      (Z.leb_spec d 7); cbn [andb negb]; try lia; reflexivity.
Qed.

Lemma days_before_year_10000 : days_before_year 10000 = 3652059.
Proof. reflexivity. Qed.

(** A date after 9999-12-31 is met only on the last two days of week 52
    of year 9999. *)
Lemma week_day_ordinal_max y w d :
  MINYEAR <= y <= MAXYEAR -> 1 <= w <= weeks_in_year y -> 1 <= d <= 7 ->
  (week_day_ordinal y w d <= 3652059 <-> ~ (y = MAXYEAR /\ w = 52 /\ 6 <= d)).
Proof.
  unfold MINYEAR, MAXYEAR, week_day_ordinal. intros Hy Hw Hd.
  pose proof (weeks_in_year_spec y) as [W1 W2].
  destruct (Z.eq_dec y 9999) as [-> | N].
  - change (isoweek1monday 9999) with 3651698 in *.
    change (isoweek1monday (9999 + 1)) with 3652062 in W1. lia.
  - pose proof (isoweek1monday_spec (y + 1)) as [_ R].
    pose proof (days_before_year_mono (y + 1) 9999).
    change (days_before_year 9999) with 3651694 in *. lia.
Qed.

Lemma ord2ymd_year_max n :
  1 <= n <= 3652059 -> fst (fst (ord2ymd n)) <= MAXYEAR.
Proof.
  intros Hn. pose proof (ord2ymd_spec n) as Sp.
  destruct (ord2ymd n) as [[y m] d]. destruct Sp as (Hy & V & E); [lia |].
  cbn. unfold MAXYEAR.
  destruct (Z_le_gt_dec y 9999) as [L | L]; [assumption | exfalso].
  pose proof (ymd2ord_bounds _ _ _ V) as B.
  pose proof (days_before_year_mono 10000 y). rewrite days_before_year_10000 in *.
  lia.
Qed.

Lemma new_date_valid y m d :
  MINYEAR <= y <= MAXYEAR -> valid_ymd y m d ->
  new_date y m d = inr (mkdate y m d).
Proof.
  intros Hy [Hm Hd]. unfold new_date.
  destruct (Z.leb_spec MINYEAR y), (Z.leb_spec y MAXYEAR); try lia.
  destruct (Z.leb_spec 1 m), (Z.leb_spec m 12); try lia.
  destruct (Z.leb_spec 1 d), (Z.leb_spec d (days_in_month y m)); try lia.
  reflexivity.
Qed.

Lemma new_date_inr y m d dt :
  new_date y m d = inr dt -> dt = mkdate y m d /\ valid_date dt.
Proof.
  unfold new_date, valid_date, valid_ymd.
  destruct (Z.leb_spec MINYEAR y), (Z.leb_spec y MAXYEAR); cbn [andb negb];
    try discriminate.
  destruct (Z.leb_spec 1 m), (Z.leb_spec m 12); cbn [andb negb];
    try discriminate.
  destruct (Z.leb_spec 1 d), (Z.leb_spec d (days_in_month y m));
    cbn [andb negb]; try discriminate.
  intros [= <-]. cbn [year month day]. split; [reflexivity | lia].
Qed.

Lemma fromisocalendar_bad_year y w d :
  ~ MINYEAR <= y <= MAXYEAR ->
  fromisocalendar y w d = inl (YearOutOfRange y).
Proof.
  intros Hy. unfold fromisocalendar, isoweek_to_gregorian.
  replace ((MINYEAR <=? y) && (y <=? MAXYEAR)) with false; [reflexivity |].
  symmetry. apply andb_false_iff. rewrite !Z.leb_gt. lia.
Qed.

Lemma fromisocalendar_bad_week y w d :
  MINYEAR <= y <= MAXYEAR -> ~ 1 <= w <= weeks_in_year y ->
  fromisocalendar y w d = inl (InvalidWeek w).
Proof.
  intros Hy Hw. unfold fromisocalendar.
  rewrite isoweek_to_gregorian_week by assumption.
  replace ((1 <=? w) && (w <=? weeks_in_year y)) with false; [reflexivity |].
  symmetry. apply andb_false_iff. rewrite !Z.leb_gt. lia.
Qed.

Lemma fromisocalendar_bad_weekday y w d :
  MINYEAR <= y <= MAXYEAR -> 1 <= w <= weeks_in_year y -> ~ 1 <= d <= 7 ->
  fromisocalendar y w d = inl (InvalidWeekday d).
Proof.
  intros Hy Hw Hd. unfold fromisocalendar.
  rewrite isoweek_to_gregorian_week by assumption.
  replace ((1 <=? w) && (w <=? weeks_in_year y)) with true
    by (symmetry; apply andb_true_iff; rewrite !Z.leb_le; lia).
  replace ((1 <=? d) && (d <=? 7)) with false; [reflexivity |].
  symmetry. apply andb_false_iff. rewrite !Z.leb_gt. lia.
Qed.

Lemma fromisocalendar_in_range y w d :
  MINYEAR <= y <= MAXYEAR -> 1 <= w <= weeks_in_year y -> 1 <= d <= 7 ->
  fromisocalendar y w d
  = new_date (fst (fst (ord2ymd (week_day_ordinal y w d))))
             (snd (fst (ord2ymd (week_day_ordinal y w d))))
             (snd (ord2ymd (week_day_ordinal y w d))).
Proof.
  intros Hy Hw Hd. unfold fromisocalendar.
  rewrite isoweek_to_gregorian_week by assumption.
  replace ((1 <=? w) && (w <=? weeks_in_year y)) with true
    by (symmetry; apply andb_true_iff; rewrite !Z.leb_le; lia).
  replace ((1 <=? d) && (d <=? 7)) with true
    by (symmetry; apply andb_true_iff; rewrite !Z.leb_le; lia).
  destruct (ord2ymd (week_day_ordinal y w d)) as [[y' m'] d']. reflexivity.
Qed.

Lemma week_day_ordinal_pos y w d :
  1 <= y -> 1 <= w -> 1 <= d -> 1 <= week_day_ordinal y w d.
Proof.
  intros Hy Hw Hd. unfold week_day_ordinal.
  pose proof (isoweek1monday_pos y Hy). lia.
Qed.

(** [fromisocalendar] returns a date exactly on the weeks of the year and
    the days 1..7, the two days past 9999-12-31 apart. *)
Lemma fromisocalendar_ok y w d :
  MINYEAR <= y <= MAXYEAR -> 1 <= w <= weeks_in_year y -> 1 <= d <= 7 ->
  ~ (y = MAXYEAR /\ w = 52 /\ 6 <= d) ->
  fromisocalendar y w d = inr (date_of (ord2ymd (week_day_ordinal y w d))).
Proof.
  intros Hy Hw Hd Hmax. rewrite fromisocalendar_in_range by assumption.
  apply week_day_ordinal_max in Hmax; try assumption.
  assert (P : 1 <= week_day_ordinal y w d)
    by (apply week_day_ordinal_pos; unfold MINYEAR in *; lia).
  pose proof (ord2ymd_year_max (week_day_ordinal y w d)) as Ymax.
  pose proof (ord2ymd_spec (week_day_ordinal y w d) P) as Sp.
  destruct (ord2ymd (week_day_ordinal y w d)) as [[y' m'] d'].
  cbn [fst snd date_of] in *. destruct Sp as (Hy' & V & _).
  apply new_date_valid; [unfold MINYEAR, MAXYEAR in *; lia | assumption].
Qed.

Lemma fromisocalendar_inr y w d dt :
  fromisocalendar y w d = inr dt ->
  MINYEAR <= y <= MAXYEAR /\ 1 <= w <= weeks_in_year y /\ 1 <= d <= 7
  /\ dt = date_of (ord2ymd (week_day_ordinal y w d)) /\ valid_date dt.
Proof.
  intros H.
  assert (Hy : MINYEAR <= y <= MAXYEAR).
  { destruct (Z_le_dec MINYEAR y); [destruct (Z_le_dec y MAXYEAR) |];
      [lia | |]; rewrite fromisocalendar_bad_year in H by lia; discriminate H. }
  assert (Hw : 1 <= w <= weeks_in_year y).
  { destruct (Z_le_dec 1 w); [destruct (Z_le_dec w (weeks_in_year y)) |];
      [lia | |];
      rewrite fromisocalendar_bad_week in H by (assumption || lia);
      discriminate H. }
  assert (Hd : 1 <= d <= 7).
  { destruct (Z_le_dec 1 d); [destruct (Z_le_dec d 7) |]; [lia | |];
      rewrite fromisocalendar_bad_weekday in H by (assumption || lia);
      discriminate H. }
  rewrite fromisocalendar_in_range in H by assumption.
  destruct (ord2ymd (week_day_ordinal y w d)) as [[y' m'] d'].
  cbn [fst snd date_of] in *.
  apply new_date_inr in H. tauto.
Qed.

(** ** Running the program *)

Lemma workday_In days d :
  workday days d = true <-> In (iso_weekday (isocalendar d)) days.
Proof.
  unfold workday. rewrite existsb_exists. split.
  - intros (x & Hx & E). apply Z.eqb_eq in E. subst x. exact Hx.
  - intros H. exists (iso_weekday (isocalendar d)). split; [exact H | apply Z.eqb_refl].
Qed.

Lemma get_cfg_cached w st cfg :
  CFG st = Some cfg -> get_cfg w st = (inr cfg, st).
Proof.
  intros H. unfold get_cfg, bind, read_CFG. rewrite H. reflexivity.
Qed.

Lemma get_cfg_result w st cfg st' :
  get_cfg w st = (inr cfg, st') -> CFG st' = Some cfg.
Proof.
  unfold get_cfg, bind, read_CFG.
  destruct (CFG st) as [c |] eqn:E.
  - unfold ret. intros [= <- <-]. exact E.
  - destruct (Configuration_init w st) as [[e | c] st1]; [discriminate |].
    unfold set_CFG, ret. intros [= <- <-]. reflexivity.
Qed.

Lemma bind_inr {S A B} (c : Py.M S A) (k : A -> Py.M S B) st a st' :
  c st = (inr a, st') -> bind c k st = k a st'.
Proof. intros H. unfold bind. rewrite H. reflexivity. Qed.

Lemma bind_inl {S A B} (c : Py.M S A) (k : A -> Py.M S B) st e st' :
  c st = (inl e, st') -> bind c k st = (inl e, st').
Proof. intros H. unfold bind. rewrite H. reflexivity. Qed.

Lemma is_workday_run w st cfg st' days d :
  get_cfg w st = (inr cfg, st') -> work_days cfg = Some days ->
  (cfg <- get_cfg w ;; is_workday cfg d) st = (inr (workday days d), st').
Proof.
  intros G D. rewrite (bind_inr _ _ _ _ _ G).
  unfold is_workday. rewrite D. reflexivity.
Qed.

Lemma filter_workdays_cached w st cfg days l :
  CFG st = Some cfg -> work_days cfg = Some days ->
  filterM (fun day => cfg <- get_cfg w ;; is_workday cfg day) l st
  = (inr (filter (workday days) l), st).
Proof.
  intros C D. induction l as [| x xs IH]; [reflexivity |].
  cbn [filterM filter].
  rewrite (bind_inr _ _ _ _ _
             (is_workday_run w st cfg st days x (get_cfg_cached w st cfg C) D)).
  rewrite (bind_inr _ _ _ _ _ IH). reflexivity.
Qed.

Lemma filter_workdays w st cfg st' days l :
  get_cfg w st = (inr cfg, st') -> work_days cfg = Some days -> l <> [] ->
  filterM (fun day => cfg <- get_cfg w ;; is_workday cfg day) l st
  = (inr (filter (workday days) l), st').
Proof.
  intros G D N. destruct l as [| x xs]; [congruence |].
  cbn [filterM filter].
  rewrite (bind_inr _ _ _ _ _ (is_workday_run w st cfg st' days x G D)).
  rewrite (bind_inr _ _ _ _ _
             (filter_workdays_cached w st' cfg days xs
                (get_cfg_result _ _ _ _ G) D)).
  reflexivity.
Qed.

(** [get_day_from_week] only reads the clock. *)
Lemma get_day_from_week_run w week d st :
  get_day_from_week w week d st
  = (match fromisocalendar (get_current_year w) week d with
     | inr dt => inr dt
     | inl e => inl (ValueError e)
     end, st).
Proof.
  unfold get_day_from_week, lift_date.
  destruct (fromisocalendar _ _ _); reflexivity.
Qed.

Lemma mapM_days_state w week l st :
  snd (mapM (fun day => get_day_from_week w week day) l st) = st.
Proof.
  induction l as [| x xs IH]; [reflexivity |].
  cbn [mapM]. unfold bind at 1. rewrite get_day_from_week_run.
  destruct (fromisocalendar _ _ _); [reflexivity |].
  unfold bind at 1.
  destruct (mapM _ xs st) as [[e | ys] st1] eqn:E; cbn in *; congruence.
Qed.

Lemma mapM_days_inr w week l st ds st1 :
  mapM (fun day => get_day_from_week w week day) l st = (inr ds, st1) ->
  Forall2 (fun d dt => fromisocalendar (get_current_year w) week d = inr dt) l ds.
Proof.
  revert ds. induction l as [| x xs IH]; intros ds.
  - cbn. intros [= <- <-]. constructor.
  - cbn [mapM]. unfold bind at 1. rewrite get_day_from_week_run.
    destruct (fromisocalendar _ _ x) as [e | dt] eqn:F; [discriminate |].
    unfold bind at 1.
    pose proof (mapM_days_state w week xs st) as S1.
    destruct (mapM _ xs st) as [[e | ys] st2]; [discriminate |].
    unfold ret. intros [= <- <-]. constructor; [exact F | apply IH; cbn in S1; congruence].
Qed.

Lemma mapM_days_ok w week l st :
  Forall (fun d => exists dt, fromisocalendar (get_current_year w) week d = inr dt) l ->
  exists ds, mapM (fun day => get_day_from_week w week day) l st = (inr ds, st)
    /\ Forall2 (fun d dt => fromisocalendar (get_current_year w) week d = inr dt) l ds.
Proof.
  induction 1 as [| x xs [dt F] _ (ys & IH & F2)].
  - exists []. split; [reflexivity | constructor].
  - exists (dt :: ys). split; [| constructor; assumption].
    cbn [mapM]. unfold bind at 1. rewrite get_day_from_week_run, F.
    unfold bind at 1. rewrite IH. reflexivity.
Qed.

Lemma week_range : range 1 (DAYS_IN_A_WEEK + 1) = [1; 2; 3; 4; 5; 6; 7].
Proof. reflexivity. Qed.

Lemma week_days_state w week st : snd (week_days w week st) = st.
Proof. apply mapM_days_state. Qed.

(** When [week_days] returns, it returns the week's seven dates. *)
Lemma week_days_inr w week st ds st1 :
  week_days w week st = (inr ds, st1) ->
  st1 = st /\ ds = week_of (get_current_year w) week
  /\ MINYEAR <= get_current_year w <= MAXYEAR
  /\ 1 <= week <= weeks_in_year (get_current_year w)
  /\ Forall valid_date ds.
Proof.
  intros H. pose proof (week_days_state w week st) as S1.
  rewrite H in S1. cbn in S1. split; [exact S1 |].
  unfold week_days in H. rewrite week_range in H.
  apply mapM_days_inr in H.
  repeat match goal with
         | H : Forall2 _ (_ :: _) _ |- _ => inversion H; subst; clear H
         | H : Forall2 _ [] _ |- _ => inversion H; subst; clear H
         end.
  repeat match goal with
         | H : fromisocalendar _ _ _ = inr _ |- _ =>
             apply fromisocalendar_inr in H;
             destruct H as (? & ? & ? & ? & ?)
         end.
  subst. repeat split; try assumption; try lia.
  repeat (apply Forall_cons; [assumption |]). apply Forall_nil.
Qed.

(** ** Lists *)

Section ListFacts.
Context {A : Type}.

Lemma filter_keeps_all (p : A -> bool) (l : list A) :
  Forall (fun x => p x = true) l -> filter p l = l.
Proof.
  induction 1 as [| x xs Hx _ IH]; [reflexivity |].
  cbn. rewrite Hx, IH. reflexivity.
Qed.

Lemma filter_keeps_none (p : A -> bool) (l : list A) :
  Forall (fun x => p x = false) l -> filter p l = [].
Proof.
  induction 1 as [| x xs Hx _ IH]; [reflexivity |].
  cbn. rewrite Hx. exact IH.
Qed.

Lemma Forall_filter_keep (P : A -> Prop) (p : A -> bool) (l : list A) :
  Forall P l -> Forall P (filter p l).
Proof.
  induction 1 as [| x xs Hx _ IH]; [constructor |].
  cbn. destruct (p x); [constructor |]; assumption.
Qed.

Lemma sorted_filter (R : A -> A -> Prop) (p : A -> bool) (l : list A) :
  StronglySorted R l -> StronglySorted R (filter p l).
Proof.
  induction 1 as [| x xs _ IH Hx]; [constructor |].
  cbn. destruct (p x); [| exact IH].
  constructor; [exact IH | apply Forall_filter_keep; exact Hx].
Qed.

Lemma sorted_app_l (R : A -> A -> Prop) (a b : list A) :
  StronglySorted R (a ++ b)%list -> StronglySorted R a.
Proof.
  induction a as [| x xs IH]; [constructor |].
  cbn. intros H. apply StronglySorted_inv in H. destruct H as [H1 H2].
  constructor; [apply IH; exact H1 |].
  apply Forall_app in H2. apply H2.
Qed.

Lemma sorted_app_r (R : A -> A -> Prop) (a b : list A) :
  StronglySorted R (a ++ b)%list -> StronglySorted R b.
Proof.
  induction a as [| x xs IH]; [trivial |].
  cbn. intros H. apply StronglySorted_inv in H. apply IH, H.
Qed.

Lemma last_cons_app (a : list A) (x : A) (b : list A) (d : A) :
  last (a ++ x :: b)%list d = last (x :: b) d.
Proof.
  induction a as [| y ys IH]; [reflexivity |].
  cbn [app]. change (last (y :: (ys ++ x :: b)%list) d)
    with (match (ys ++ x :: b)%list with
          | [] => y
          | _ :: _ => last (ys ++ x :: b)%list d
          end).
  destruct (ys ++ x :: b)%list eqn:E; [| exact IH].
  destruct ys; discriminate.
Qed.

Lemma last_In (l : list A) (x d : A) : In (last (x :: l) d) (x :: l).
Proof.
  revert x. induction l as [| y ys IH]; intros x; [left; reflexivity |].
  right. apply IH.
Qed.

Lemma nth_error_last (l : list A) (x d : A) :
  nth_error (x :: l) (List.length l) = Some (last (x :: l) d).
Proof.
  revert x. induction l as [| y ys IH]; intros x; [reflexivity |].
  apply IH.
Qed.
End ListFacts.

(** Indexing a list at 0 and at -1. *)
Lemma getitem_nil {S A} (i : Z) (st : S) :
  getitem (@nil A) i st = (inl IndexError, st).
Proof.
  unfold getitem. cbn [List.length Z.of_nat].
  destruct (i <? 0); destruct (Z.leb_spec 0 (i + 0)), (Z.ltb_spec (i + 0) 0),
    (Z.leb_spec 0 i), (Z.ltb_spec i 0); cbn [andb]; try lia; reflexivity.
Qed.

Lemma getitem_first {S A} (x : A) (l : list A) (st : S) :
  getitem (x :: l) 0 st = (inr x, st).
Proof.
  unfold getitem. cbn [List.length]. rewrite Nat2Z.inj_succ.
  change (0 <? 0) with false. cbv iota.
  destruct (Z.ltb_spec 0 (Z.succ (Z.of_nat (List.length l)))); [| lia].
  reflexivity.
Qed.

Lemma getitem_last {S A} (x : A) (l : list A) (st : S) :
  getitem (x :: l) (-1) st = (inr (last (x :: l) x), st).
Proof.
  unfold getitem. cbn [List.length]. rewrite Nat2Z.inj_succ.
  change (-1 <? 0) with true. cbv iota.
  replace (-1 + Z.succ (Z.of_nat (List.length l))) with (Z.of_nat (List.length l)) by lia.
  destruct (Z.leb_spec 0 (Z.of_nat (List.length l))); [| lia].
  destruct (Z.ltb_spec (Z.of_nat (List.length l)) (Z.succ (Z.of_nat (List.length l)))); [| lia].
  cbn [andb]. rewrite Nat2Z.id, (nth_error_last l x x). reflexivity.
Qed.

(** ** [get_list_of_days], step by step *)

Lemma get_list_of_days_eval w week st ds cfg st' days :
  week_days w week st = (inr ds, st) ->
  get_cfg w st = (inr cfg, st') ->
  work_days cfg = Some days ->
  ds <> [] ->
  get_list_of_days w week st = (month_split (filter (workday days) ds), st').
Proof.
  intros W G D N. unfold get_list_of_days.
  rewrite (bind_inr _ _ _ _ _ W).
  rewrite (bind_inr _ _ _ _ _ (filter_workdays w st cfg st' days ds G D N)).
  destruct (filter (workday days) ds) as [| x xs] eqn:F.
  - rewrite (bind_inl _ _ _ _ _ (getitem_nil 0 st')). reflexivity.
  - rewrite (bind_inr _ _ _ _ _ (getitem_first x xs st')).
    rewrite (bind_inr _ _ _ _ _ (getitem_last x xs st')).
    unfold month_split.
    destruct (negb (month x =? month (last (x :: xs) x))); [| reflexivity].
    rewrite (bind_inr _ _ _ _ _ (getitem_first x xs st')).
    rewrite (bind_inr _ _ _ _ _ (getitem_last x xs st')).
    reflexivity.
Qed.

(** A list made of a block of month [m1] followed by a block of another
    month [m2] is split into these blocks. *)
Lemma month_split_blocks (a b : list date) (m1 m2 : Z) :
  Forall (fun d => month d = m1) a -> Forall (fun d => month d = m2) b ->
  m1 <> m2 ->
  month_split (a ++ b)%list
  = match a, b with
    | [], [] => inl IndexError
    | [], _ => inr [b]
    | _, [] => inr [a]
    | _, _ => inr [a; b]
    end.
Proof.
  intros Ha Hb N. destruct a as [| x xs].
  - destruct b as [| y ys]; [reflexivity |].
    cbn [app]. unfold month_split.
    assert (L : In (last (y :: ys) y) (y :: ys)) by apply last_In.
    rewrite Forall_forall in Hb.
    rewrite (Hb y (or_introl eq_refl)), (Hb _ L), Z.eqb_refl. reflexivity.
  - destruct b as [| y ys].
    + rewrite app_nil_r. unfold month_split.
      assert (L : In (last (x :: xs) x) (x :: xs)) by apply last_In.
      rewrite Forall_forall in Ha.
      rewrite (Ha x (or_introl eq_refl)), (Ha _ L), Z.eqb_refl. reflexivity.
    + change ((x :: xs) ++ y :: ys)%list with (x :: (xs ++ y :: ys)%list).
      unfold month_split.
      change (x :: (xs ++ y :: ys)%list) with ((x :: xs) ++ y :: ys)%list.
      rewrite last_cons_app.
      assert (L : In (last (y :: ys) x) (y :: ys)) by apply last_In.
      pose proof Ha as Ha'. pose proof Hb as Hb'.
      rewrite Forall_forall in Ha', Hb'.
      rewrite (Ha' x (or_introl eq_refl)), (Hb' _ L).
      destruct (Z.eqb_spec m1 m2) as [E | _]; [contradiction |]. cbn [negb].
      rewrite !filter_app.
      rewrite (filter_keeps_all (fun day => month day =? m1) (x :: xs)),
              (filter_keeps_none (fun day => month day =? m1) (y :: ys)),
              (filter_keeps_none (fun day => month day =? m2) (x :: xs)),
              (filter_keeps_all (fun day => month day =? m2) (y :: ys)).
      * rewrite app_nil_r. reflexivity.
      * eapply Forall_impl; [| exact Hb]. cbn. intros d ->. apply Z.eqb_refl.
      * eapply Forall_impl; [| exact Ha]. cbn. intros d ->. apply Z.eqb_neq. exact N.
      * eapply Forall_impl; [| exact Hb]. cbn. intros d ->. apply Z.eqb_neq. congruence.
      * eapply Forall_impl; [| exact Ha]. cbn. intros d ->. apply Z.eqb_refl.
Qed.

(** ** The seven dates of a week *)

Lemma week_day_ordinal_shift y w d :
  week_day_ordinal y w d = week_day_ordinal y w 1 + (d - 1).
Proof. unfold week_day_ordinal. lia. Qed.

Lemma week_of_toordinal y w :
  1 <= y -> 1 <= w ->
  map toordinal (week_of y w) = map (week_day_ordinal y w) [1; 2; 3; 4; 5; 6; 7].
Proof.
  intros Hy Hw. unfold week_of. rewrite map_map. apply map_ext_in.
  intros d Hd. apply toordinal_date_of, week_day_ordinal_pos; try assumption.
  cbn in Hd. lia.
Qed.

Lemma week_of_valid y w :
  1 <= y -> 1 <= w ->
  Forall (fun dt => valid_ymd (year dt) (month dt) (day dt)) (week_of y w).
Proof.
  intros Hy Hw. unfold week_of. apply Forall_map, Forall_forall.
  intros d Hd. apply toordinal_date_of, week_day_ordinal_pos; try assumption.
  cbn in Hd. lia.
Qed.

Lemma sorted_by_ordinal (l : list date) :
  Forall (fun dt => valid_ymd (year dt) (month dt) (day dt)) l ->
  StronglySorted Z.lt (map toordinal l) -> StronglySorted date_lt l.
Proof.
  induction 1 as [| x xs Hx Hxs IH]; [constructor |].
  cbn [map]. intros S. apply StronglySorted_inv in S. destruct S as [S1 S2].
  constructor; [apply IH; exact S1 |].
  rewrite Forall_forall in *. intros z Hz.
  apply toordinal_lt_date_lt; [exact Hx | apply Hxs; exact Hz |].
  apply S2, in_map, Hz.
Qed.

Lemma week_of_sorted y w :
  1 <= y -> 1 <= w -> StronglySorted date_lt (week_of y w).
Proof.
  intros Hy Hw. apply sorted_by_ordinal; [apply week_of_valid; assumption |].
  rewrite week_of_toordinal by assumption. unfold week_day_ordinal. cbn [map].
  repeat (constructor; [| repeat (constructor; [lia |]); constructor]).
  constructor.
Qed.

Lemma week_of_NoDup y w : 1 <= y -> 1 <= w -> NoDup (week_of y w).
Proof.
  intros Hy Hw. apply (NoDup_map_inv toordinal).
  rewrite week_of_toordinal by assumption. unfold week_day_ordinal. cbn [map].
  repeat (constructor; [cbn [In]; lia |]). constructor.
Qed.

Ltac blocks :=
  repeat split; try assumption;
  repeat (apply Forall_cons; [assumption |]); apply Forall_nil.

(** A week is a block of days of one month, followed (when the month ends
    inside the week) by a block of days of the next month. *)
Lemma week_of_months y w :
  1 <= y -> 1 <= w ->
  exists a b m1 m2,
    week_of y w = (a ++ b)%list
    /\ Forall (fun d => month d = m1) a /\ Forall (fun d => month d = m2) b
    /\ m1 <> m2.
Proof.
  intros Hy Hw.
  assert (P : 1 <= week_day_ordinal y w 1)
    by (apply week_day_ordinal_pos; lia).
  destruct (week_months _ P) as (j & m1 & m2 & N & Hj & Hm).
  assert (Hd : forall d, 1 <= d <= 7 ->
                 month (date_of (ord2ymd (week_day_ordinal y w d)))
                 = if d - 1 <? j then m1 else m2).
  { intros d Hd. rewrite week_day_ordinal_shift. apply Hm. lia. }
  pose proof (Hd 1 ltac:(lia)) as H1. pose proof (Hd 2 ltac:(lia)) as H2.
  pose proof (Hd 3 ltac:(lia)) as H3. pose proof (Hd 4 ltac:(lia)) as H4.
  pose proof (Hd 5 ltac:(lia)) as H5. pose proof (Hd 6 ltac:(lia)) as H6.
  pose proof (Hd 7 ltac:(lia)) as H7. clear Hd Hm.
  change (1 - 1) with 0 in H1. change (2 - 1) with 1 in H2.
  change (3 - 1) with 2 in H3. change (4 - 1) with 3 in H4.
  change (5 - 1) with 4 in H5. change (6 - 1) with 5 in H6.
  change (7 - 1) with 6 in H7.
  unfold week_of. cbn [map].
  set (D1 := date_of (ord2ymd (week_day_ordinal y w 1))) in *.
  set (D2 := date_of (ord2ymd (week_day_ordinal y w 2))) in *.
  set (D3 := date_of (ord2ymd (week_day_ordinal y w 3))) in *.
  set (D4 := date_of (ord2ymd (week_day_ordinal y w 4))) in *.
  set (D5 := date_of (ord2ymd (week_day_ordinal y w 5))) in *.
  set (D6 := date_of (ord2ymd (week_day_ordinal y w 6))) in *.
  set (D7 := date_of (ord2ymd (week_day_ordinal y w 7))) in *.
  destruct (Z.ltb_spec 0 j), (Z.ltb_spec 1 j), (Z.ltb_spec 2 j),
    (Z.ltb_spec 3 j), (Z.ltb_spec 4 j), (Z.ltb_spec 5 j), (Z.ltb_spec 6 j);
    try lia.
  - exists [D1; D2; D3; D4; D5; D6; D7], [], m1, m2.
    blocks.
  - exists [D1; D2; D3; D4; D5; D6], [D7], m1, m2.
    blocks.
  - exists [D1; D2; D3; D4; D5], [D6; D7], m1, m2.
    blocks.
  - exists [D1; D2; D3; D4], [D5; D6; D7], m1, m2.
    blocks.
  - exists [D1; D2; D3], [D4; D5; D6; D7], m1, m2.
    blocks.
  - exists [D1; D2], [D3; D4; D5; D6; D7], m1, m2.
    blocks.
  - exists [D1], [D2; D3; D4; D5; D6; D7], m1, m2.
    blocks.
Qed.

Lemma week_of_isocalendar y w :
  1 <= y -> 1 <= w <= weeks_in_year y ->
  map isocalendar (week_of y w) = map (mkiso y w) [1; 2; 3; 4; 5; 6; 7].
Proof.
  intros Hy Hw. unfold week_of. rewrite map_map. apply map_ext_in.
  intros d Hd. pose proof (isocalendar_ord2ymd y w d Hy Hw) as I.
  unfold week_day_ordinal.
  destruct (ord2ymd _) as [[y' m'] d']. apply I. cbn in Hd. lia.
Qed.

(** * The report builder *)

(** The filtered days of a week are a block of one month, followed by a
    block of another month. *)
Lemma work_blocks y w (p : date -> bool) :
  1 <= y -> 1 <= w ->
  exists g1 g2 m1 m2,
    filter p (week_of y w) = (g1 ++ g2)%list
    /\ Forall (fun d => month d = m1) g1 /\ Forall (fun d => month d = m2) g2
    /\ m1 <> m2.
Proof.
  intros Hy Hw. destruct (week_of_months y w Hy Hw) as (a & b & m1 & m2 & E & A & B & N).
  exists (filter p a), (filter p b), m1, m2. rewrite E, filter_app.
  repeat split; try assumption; apply Forall_filter_keep; assumption.
Qed.

Lemma week_days_year w week st ds :
  week_days w week st = (inr ds, st) ->
  ds = week_of (get_current_year w) week
  /\ 1 <= get_current_year w /\ 1 <= week.
Proof.
  intros H. apply week_days_inr in H. unfold MINYEAR in H. intuition lia.
Qed.

(** C1: for a week whose seven dates resolve and whose filtered list is not
    empty, the groups [get_list_of_days] returns, put end to end, are
    exactly the dates of the week whose ISO weekday number is one of the
    configured work days, in date order, none twice and none left out. *)
Theorem working_days_are_the_filtered_week w week st ds cfg st' days :
  week_days w week st = (inr ds, st) ->
  get_cfg w st = (inr cfg, st') ->
  work_days cfg = Some days ->
  filter (workday days) ds <> [] ->
  exists groups,
    get_list_of_days w week st = (inr groups, st')
    /\ List.concat groups = filter (workday days) ds
    /\ (forall d, In d (List.concat groups)
                  <-> In d ds /\ In (iso_weekday (isocalendar d)) days)
    /\ StronglySorted date_lt (List.concat groups)
    /\ NoDup (List.concat groups).
Proof.
  intros W G D N.
  destruct (week_days_year w week st ds W) as (E & Hy & Hw).
  assert (Nds : ds <> []) by (intros ->; apply N; reflexivity).
  rewrite (get_list_of_days_eval w week st ds cfg st' days W G D Nds).
  assert (X : exists groups,
             month_split (filter (workday days) ds) = inr groups
             /\ List.concat groups = filter (workday days) ds).
  { subst ds.
    destruct (work_blocks _ _ (workday days) Hy Hw) as (g1 & g2 & m1 & m2 & F & A & B & M).
    rewrite F in *. rewrite (month_split_blocks g1 g2 m1 m2 A B M).
    destruct g1 as [| x xs], g2 as [| z zs].
    - exfalso. apply N. reflexivity.
    - exists [z :: zs]. split; [reflexivity |]. cbn. rewrite app_nil_r. reflexivity.
    - exists [x :: xs]. split; [reflexivity |]. cbn. rewrite !app_nil_r. reflexivity.
    - exists [x :: xs; z :: zs]. split; [reflexivity |].
      cbn [List.concat]. rewrite app_nil_r. reflexivity. }
  destruct X as (groups & S & C). exists groups. rewrite S, C.
  split; [reflexivity |]. split; [reflexivity |]. split; [| split].
  - intros d. rewrite filter_In, workday_In. reflexivity.
  - subst ds. apply sorted_filter, week_of_sorted; assumption.
  - subst ds. apply NoDup_filter, week_of_NoDup; assumption.
Qed.

Lemma working_days_are_the_filtered_week_witness :
  exists groups,
    get_list_of_days (default_world example_today) 9 initial_state
    = (inr groups, loaded_state)
    /\ List.concat groups = filter (workday [1; 2; 3; 4; 5]) example_week
    /\ (forall d, In d (List.concat groups)
                  <-> In d example_week
                      /\ In (iso_weekday (isocalendar d)) [1; 2; 3; 4; 5])
    /\ StronglySorted date_lt (List.concat groups)
    /\ NoDup (List.concat groups).
Proof.
  apply (working_days_are_the_filtered_week
           (default_world example_today) 9 initial_state example_week
           default_cfg loaded_state [1; 2; 3; 4; 5]).
  - vm_compute. reflexivity.
  - vm_compute. reflexivity.
  - reflexivity.
  - vm_compute. discriminate.
Defined.

(** C2: when the filtered days of a week lie in two different months,
    [get_list_of_days] returns exactly two groups, the filtered days of the
    first day's month and then those of the last day's month; the two
    groups, one after the other, are the filtered list itself, so each is
    an unbroken run of it in date order.  When all filtered days share one
    month it returns the one group holding them all. *)
Theorem working_days_split_by_month w week st ds cfg st' days first rest :
  week_days w week st = (inr ds, st) ->
  get_cfg w st = (inr cfg, st') ->
  work_days cfg = Some days ->
  filter (workday days) ds = first :: rest ->
  let work := first :: rest in
  let last_day := last work first in
  let first_month_days := filter (fun d => month d =? month first) work in
  let last_month_days := filter (fun d => month d =? month last_day) work in
  ((exists d1 d2, In d1 work /\ In d2 work /\ month d1 <> month d2) ->
   get_list_of_days w week st
   = (inr [first_month_days; last_month_days], st')
   /\ (first_month_days ++ last_month_days)%list = work
   /\ first_month_days <> [] /\ last_month_days <> []
   /\ month first <> month last_day
   /\ StronglySorted date_lt first_month_days
   /\ StronglySorted date_lt last_month_days)
  /\ ((forall d1 d2, In d1 work -> In d2 work -> month d1 = month d2) ->
      get_list_of_days w week st = (inr [work], st')).
Proof.
  intros W G D F work last_day g1' g2'.
  destruct (week_days_year w week st ds W) as (E & Hy & Hw).
  assert (Nds : ds <> []) by (intros ->; discriminate F).
  rewrite (get_list_of_days_eval w week st ds cfg st' days W G D Nds).
  assert (Sw : StronglySorted date_lt work).
  { subst work. rewrite <- F. subst ds.
    apply sorted_filter, week_of_sorted; assumption. }
  rewrite F. fold work.
  subst ds.
  destruct (work_blocks _ _ (workday days) Hy Hw)
    as (g1 & g2 & m1 & m2 & B & A1 & A2 & M).
  rewrite F in B. fold work in B.
  pose proof (month_split_blocks g1 g2 m1 m2 A1 A2 M) as MS.
  rewrite <- B in MS.
  assert (U : month_split work
              = if negb (month first =? month last_day)
                then inr [g1'; g2'] else inr [work]) by reflexivity.
  assert (In1 : forall d, In d work -> month d = m1 \/ month d = m2).
  { intros d Hd. rewrite B in Hd. apply in_app_or in Hd.
    rewrite Forall_forall in A1, A2. destruct Hd; [left | right]; auto. }
  split.
  - intros (d1 & d2 & H1 & H2 & Hne).
    destruct g1 as [| x xs].
    { exfalso. apply Hne. rewrite Forall_forall in A2. cbn [app] in B.
      rewrite B in H1, H2. rewrite (A2 _ H1), (A2 _ H2). reflexivity. }
    destruct g2 as [| z zs].
    { exfalso. apply Hne. rewrite Forall_forall in A1. rewrite app_nil_r in B.
      rewrite B in H1, H2. rewrite (A1 _ H1), (A1 _ H2). reflexivity. }
    rewrite MS in U.
    destruct (negb (month first =? month last_day)) eqn:T.
    + injection U as U1 U2. rewrite <- U1, <- U2.
      split; [rewrite MS; reflexivity |].
      split; [symmetry; exact B |].
      split; [discriminate |]. split; [discriminate |].
      split; [apply negb_true_iff, Z.eqb_neq in T; exact T |].
      rewrite B in Sw. split; [eapply sorted_app_l | eapply sorted_app_r]; exact Sw.
    + discriminate U.
  - intros Same. rewrite U.
    assert (T : month first = month last_day).
    { apply Same; [left; reflexivity | apply last_In]. }
    rewrite T, Z.eqb_refl. reflexivity.
Qed.

Lemma working_days_split_by_month_witness :
  let work := example_work in
  let last_day := last work (mkdate 2024 2 26) in
  let first_month_days :=
    filter (fun d => month d =? month (mkdate 2024 2 26)) work in
  let last_month_days := filter (fun d => month d =? month last_day) work in
  ((exists d1 d2, In d1 work /\ In d2 work /\ month d1 <> month d2) ->
   get_list_of_days (default_world example_today) 9 initial_state
   = (inr [first_month_days; last_month_days], loaded_state)
   /\ (first_month_days ++ last_month_days)%list = work
   /\ first_month_days <> [] /\ last_month_days <> []
   /\ month (mkdate 2024 2 26) <> month last_day
   /\ StronglySorted date_lt first_month_days
   /\ StronglySorted date_lt last_month_days)
  /\ ((forall d1 d2, In d1 work -> In d2 work -> month d1 = month d2) ->
      get_list_of_days (default_world example_today) 9 initial_state
      = (inr [work], loaded_state)).
Proof.
  apply (working_days_split_by_month
           (default_world example_today) 9 initial_state example_week
           default_cfg loaded_state [1; 2; 3; 4; 5]
           (mkdate 2024 2 26)
           [mkdate 2024 2 27; mkdate 2024 2 28; mkdate 2024 2 29;
            mkdate 2024 3 1]).
  - vm_compute. reflexivity.
  - vm_compute. reflexivity.
  - reflexivity.
  - vm_compute. reflexivity.
Defined.

(** C8: when none of the week's seven dates falls on a configured work
    day, the filtered list is empty and [get_list_of_days] fails with the
    [IndexError] of indexing its first element; it does not return an empty
    split. *)
Theorem no_working_day_fails w week st ds cfg st' days :
  week_days w week st = (inr ds, st) ->
  get_cfg w st = (inr cfg, st') ->
  work_days cfg = Some days ->
  (forall d, In d ds -> ~ In (iso_weekday (isocalendar d)) days) ->
  filter (workday days) ds = []
  /\ getitem (filter (workday days) ds) 0 st' = (inl IndexError, st')
  /\ get_list_of_days w week st = (inl IndexError, st').
Proof.
  intros W G D N.
  destruct (week_days_inr w week st ds st W) as (_ & E & _).
  assert (Nds : ds <> []) by (rewrite E; discriminate).
  assert (F : filter (workday days) ds = []).
  { apply filter_keeps_none, Forall_forall. intros d Hd.
    destruct (workday days d) eqn:Wd; [| reflexivity].
    exfalso. apply (N d Hd), workday_In, Wd. }
  rewrite (get_list_of_days_eval w week st ds cfg st' days W G D Nds), F.
  repeat split.
Qed.

Lemma no_working_day_fails_witness :
  filter (workday []) example_week = []
  /\ getitem (filter (workday []) example_week) 0 (mkstate (Some idle_cfg) "")
     = (inl IndexError, mkstate (Some idle_cfg) "")
  /\ get_list_of_days (idle_world example_today) 9 initial_state
     = (inl IndexError, mkstate (Some idle_cfg) "").
Proof.
  apply (no_working_day_fails (idle_world example_today) 9 initial_state
           example_week idle_cfg (mkstate (Some idle_cfg) "") []).
  - vm_compute. reflexivity.
  - vm_compute. reflexivity.
  - reflexivity.
  - intros d _ H. destruct H.
Defined.

(** * The date resolver *)

Lemma current_year_range w :
  valid_date (today w) -> MINYEAR <= get_current_year w <= MAXYEAR.
Proof. apply iso_year_range. Qed.

Lemma week_days_bad_week w week st :
  MINYEAR <= get_current_year w <= MAXYEAR ->
  ~ 1 <= week <= weeks_in_year (get_current_year w) ->
  week_days w week st = (inl (ValueError (InvalidWeek week)), st).
Proof.
  intros Hy Hw. unfold week_days. rewrite week_range. cbn [mapM].
  apply bind_inl. rewrite get_day_from_week_run.
  rewrite fromisocalendar_bad_week by assumption. reflexivity.
Qed.

(** C3, as the code has it: [get_day_from_week] returns a date only for a
    week of the current ISO year, 1 to 52 or 53, and that date lies in
    this very week of this very ISO year; for any other week number, so
    for every week number below 1 or past the year's last week, it raises
    [ValueError], and so does [week_days]. *)
Theorem get_day_from_week_domain w week st :
  valid_date (today w) ->
  let y := get_current_year w in
  (forall d, 1 <= week <= weeks_in_year y -> 1 <= d <= 7 ->
             ~ (y = MAXYEAR /\ week = 52 /\ 6 <= d) ->
             exists dt, get_day_from_week w week d st = (inr dt, st)
                        /\ isocalendar dt = mkiso y week d)
  /\ (forall d, ~ 1 <= week <= weeks_in_year y ->
                get_day_from_week w week d st
                = (inl (ValueError (InvalidWeek week)), st))
  /\ (~ 1 <= week <= weeks_in_year y ->
      week_days w week st = (inl (ValueError (InvalidWeek week)), st)).
Proof.
  intros V y. pose proof (current_year_range w V) as Hy. fold y in Hy.
  split; [| split].
  - intros d Hw Hd Hmax.
    exists (date_of (ord2ymd (week_day_ordinal y week d))). split.
    + rewrite get_day_from_week_run. fold y.
      rewrite fromisocalendar_ok by assumption. reflexivity.
    + pose proof (isocalendar_ord2ymd y week d) as I.
      unfold week_day_ordinal. unfold MINYEAR in Hy.
      destruct (ord2ymd _) as [[y' m'] d']. apply I; lia.
  - intros d Hw. rewrite get_day_from_week_run. fold y.
    rewrite fromisocalendar_bad_week by assumption. reflexivity.
  - intros Hw. apply week_days_bad_week; assumption.
Qed.

Lemma get_day_from_week_domain_witness :
  valid_date example_today
  /\ (let y := get_current_year (default_world example_today) in
      (forall d, 1 <= 9 <= weeks_in_year y -> 1 <= d <= 7 ->
                 ~ (y = MAXYEAR /\ 9 = 52 /\ 6 <= d) ->
                 exists dt,
                   get_day_from_week (default_world example_today) 9 d
                     initial_state = (inr dt, initial_state)
                   /\ isocalendar dt = mkiso y 9 d)
      /\ (forall d, ~ 1 <= 9 <= weeks_in_year y ->
                    get_day_from_week (default_world example_today) 9 d
                      initial_state
                    = (inl (ValueError (InvalidWeek 9)), initial_state))
      /\ (~ 1 <= 9 <= weeks_in_year y ->
          week_days (default_world example_today) 9 initial_state
          = (inl (ValueError (InvalidWeek 9)), initial_state))).
Proof.
  assert (V : valid_date example_today)
    by (repeat split; vm_compute; discriminate).
  split; [exact V |].
  apply (get_day_from_week_domain (default_world example_today) 9
           initial_state V).
Defined.

(** C3 fails as stated: in the first ISO week of 2024 the week before,
    number 0, which [main] computes for [--week -1], makes
    [get_day_from_week] raise [ValueError] instead of returning a day of
    the last week of 2023. *)
Lemma get_day_from_week_counterexample :
  get_current_week new_year_world + -1 = 0
  /\ get_day_from_week new_year_world 0 1 initial_state
     = (inl (ValueError (InvalidWeek 0)), initial_state)
  /\ ~ (exists dt st,
          get_day_from_week new_year_world 0 1 initial_state = (inr dt, st)).
Proof.
  split; [reflexivity |]. split; [reflexivity |].
  intros (dt & st & H). vm_compute in H. discriminate H.
Qed.

(** C4, as the code has it: for every week of the current ISO year, week 52
    of year 9999 apart, [week_days] holds exactly seven consecutive dates,
    whose ISO calendar triples are the current ISO year, the week, and
    the weekday numbers 1 (Monday) to 7 (Sunday) in order. *)
Theorem week_days_of_valid_week w week st :
  valid_date (today w) ->
  let y := get_current_year w in
  1 <= week <= weeks_in_year y ->
  ~ (y = MAXYEAR /\ week = 52) ->
  exists ds monday,
    week_days w week st = (inr ds, st)
    /\ List.length ds = 7%nat
    /\ map toordinal ds
       = [monday; monday + 1; monday + 2; monday + 3; monday + 4;
          monday + 5; monday + 6]
    /\ map isocalendar ds
       = [mkiso y week 1; mkiso y week 2; mkiso y week 3; mkiso y week 4;
          mkiso y week 5; mkiso y week 6; mkiso y week 7]
    /\ Forall valid_date ds.
Proof.
  intros V y Hw Hmax. pose proof (current_year_range w V) as Hy. fold y in Hy.
  assert (F : Forall (fun d => exists dt, fromisocalendar y week d = inr dt)
                [1; 2; 3; 4; 5; 6; 7]).
  { apply Forall_forall. intros d Hd. eexists.
    apply fromisocalendar_ok; try assumption; cbn in Hd; lia. }
  destruct (mapM_days_ok w week _ st F) as (ds & R & _).
  assert (W : week_days w week st = (inr ds, st)).
  { unfold week_days. rewrite week_range. exact R. }
  destruct (week_days_inr w week st ds st W) as (_ & E & _ & _ & Vd).
  fold y in E. exists ds, (week_day_ordinal y week 1).
  unfold MINYEAR in Hy.
  split; [exact W |]. split; [rewrite E; reflexivity |].
  split; [| split; [| exact Vd]].
  - rewrite E, week_of_toordinal by lia. cbn [map].
    rewrite !(week_day_ordinal_shift y week 2),
            !(week_day_ordinal_shift y week 3),
            !(week_day_ordinal_shift y week 4),
            !(week_day_ordinal_shift y week 5),
            !(week_day_ordinal_shift y week 6),
            !(week_day_ordinal_shift y week 7).
    reflexivity.
  - rewrite E, week_of_isocalendar by lia. reflexivity.
Qed.

Lemma week_days_of_valid_week_witness :
  valid_date example_today
  /\ 1 <= 9 <= weeks_in_year (get_current_year (default_world example_today))
  /\ exists ds monday,
      week_days (default_world example_today) 9 initial_state
      = (inr ds, initial_state)
      /\ List.length ds = 7%nat
      /\ map toordinal ds
         = [monday; monday + 1; monday + 2; monday + 3; monday + 4;
            monday + 5; monday + 6]
      /\ map isocalendar ds
         = [mkiso (get_current_year (default_world example_today)) 9 1;
            mkiso (get_current_year (default_world example_today)) 9 2;
            mkiso (get_current_year (default_world example_today)) 9 3;
            mkiso (get_current_year (default_world example_today)) 9 4;
            mkiso (get_current_year (default_world example_today)) 9 5;
            mkiso (get_current_year (default_world example_today)) 9 6;
            mkiso (get_current_year (default_world example_today)) 9 7]
      /\ Forall valid_date ds.
Proof.
  assert (V : valid_date example_today)
    by (repeat split; vm_compute; discriminate).
  assert (Hw : 1 <= 9
               <= weeks_in_year (get_current_year (default_world example_today)))
    by (split; vm_compute; discriminate).
  split; [exact V |]. split; [exact Hw |].
  apply (week_days_of_valid_week (default_world example_today) 9
           initial_state V Hw).
  vm_compute. intros [H _]. discriminate H.
Defined.

(** C4 fails as stated in the one week that runs past the last date
    there is: on 9999-12-27, the Monday of ISO week 52 of 9999, the week's
    Saturday would be 10000-01-01 and [week_days] raises [ValueError]. *)
Lemma week_days_counterexample :
  valid_date (today last_week_world)
  /\ isocalendar (today last_week_world) = mkiso 9999 52 1
  /\ 1 <= 52 <= weeks_in_year (get_current_year last_week_world)
  /\ week_days last_week_world 52 initial_state
     = (inl (ValueError (BadYear 10000)), initial_state)
  /\ ~ (exists ds st, week_days last_week_world 52 initial_state = (inr ds, st)).
Proof.
  split; [repeat split; vm_compute; discriminate |].
  split; [reflexivity |]. split; [split; vm_compute; discriminate |].
  split; [vm_compute; reflexivity |].
  intros (ds & st & H). vm_compute in H. discriminate H.
Qed.

(** * Formatting *)

Lemma string_app_nil_r (s : string) : s ++ "" = s.
Proof. induction s as [| c s IH]; [reflexivity |]. cbn. rewrite IH. reflexivity. Qed.

Lemma string_app_assoc (a b c : string) : (a ++ b) ++ c = a ++ (b ++ c).
Proof. induction a as [| x a IH]; [reflexivity |]. cbn. rewrite IH. reflexivity. Qed.

Lemma fmt02d_table :
  forallb (fun i => two_digits_ok (Z.of_nat i)) (seq 0 100) = true.
Proof. vm_compute. reflexivity. Qed.

Lemma fmt02d_two_digits z : 0 <= z <= 99 -> two_digits (fmt02d z) z.
Proof.
  intros Hz. pose proof fmt02d_table as T. rewrite forallb_forall in T.
  specialize (T (Z.to_nat z)). rewrite Z2Nat.id in T by lia.
  assert (I : In (Z.to_nat z) (seq 0 100)) by (apply in_seq; lia).
  specialize (T I). unfold two_digits_ok in T. apply andb_true_iff in T.
  destruct T as [L D]. apply Nat.eqb_eq in L.
  destruct (decimal (fmt02d z)) as [n |] eqn:E; [| discriminate].
  apply Z.eqb_eq in D. subst n. split; assumption.
Qed.

Lemma strftime_day_month d :
  strftime d "%d:%m" = fmt02d (day d) ++ ":" ++ fmt02d (month d).
Proof. reflexivity. Qed.

Lemma strftime_day d : format d "%d" = fmt02d (day d).
Proof. reflexivity. Qed.

Lemma weekday_ranges d :
  exists r, 0 <= r <= 6 /\ iso_weekday (isocalendar d) = r + 1
            /\ c_wday d = (r + 1) mod 7.
Proof.
  exists ((toordinal d - 1) mod 7). rewrite iso_weekday_ord.
  unfold c_wday, weekday. generalize (toordinal d). intros n.
  repeat split; Z.div_mod_to_equations; lia.
Qed.

(** [%a] gives the name of the ISO weekday. *)
Lemma strftime_weekday d : strftime d "%a" = weekday_abbrev d.
Proof.
  unfold strftime. cbn [strftime_aux]. cbv beta iota.
  change (Ascii.eqb "a" "a") with true. cbv iota.
  rewrite string_app_nil_r. unfold weekday_abbrev.
  destruct (weekday_ranges d) as (r & Hr & -> & ->).
  assert (C : r = 0 \/ r = 1 \/ r = 2 \/ r = 3 \/ r = 4 \/ r = 5 \/ r = 6) by lia.
  repeat (destruct C as [C | C]); subst r; reflexivity.
Qed.

Lemma weekday_abbrev_length d : String.length (weekday_abbrev d) = 3%nat.
Proof.
  unfold weekday_abbrev. destruct (weekday_ranges d) as (r & Hr & -> & _).
  assert (C : r = 0 \/ r = 1 \/ r = 2 \/ r = 3 \/ r = 4 \/ r = 5 \/ r = 6) by lia.
  repeat (destruct C as [C | C]); subst r; reflexivity.
Qed.

(** [%B] gives the name of the month. *)
Lemma strftime_month d :
  1 <= month d <= 12 -> format d "%B" = month_name (month d).
Proof.
  intros H. unfold format, strftime. cbn [strftime_aux]. cbv beta iota.
  change (Ascii.eqb "B" "a") with false. change (Ascii.eqb "B" "B") with true.
  cbv iota. rewrite string_app_nil_r.
  generalize dependent (month d). intros m H.
  month_cases m; reflexivity.
Qed.

Lemma valid_date_fields d :
  valid_date d -> 1 <= month d <= 12 /\ 1 <= day d <= 31.
Proof.
  intros [_ [Hm Hd]]. pose proof (days_in_month_bounds (year d) (month d) Hm).
  lia.
Qed.

(** [format_day], once the configuration is there. *)
Lemma format_day_run w st cfg st' d cal :
  get_cfg w st = (inr cfg, st') -> calendar cfg = Some cal ->
  format_day w d st
  = (match (if cal d then holiday_spelling cfg
            else match start_hour cfg, end_hour cfg with
                 | Some work_start, Some work_end =>
                     Some (hours_text work_start work_end)
                 | _, _ => None
                 end) with
     | Some description =>
         inr (strftime d "%a" ++ "-" ++ strftime d "%d:%m" ++ ".: "
              ++ description)
     | None =>
         inl (AttributeError
                (if cal d then "holiday_spelling"
                 else match start_hour cfg with
                      | Some _ => "end_hour"
                      | None => "start_hour"
                      end))
     end, st').
Proof.
  intros G C. unfold format_day. rewrite (bind_inr _ _ _ _ _ G).
  unfold is_holiday, is_vacation, getattr, bind, ret. rewrite C.
  destruct (cal d).
  - destruct (holiday_spelling cfg); reflexivity.
  - destruct (start_hour cfg); [| reflexivity].
    destruct (end_hour cfg); reflexivity.
Qed.

(** C5: [format_day] returns the weekday's three-letter name, a dash, the
    day and the month in two digits each around a colon, [".: "], and
    then the holiday label when the day is a holiday, whatever else holds
    of it, else the vacation label when [is_vacation] says so, else the
    working hours. *)
Theorem format_day_line w st cfg st' d cal holiday_label vacation_label
    work_start work_end :
  get_cfg w st = (inr cfg, st') ->
  calendar cfg = Some cal ->
  holiday_spelling cfg = Some holiday_label ->
  vacation_spelling cfg = Some vacation_label ->
  start_hour cfg = Some work_start ->
  end_hour cfg = Some work_end ->
  valid_date d ->
  exists holiday vacation dd mm,
    is_holiday cfg d st' = (inr holiday, st')
    /\ is_vacation cfg d st' = (inr vacation, st')
    /\ String.length (weekday_abbrev d) = 3%nat
    /\ two_digits dd (day d) /\ two_digits mm (month d)
    /\ format_day w d st
       = (inr (weekday_abbrev d ++ "-" ++ dd ++ ":" ++ mm ++ ".: "
               ++ (if holiday then holiday_label
                   else if vacation then vacation_label
                   else "Start: " ++ work_start ++ "; End: " ++ work_end)),
          st').
Proof.
  intros G C H V S E Vd.
  destruct (valid_date_fields d Vd) as [Hm Hd].
  exists (cal d), false, (fmt02d (day d)), (fmt02d (month d)).
  split; [unfold is_holiday, bind, getattr, ret; rewrite C; reflexivity |].
  split; [reflexivity |].
  split; [apply weekday_abbrev_length |].
  split; [apply fmt02d_two_digits; lia |].
  split; [apply fmt02d_two_digits; lia |].
  rewrite (format_day_run w st cfg st' d cal G C), H, S, E.
  rewrite strftime_weekday, strftime_day_month.
  destruct (cal d); cbv beta iota; rewrite !string_app_assoc; reflexivity.
Qed.

Lemma format_day_line_witness :
  exists holiday vacation dd mm,
    is_holiday default_cfg (mkdate 2024 5 1) loaded_state
    = (inr holiday, loaded_state)
    /\ is_vacation default_cfg (mkdate 2024 5 1) loaded_state
       = (inr vacation, loaded_state)
    /\ String.length (weekday_abbrev (mkdate 2024 5 1)) = 3%nat
    /\ two_digits dd (day (mkdate 2024 5 1))
    /\ two_digits mm (month (mkdate 2024 5 1))
    /\ format_day (default_world example_today) (mkdate 2024 5 1) initial_state
       = (inr (weekday_abbrev (mkdate 2024 5 1) ++ "-" ++ dd ++ ":" ++ mm
               ++ ".: "
               ++ (if holiday then "Holiday"
                   else if vacation then "Vacation"
                   else "Start: " ++ "8:00" ++ "; End: " ++ "17:00")),
          loaded_state).
Proof.
  apply (format_day_line (default_world example_today) initial_state
           default_cfg loaded_state (mkdate 2024 5 1) poland
           "Holiday" "Vacation" "8:00" "17:00").
  - vm_compute. reflexivity.
  - reflexivity.
  - reflexivity.
  - reflexivity.
  - reflexivity.
  - reflexivity.
  - repeat split; vm_compute; discriminate.
Defined.

(** * The report *)

Lemma filter_month_groups (work : list date) (d : date) :
  In d work ->
  filter (fun day => month day =? month d) work <> []
  /\ incl (filter (fun day => month day =? month d) work) work.
Proof.
  intros I. split.
  - intros E.
    assert (X : In d (filter (fun day => month day =? month d) work)).
    { apply filter_In. split; [exact I | apply Z.eqb_refl]. }
    rewrite E in X. destruct X.
  - intros x Hx. apply filter_In in Hx. apply Hx.
Qed.

Lemma month_split_groups work groups :
  month_split work = inr groups ->
  Forall (fun g => g <> [] /\ incl g work) groups.
Proof.
  unfold month_split. destruct work as [| first rest]; [discriminate |].
  pose proof (filter_month_groups (first :: rest) first (or_introl eq_refl)) as F1.
  pose proof (filter_month_groups (first :: rest) _
                (last_In rest first first)) as F2.
  destruct (negb (month first =? month (last (first :: rest) first)));
    intros [= <-].
  - apply Forall_cons; [exact F1 |]. apply Forall_cons; [exact F2 |].
    apply Forall_nil.
  - apply Forall_cons; [| apply Forall_nil].
    split; [discriminate | apply incl_refl].
Qed.

(** A successful [get_list_of_days] went through its three steps. *)
Lemma get_list_of_days_inr w week st groups st' :
  get_list_of_days w week st = (inr groups, st') ->
  exists ds cfg days,
    week_days w week st = (inr ds, st)
    /\ get_cfg w st = (inr cfg, st')
    /\ work_days cfg = Some days
    /\ month_split (filter (workday days) ds) = inr groups.
Proof.
  intros H.
  pose proof (week_days_state w week st) as S1.
  destruct (week_days w week st) as [[e | ds] st1] eqn:W; cbn in S1; subst st1.
  { unfold get_list_of_days in H. rewrite (bind_inl _ _ _ _ _ W) in H.
    discriminate H. }
  destruct (week_days_inr w week st ds st W) as (_ & E & _).
  assert (Nds : exists x xs, ds = x :: xs)
    by (rewrite E; unfold week_of; cbn [map]; eauto).
  destruct Nds as (x & xs & Eds).
  destruct (get_cfg w st) as [[e | cfg] st1] eqn:G.
  { unfold get_list_of_days in H. rewrite (bind_inr _ _ _ _ _ W) in H.
    rewrite Eds in H. cbn [filterM] in H.
    rewrite (bind_inl _ _ _ _ _ (bind_inl _ _ _ _ _ (bind_inl _ _ _ _ _ G))) in H.
    discriminate H. }
  destruct (work_days cfg) as [days |] eqn:D.
  - assert (N : ds <> []) by (rewrite Eds; discriminate).
    rewrite (get_list_of_days_eval w week st ds cfg st1 days W G D N) in H.
    injection H as H1 H2. subst st1. exists ds, cfg, days. auto.
  - unfold get_list_of_days in H. rewrite (bind_inr _ _ _ _ _ W) in H.
    rewrite Eds in H. cbn [filterM] in H.
    assert (X : (cfg <- get_cfg w ;; is_workday cfg x) st
                = (inl (AttributeError "work_days"), st1)).
    { rewrite (bind_inr _ _ _ _ _ G). unfold is_workday. rewrite D. reflexivity. }
    rewrite (bind_inl _ _ _ _ _ (bind_inl _ _ _ _ _ X)) in H. discriminate H.
Qed.

Lemma mapM_format_day w st cfg cal holiday_label work_start work_end l :
  CFG st = Some cfg -> calendar cfg = Some cal ->
  holiday_spelling cfg = Some holiday_label ->
  start_hour cfg = Some work_start -> end_hour cfg = Some work_end ->
  exists lines,
    mapM (format_day w) l st = (inr lines, st)
    /\ Forall2 (fun day line => format_day w day st = (inr line, st)) l lines.
Proof.
  intros C Cal H S E. induction l as [| d ds (lines & IH & F)].
  - exists []. split; [reflexivity | constructor].
  - pose proof (format_day_run w st cfg st d cal (get_cfg_cached w st cfg C) Cal) as R.
    rewrite H, S, E in R.
    assert (X : exists line, format_day w d st = (inr line, st)).
    { destruct (cal d); eexists; exact R. }
    destruct X as (line & X). exists (line :: lines). split.
    + cbn [mapM]. rewrite (bind_inr _ _ _ _ _ X), (bind_inr _ _ _ _ _ IH).
      reflexivity.
    + constructor; assumption.
Qed.

(** C6: when [get_list_of_days] succeeds, [get_reports] returns one
    sub-report for each group: the title made of the two-digit day of
    the group's first and last dates and of the month name of its first
    date, followed by the lines [format_day] gives for the days of the
    group, in order. *)
Theorem get_reports_structure w week st groups st' cfg cal holiday_label
    work_start work_end :
  get_list_of_days w week st = (inr groups, st') ->
  CFG st' = Some cfg ->
  calendar cfg = Some cal ->
  holiday_spelling cfg = Some holiday_label ->
  start_hour cfg = Some work_start ->
  end_hour cfg = Some work_end ->
  exists reports,
    get_reports w week st = (inr reports, st')
    /\ Forall2
         (fun sub_week sub_report =>
            exists first rest dd_first dd_last lines,
              sub_week = first :: rest
              /\ two_digits dd_first (day first)
              /\ two_digits dd_last (day (last sub_week first))
              /\ sub_report
                 = ("Working hours " ++ dd_first ++ "-" ++ dd_last ++ " Of "
                    ++ month_name (month first)) :: lines
              /\ Forall2 (fun day line => format_day w day st' = (inr line, st'))
                   sub_week lines)
         groups reports.
Proof.
  intros L C Cal H S E.
  destruct (get_list_of_days_inr w week st groups st' L)
    as (ds & cfg0 & days & W & G & D & MS).
  destruct (week_days_inr w week st ds st W) as (_ & _ & _ & _ & Vds).
  pose proof (month_split_groups _ _ MS) as Gs.
  assert (Vg : Forall (fun g => g <> [] /\ Forall valid_date g) groups).
  { eapply Forall_impl; [| exact Gs]. cbn. intros g [Ng Ig]. split; [exact Ng |].
    rewrite Forall_forall in *. intros d Hd. apply Vds.
    apply Ig in Hd. apply filter_In in Hd. apply Hd. }
  clear Gs MS. unfold get_reports. rewrite (bind_inr _ _ _ _ _ L). clear L.
  induction Vg as [| g gs [Ng Vgd] _ (reports & IH & F)].
  - exists []. split; [reflexivity | constructor].
  - destruct g as [| first rest]; [congruence |].
    destruct (mapM_format_day w st' cfg cal holiday_label work_start work_end
                (first :: rest) C Cal H S E) as (lines & ML & FL).
    assert (Vf : valid_date first) by (inversion Vgd; assumption).
    assert (Vl : valid_date (last (first :: rest) first)).
    { rewrite Forall_forall in Vgd. apply Vgd, last_In. }
    apply valid_date_fields in Vf, Vl.
    eexists (_ :: reports). split.
    + cbn [mapM].
      erewrite bind_inr; [| rewrite (bind_inr _ _ _ _ _ (getitem_first first rest st'));
                            rewrite (bind_inr _ _ _ _ _ (getitem_last first rest st'));
                            rewrite (bind_inr _ _ _ _ _ (getitem_first first rest st'));
                            rewrite (bind_inr _ _ _ _ _ ML); reflexivity].
      rewrite (bind_inr _ _ _ _ _ IH). reflexivity.
    + constructor; [| exact F].
      exists first, rest, (fmt02d (day first)),
        (fmt02d (day (last (first :: rest) first))), lines.
      split; [reflexivity |].
      split; [apply fmt02d_two_digits; lia |].
      split; [apply fmt02d_two_digits; lia |].
      split; [| exact FL].
      rewrite !strftime_day, strftime_month by lia. reflexivity.
Qed.

Lemma get_reports_structure_witness :
  exists reports,
    get_reports (default_world example_today) 9 initial_state
    = (inr reports, loaded_state)
    /\ Forall2
         (fun sub_week sub_report =>
            exists first rest dd_first dd_last lines,
              sub_week = first :: rest
              /\ two_digits dd_first (day first)
              /\ two_digits dd_last (day (last sub_week first))
              /\ sub_report
                 = ("Working hours " ++ dd_first ++ "-" ++ dd_last ++ " Of "
                    ++ month_name (month first)) :: lines
              /\ Forall2
                   (fun day line =>
                      format_day (default_world example_today) day loaded_state
                      = (inr line, loaded_state))
                   sub_week lines)
         [[mkdate 2024 2 26; mkdate 2024 2 27; mkdate 2024 2 28;
           mkdate 2024 2 29]; [mkdate 2024 3 1]]
         reports.
Proof.
  apply (get_reports_structure (default_world example_today) 9 initial_state
           [[mkdate 2024 2 26; mkdate 2024 2 27; mkdate 2024 2 28;
             mkdate 2024 2 29]; [mkdate 2024 3 1]]
           loaded_state default_cfg poland "Holiday" "8:00" "17:00").
  - vm_compute. reflexivity.
  - reflexivity.
  - reflexivity.
  - reflexivity.
  - reflexivity.
  - reflexivity.
Defined.

(** ** Printing *)

Lemma forM_print lines st :
  forM_ print lines st
  = (inr tt, mkstate (CFG st) (stdout st ++ lines_text lines)).
Proof.
  revert st. induction lines as [| line rest IH]; intros st.
  - cbn. rewrite string_app_nil_r. destruct st; reflexivity.
  - cbn [forM_ lines_text]. unfold bind, print at 1. rewrite IH. cbn [CFG stdout].
    rewrite !string_app_assoc. reflexivity.
Qed.

Lemma print_sub_reports reports st :
  forM_ (fun sub_report => forM_ print sub_report ;;; print LF) reports st
  = (inr tt, mkstate (CFG st) (stdout st ++ render reports)).
Proof.
  revert st. induction reports as [| sub rest IH]; intros st.
  - cbn. rewrite string_app_nil_r. destruct st; reflexivity.
  - cbn [forM_ render]. unfold bind at 1. unfold bind at 1.
    rewrite forM_print. unfold print at 1. rewrite IH. cbn [CFG stdout].
    rewrite !string_app_assoc. reflexivity.
Qed.




(** * The vacation label *)

Section Vacation.
Variable cfg : Configuration.
Variable v : option string.
Variables w1 w2 : World.
Hypothesis same_day : today w1 = today w2.

Lemma alike_ret {A} (a : A) : alike cfg v (ret a) (ret a).
Proof. intros s1 s2 R. split; [reflexivity | exact R]. Qed.

Lemma alike_raise {A} (e : exn) : alike cfg v (@raise state A e) (raise e).
Proof. intros s1 s2 R. split; [reflexivity | exact R]. Qed.

Lemma alike_bind {A B} (c1 c2 : M A) (k1 k2 : A -> M B) :
  alike cfg v c1 c2 -> (forall a, alike cfg v (k1 a) (k2 a)) ->
  alike cfg v (bind c1 k1) (bind c2 k2).
Proof.
  intros Hc Hk s1 s2 R. unfold bind. destruct (Hc s1 s2 R) as [E R'].
  destruct (c1 s1) as [[e1 | a1] t1], (c2 s2) as [[e2 | a2] t2];
    cbn in E, R'; try discriminate E.
  - injection E as <-. split; [reflexivity | exact R'].
  - injection E as <-. apply Hk, R'.
Qed.

Lemma alike_bind_ret {A B} (a : A) (k1 k2 : A -> M B) :
  alike cfg v (k1 a) (k2 a) -> alike cfg v (bind (ret a) k1) (bind (ret a) k2).
Proof. intros H s1 s2 R. exact (H s1 s2 R). Qed.

Lemma alike_get_cfg {B} (k1 k2 : Configuration -> M B) :
  alike cfg v (k1 cfg) (k2 (set_vacation v cfg)) ->
  alike cfg v (bind (get_cfg w1) k1) (bind (get_cfg w2) k2).
Proof.
  intros Hk s1 s2 R. pose proof R as (C1 & C2 & _).
  rewrite (bind_inr _ _ _ _ _ (get_cfg_cached w1 s1 _ C1)).
  rewrite (bind_inr _ _ _ _ _ (get_cfg_cached w2 s2 _ C2)).
  apply Hk, R.
Qed.

Lemma alike_mapM {A B} (f1 f2 : A -> M B) (l : list A) :
  (forall x, alike cfg v (f1 x) (f2 x)) ->
  alike cfg v (mapM f1 l) (mapM f2 l).
Proof.
  intros Hf. induction l as [| x xs IH]; [apply alike_ret |].
  cbn [mapM]. apply alike_bind; [apply Hf |]. intros y.
  apply alike_bind; [exact IH |]. intros ys. apply alike_ret.
Qed.

Lemma alike_filterM {A} (p1 p2 : A -> M bool) (l : list A) :
  (forall x, alike cfg v (p1 x) (p2 x)) ->
  alike cfg v (filterM p1 l) (filterM p2 l).
Proof.
  intros Hp. induction l as [| x xs IH]; [apply alike_ret |].
  cbn [filterM]. apply alike_bind; [apply Hp |]. intros b.
  apply alike_bind; [exact IH |]. intros ys. apply alike_ret.
Qed.

Lemma alike_forM_ {A} (f1 f2 : A -> M unit) (l : list A) :
  (forall x, alike cfg v (f1 x) (f2 x)) ->
  alike cfg v (forM_ f1 l) (forM_ f2 l).
Proof.
  intros Hf. induction l as [| x xs IH]; [apply alike_ret |].
  cbn [forM_]. apply alike_bind; [apply Hf |]. intros _. exact IH.
Qed.

Lemma alike_getitem {A} (l : list A) (i : Z) :
  alike cfg v (getitem l i) (getitem l i).
Proof.
  unfold getitem. destruct (_ && _); [| apply alike_raise].
  destruct (nth_error _ _); [apply alike_ret | apply alike_raise].
Qed.

Lemma alike_getattr {A} (name : string) (field : option A) :
  alike cfg v (getattr name field) (getattr name field).
Proof. destruct field; [apply alike_ret | apply alike_raise]. Qed.

Lemma alike_print (s : string) : alike cfg v (print s) (print s).
Proof.
  intros s1 s2 (C1 & C2 & O). unfold print. cbn.
  split; [reflexivity |]. repeat split; try assumption. rewrite O. reflexivity.
Qed.

Lemma alike_get_day_from_week week d :
  alike cfg v (get_day_from_week w1 week d) (get_day_from_week w2 week d).
Proof.
  unfold get_day_from_week, lift_date, get_current_year. rewrite same_day.
  destruct (fromisocalendar _ _ _); [apply alike_raise | apply alike_ret].
Qed.

Lemma alike_get_list_of_days week :
  alike cfg v (get_list_of_days w1 week) (get_list_of_days w2 week).
Proof.
  unfold get_list_of_days.
  apply alike_bind; [apply alike_mapM; intros d; apply alike_get_day_from_week |].
  intros ds. apply alike_bind.
  { apply alike_filterM. intros d. apply alike_get_cfg.
    unfold is_workday. cbn [set_vacation work_days].
    apply alike_bind; [apply alike_getattr | intros; apply alike_ret]. }
  intros work. apply alike_bind; [apply alike_getitem |]. intros first.
  apply alike_bind; [apply alike_getitem |]. intros last_day.
  destruct (negb _); [| apply alike_ret].
  apply alike_bind; [apply alike_getitem |]. intros first'.
  apply alike_bind; [apply alike_getitem |]. intros last'.
  apply alike_ret.
Qed.

Lemma alike_format_day d :
  alike cfg v (format_day w1 d) (format_day w2 d).
Proof.
  unfold format_day. apply alike_get_cfg.
  apply alike_bind; [| intros; apply alike_ret].
  unfold is_holiday, is_vacation.
  cbn [set_vacation calendar holiday_spelling start_hour end_hour].
  apply alike_bind.
  { apply alike_bind; [apply alike_getattr | intros; apply alike_ret]. }
  intros [|]; [apply alike_getattr |].
  (* [is_vacation] returns [False]: the vacation branch is not taken *)
  apply alike_bind_ret.
  apply alike_bind; [apply alike_getattr |]. intros ws.
  apply alike_bind; [apply alike_getattr |]. intros we. apply alike_ret.
Qed.

Lemma alike_get_reports week :
  alike cfg v (get_reports w1 week) (get_reports w2 week).
Proof.
  unfold get_reports. apply alike_bind; [apply alike_get_list_of_days |].
  intros days. apply alike_mapM. intros sub_week.
  apply alike_bind; [apply alike_getitem |]. intros d1.
  apply alike_bind; [apply alike_getitem |]. intros d2.
  apply alike_bind; [apply alike_getitem |]. intros d3.
  apply alike_bind; [apply alike_mapM; intros d; apply alike_format_day |].
  intros lines. apply alike_ret.
Qed.

Lemma alike_print_report week :
  alike cfg v (print_report w1 week) (print_report w2 week).
Proof.
  unfold print_report. apply alike_bind; [apply alike_get_reports |].
  intros reports. apply alike_forM_. intros sub_report.
  apply alike_bind; [| intros; apply alike_print].
  apply alike_forM_. intros line. apply alike_print.
Qed.
End Vacation.

(** * Loading the configuration *)

(** An exception of [get_cfg] goes up uncaught through
    [get_list_of_days], [get_reports], [print_report] and [main]. *)
Lemma main_get_cfg_raises w week_delta st ds e st1 :
  week_days w (get_current_week w + week_delta) st = (inr ds, st) ->
  get_cfg w st = (inl e, st1) ->
  main w week_delta st = (inl e, st1).
Proof.
  intros W G. unfold main, print_report, get_reports.
  apply bind_inl, bind_inl. unfold get_list_of_days.
  rewrite (bind_inr _ _ _ _ _ W).
  destruct (week_days_inr w _ st ds st W) as (_ & E & _).
  rewrite E. unfold week_of. cbn [map filterM].
  apply bind_inl, bind_inl, bind_inl. exact G.
Qed.

(** C7: when the configuration file is missing, or holds text that is not
    JSON, [Configuration.__init__] does not return: it raises, and nothing
    in the program catches what it raises, so the process ends with a
    diagnostic and a status other than 0.  For a missing file the program
    prints the diagnostic itself and calls [sys.exit(1)]; for malformed
    text the [JSONDecodeError] of [json.loads] goes uncaught, the
    interpreter prints its traceback and ends the process with status 1. *)
Theorem configuration_load_failure w st :
  (config_file w = None ->
   Configuration_init w st
   = (inl (SystemExit 1),
      mkstate (CFG st) (stdout st ++ no_file_diagnostic ++ LF)))
  /\ (forall text,
        config_file w = Some text -> json_loads w text = None ->
        Configuration_init w st = (inl JSONDecodeError, st))
  /\ (config_file w = None
      \/ (exists text, config_file w = Some text /\ json_loads w text = None) ->
      exists e st1,
        Configuration_init w st = (inl e, st1)
        /\ (CFG st = None -> get_cfg w st = (inl e, st1))
        /\ (forall week_delta ds,
              CFG st = None ->
              week_days w (get_current_week w + week_delta) st = (inr ds, st) ->
              main w week_delta st = (inl e, st1))
        /\ exit_status (@inl exn unit e) <> 0
        /\ ((exists diagnostic,
                diagnostic <> "" /\ stdout st1 = stdout st ++ diagnostic ++ LF)
            \/ traceback (@inl exn unit e) = true)).
Proof.
  assert (Missing : config_file w = None ->
            Configuration_init w st
            = (inl (SystemExit 1),
               mkstate (CFG st) (stdout st ++ no_file_diagnostic ++ LF))).
  { intros F. unfold Configuration_init. rewrite F. reflexivity. }
  assert (Malformed : forall text,
            config_file w = Some text -> json_loads w text = None ->
            Configuration_init w st = (inl JSONDecodeError, st)).
  { intros text F J. unfold Configuration_init. rewrite F.
    unfold bind at 1. unfold ret at 1. unfold bind at 1. rewrite J. reflexivity. }
  assert (Cached : forall e st1,
            Configuration_init w st = (inl e, st1) -> CFG st = None ->
            get_cfg w st = (inl e, st1)).
  { intros e st1 I C. unfold get_cfg, read_CFG, bind at 1. rewrite C.
    apply bind_inl. exact I. }
  assert (Main : forall e st1,
            Configuration_init w st = (inl e, st1) ->
            forall week_delta ds,
              CFG st = None ->
              week_days w (get_current_week w + week_delta) st = (inr ds, st) ->
              main w week_delta st = (inl e, st1)).
  { intros e st1 I week_delta ds C W.
    apply (main_get_cfg_raises w week_delta st ds e st1 W), Cached; assumption. }
  split; [exact Missing |]. split; [exact Malformed |].
  intros [F | (text & F & J)].
  - exists (SystemExit 1), (mkstate (CFG st) (stdout st ++ no_file_diagnostic ++ LF)).
    split; [apply Missing, F |]. split; [apply Cached, Missing, F |].
    split; [apply Main, Missing, F |].
    split; [discriminate |]. left. exists no_file_diagnostic.
    split; [discriminate | reflexivity].
  - exists JSONDecodeError, st.
    split; [apply (Malformed text F J) |].
    split; [apply Cached, (Malformed text F J) |].
    split; [apply Main, (Malformed text F J) |].
    split; [discriminate | right; reflexivity].
Qed.

Lemma configuration_load_failure_witness :
  (exists e st1,
      Configuration_init (missing_file_world example_today) initial_state
      = (inl e, st1)
      /\ (CFG initial_state = None ->
          get_cfg (missing_file_world example_today) initial_state = (inl e, st1))
      /\ (forall week_delta ds,
            CFG initial_state = None ->
            week_days (missing_file_world example_today)
              (get_current_week (missing_file_world example_today) + week_delta)
              initial_state
            = (inr ds, initial_state) ->
            main (missing_file_world example_today) week_delta initial_state
            = (inl e, st1))
      /\ exit_status (@inl exn unit e) <> 0
      /\ ((exists diagnostic,
              diagnostic <> ""
              /\ stdout st1 = stdout initial_state ++ diagnostic ++ LF)
          \/ traceback (@inl exn unit e) = true))
  /\ Configuration_init (malformed_file_world example_today) initial_state
     = (inl JSONDecodeError, initial_state).
Proof.
  split.
  - apply (proj2 (proj2 (configuration_load_failure
                           (missing_file_world example_today) initial_state))).
    left. reflexivity.
  - apply (proj1 (proj2 (configuration_load_failure
                           (malformed_file_world example_today) initial_state))
             "{").
    + reflexivity.
    + reflexivity.
Defined.

(** * Further properties of the code *)

(** ** The ISO calendar of a date *)

(** The ISO calendar triple of a date names a week of its ISO year and
    counts back to the date. *)
Lemma isocalendar_spec dt :
  valid_ymd (year dt) (month dt) (day dt) ->
  let i := isocalendar dt in
  week_day_ordinal (iso_year i) (iso_week i) (iso_weekday i) = toordinal dt
  /\ 1 <= iso_week i <= weeks_in_year (iso_year i)
  /\ 1 <= iso_weekday i <= 7.
Proof.
  intros V. pose proof (ymd2ord_bounds _ _ _ V) as B.
  unfold isocalendar, toordinal, week_day_ordinal. cbv zeta.
  set (y := year dt) in *.
  set (n := ymd2ord y (month dt) (day dt)) in *.
  pose proof (weeks_in_year_spec y) as [W1 W2].
  pose proof (weeks_in_year_spec (y - 1)) as [W3 W4].
  replace (y - 1 + 1) with y in W3 by lia.
  pose proof (weeks_in_year_spec (y + 1)) as [W5 W6].
  pose proof (isoweek1monday_spec (y - 1)) as [M0 R0].
  pose proof (isoweek1monday_spec y) as [M1 R1].
  pose proof (isoweek1monday_spec (y + 1)) as [M2 R2].
  pose proof (days_before_year_succ (y - 1)) as S0.
  replace (y - 1 + 1) with y in S0 by lia.
  pose proof (days_before_year_succ y) as S1.
  clearbody n.
  destruct (Z.ltb_spec ((n - isoweek1monday y) / 7) 0);
    [| destruct (Z.leb_spec 52 ((n - isoweek1monday y) / 7));
       [destruct (Z.leb_spec (isoweek1monday (y + 1)) n) |]];
    cbn [iso_year iso_week iso_weekday].
  - destruct (is_leap (y - 1)); Z.div_mod_to_equations; lia.
  - destruct (is_leap y); Z.div_mod_to_equations; lia.
  - destruct (is_leap y); Z.div_mod_to_equations; lia.
  - Z.div_mod_to_equations; lia.
Qed.

(** [fromisocalendar] inverts [isocalendar] on the dates of the calendar. *)
Lemma fromisocalendar_isocalendar dt :
  valid_date dt ->
  fromisocalendar (iso_year (isocalendar dt)) (iso_week (isocalendar dt))
    (iso_weekday (isocalendar dt)) = inr dt.
Proof.
  intros V. pose proof (iso_year_range dt V) as Hy.
  destruct V as [Vy V]. pose proof (isocalendar_spec dt V) as (O & Hw & Hd).
  rewrite fromisocalendar_in_range by assumption. rewrite O.
  unfold toordinal. unfold MINYEAR in Vy.
  rewrite ord2ymd_ymd2ord by (assumption || lia). cbn [fst snd].
  rewrite new_date_valid by (assumption || (unfold MINYEAR; lia)).
  destruct dt; reflexivity.
Qed.

(** ** Loading and caching the configuration *)

(** [load_country_module] returns the class and prints nothing, or prints
    its four lines and exits. *)
Lemma load_country_module_cases w continent_name country_name st :
  (exists cls,
      load_country_module w continent_name country_name st = (inr cls, st)
      /\ exists module,
          import_module w (country_module_name continent_name country_name)
          = inr module
          /\ module country_name = inr cls)
  \/ (exists error_info,
        load_country_module w continent_name country_name st
        = (inl (SystemExit 1),
           mkstate (CFG st)
             (stdout st ++ import_diagnostic country_name error_info))
        /\ (import_module w (country_module_name continent_name country_name)
            = inl error_info
            \/ exists module,
                import_module w (country_module_name continent_name country_name)
                = inr module
                /\ module country_name = inl error_info)).
Proof.
  unfold load_country_module, country_module_name, import_diagnostic.
  destruct (import_module w _) as [err | module] eqn:I.
  - right. exists err. split; [| left; reflexivity].
    unfold bind, print, raise. cbn [CFG stdout lines_text].
    rewrite !string_app_assoc. reflexivity.
  - destruct (module country_name) as [err | cls] eqn:C.
    + right. exists err. split; [| right; exists module; auto].
      unfold bind, print, raise. cbn [CFG stdout lines_text].
      rewrite !string_app_assoc. reflexivity.
    + left. exists cls. split; [reflexivity |]. exists module. auto.
Qed.

(** What [__init__] has done when it reaches [load_country_module]. *)
Lemma Configuration_init_steps w st :
  match config_file w with
  | None =>
      Configuration_init w st
      = (inl (SystemExit 1),
         mkstate (CFG st) (stdout st ++ no_file_diagnostic ++ LF))
  | Some text =>
      match json_loads w text with
      | None => Configuration_init w st = (inl JSONDecodeError, st)
      | Some data =>
          let self := fst (assign_attributes data no_attributes) in
          let st0 :=
            match snd (assign_attributes data no_attributes) with
            | None => st
            | Some key =>
                mkstate (CFG st)
                  (stdout st ++ "Failed to access configuration parameter: '"
                   ++ key ++ "'" ++ LF)
            end in
          match continent self, country self with
          | None, _ => Configuration_init w st = (inl (AttributeError "continent"), st0)
          | Some _, None => Configuration_init w st = (inl (AttributeError "country"), st0)
          | Some continent_name, Some country_name =>
              Configuration_init w st
              = match load_country_module w continent_name country_name st0 with
                | (inr cls, st1) =>
                    (inr (mkcfg (report_language self) (country self)
                            (continent self) (start_hour self) (end_hour self)
                            (work_days self) (vacation_spelling self)
                            (holiday_spelling self) (Some cls)), st1)
                | (inl e, st1) => (inl e, st1)
                end
          end
      end
  end.
Proof.
  unfold Configuration_init, bind, ret, raise, getattr, print. cbv beta.
  destruct (config_file w) as [text |]; [| reflexivity].
  destruct (json_loads w text) as [data |]; [| reflexivity].
  cbv zeta.
  destruct (assign_attributes data no_attributes) as [self [key |]];
    cbn [fst snd CFG stdout];
    (destruct (continent self) as [continent_name |];
     [destruct (country self) as [country_name |] |]);
    rewrite ?string_app_assoc; try reflexivity;
    destruct (load_country_module w continent_name country_name _)
      as [[e | cls] st1];
    reflexivity.
Qed.

(** Each attribute holds the document's value when no earlier key is
    missing, and stays unassigned otherwise. *)
Lemma assign_attributes_value data :
  assign_attributes data no_attributes
  = (let p1 := present (doc_report_language data) in
     let p2 := p1 && present (doc_country data) in
     let p3 := p2 && present (doc_continent data) in
     let p4 := p3 && present (doc_start_hour data) in
     let p5 := p4 && present (doc_end_hour data) in
     let p6 := p5 && present (doc_work_days data) in
     let p7 := p6 && present (doc_vacation data) in
     mkcfg (doc_report_language data) (when p1 (doc_country data))
       (when p2 (doc_continent data)) (when p3 (doc_start_hour data))
       (when p4 (doc_end_hour data)) (when p5 (doc_work_days data))
       (when p6 (doc_vacation data)) (when p7 (doc_holiday data)) None,
     first_missing_key data).
Proof.
  destruct data as [[rl |] [co |] [ct |] [sh |] [eh |] [wd |] [va |] [ho |]];
    vm_compute; reflexivity.
Qed.

Lemma load_country_module_CFG w continent_name country_name st :
  CFG (snd (load_country_module w continent_name country_name st)) = CFG st.
Proof.
  destruct (load_country_module_cases w continent_name country_name st)
    as [(cls & -> & _) | (err & -> & _)]; reflexivity.
Qed.

(** [__init__] never touches the global [CFG]. *)
Lemma Configuration_init_CFG w st :
  CFG (snd (Configuration_init w st)) = CFG st.
Proof.
  pose proof (Configuration_init_steps w st) as S.
  destruct (config_file w) as [text |]; [| rewrite S; reflexivity].
  destruct (json_loads w text) as [data |]; [| rewrite S; reflexivity].
  cbv zeta in S.
  assert (K : CFG match snd (assign_attributes data no_attributes) with
                  | Some key =>
                      mkstate (CFG st)
                        (stdout st ++ "Failed to access configuration parameter: '"
                         ++ key ++ "'" ++ LF)
                  | None => st
                  end = CFG st)
    by (destruct (snd (assign_attributes data no_attributes)); reflexivity).
  destruct (continent _) as [continent_name |]; [| rewrite S; exact K].
  destruct (country _) as [country_name |]; [| rewrite S; exact K].
  rewrite S.
  pose proof (load_country_module_CFG w continent_name country_name
                match snd (assign_attributes data no_attributes) with
                | Some key =>
                    mkstate (CFG st)
                      (stdout st ++ "Failed to access configuration parameter: '"
                       ++ key ++ "'" ++ LF)
                | None => st
                end) as L.
  destruct (load_country_module w continent_name country_name _)
    as [[e | cls] st1]; cbn [snd] in *; congruence.
Qed.

(** X1: [get_cfg] caches exactly the configurations that loaded.  After a
    call that returned, the object is in [CFG] and every later call, even
    with another file on disk, returns it and changes nothing; after a call
    that raised, [CFG] is still empty. *)
Theorem get_cfg_caches_successful_loads w st r st' :
  get_cfg w st = (r, st') ->
  match r with
  | inr cfg =>
      CFG st' = Some cfg /\ forall w', get_cfg w' st' = (inr cfg, st')
  | inl _ => CFG st = None /\ CFG st' = None
  end.
Proof.
  intros G. destruct r as [e | cfg].
  - unfold get_cfg, bind, read_CFG in G.
    destruct (CFG st) as [c |] eqn:C; [discriminate G |].
    pose proof (Configuration_init_CFG w st) as I.
    destruct (Configuration_init w st) as [[e' | c] st1]; [| discriminate G].
    injection G as <- <-. cbn [snd] in I. split; [reflexivity | congruence].
  - pose proof (get_cfg_result w st cfg st' G) as C.
    split; [exact C |]. intros w'. apply get_cfg_cached, C.
Qed.

Lemma get_cfg_caches_successful_loads_witness :
  CFG loaded_state = Some default_cfg
  /\ forall w', get_cfg w' loaded_state = (inr default_cfg, loaded_state).
Proof.
  apply (get_cfg_caches_successful_loads (default_world example_today)
           initial_state (inr default_cfg) loaded_state).
  vm_compute. reflexivity.
Defined.

(** X2: when [Configuration()] returns, the file was there and decoded,
    the keys [report_language], [country] and [continent] were present and
    the calendar class of the country was found.  Each other attribute
    holds the document's value when every key read before it was present
    and is left unassigned otherwise, so a key that is in the file is
    dropped when an earlier key is missing.  The only output is the
    diagnostic that names the first missing key, when a key is missing. *)
Theorem configuration_load_result w st cfg st1 :
  Configuration_init w st = (inr cfg, st1) ->
  exists text data language continent_name country_name module cls,
    config_file w = Some text /\ json_loads w text = Some data
    /\ doc_report_language data = Some language
    /\ doc_country data = Some country_name
    /\ doc_continent data = Some continent_name
    /\ import_module w (country_module_name continent_name country_name)
       = inr module
    /\ module country_name = inr cls
    /\ (let p4 := present (doc_start_hour data) in
        let p5 := p4 && present (doc_end_hour data) in
        let p6 := p5 && present (doc_work_days data) in
        let p7 := p6 && present (doc_vacation data) in
        cfg = mkcfg (Some language) (Some country_name) (Some continent_name)
                (doc_start_hour data) (when p4 (doc_end_hour data))
                (when p5 (doc_work_days data)) (when p6 (doc_vacation data))
                (when p7 (doc_holiday data)) (Some cls))
    /\ st1 = match first_missing_key data with
             | None => st
             | Some key =>
                 mkstate (CFG st) (stdout st ++ missing_key_diagnostic key ++ LF)
             end.
Proof.
  intros H. pose proof (Configuration_init_steps w st) as S. rewrite H in S.
  destruct (config_file w) as [text |] eqn:F; [| discriminate S].
  destruct (json_loads w text) as [data |] eqn:J; [| discriminate S].
  cbv zeta in S. rewrite assign_attributes_value in S. cbn [fst snd] in S.
  cbv zeta in S. cbn [continent country report_language start_hour end_hour
                      work_days vacation_spelling holiday_spelling] in S.
  unfold first_missing_key in *.
  destruct data as [[language |] [country_name |] [continent_name |] sh eh wd va ho];
    cbn [doc_report_language doc_country doc_continent doc_start_hour
         doc_end_hour doc_work_days doc_vacation doc_holiday present when
         andb negb] in *; try discriminate S.
  match type of S with
  | context [load_country_module w continent_name country_name ?s] =>
      destruct (load_country_module_cases w continent_name country_name s)
        as [(cls & L & module & I & C) | (err & L & _)]; rewrite L in S
  end; [| discriminate S].
  injection S as -> ->.
  exists text, (mkdoc (Some language) (Some country_name) (Some continent_name)
                  sh eh wd va ho), language, continent_name, country_name,
    module, cls.
  cbn [doc_report_language doc_country doc_continent doc_start_hour
       doc_end_hour doc_work_days doc_vacation doc_holiday present].
  split; [reflexivity |]. split; [exact J |].
  split; [reflexivity |]. split; [reflexivity |]. split; [reflexivity |].
  split; [exact I |]. split; [exact C |]. split; [reflexivity |].
  unfold missing_key_diagnostic. rewrite ?string_app_assoc.
  destruct sh, eh, wd, va, ho; reflexivity.
Qed.

Lemma configuration_load_result_witness :
  exists text data language continent_name country_name module cls,
    config_file (default_world example_today) = Some text
    /\ json_loads (default_world example_today) text = Some data
    /\ doc_report_language data = Some language
    /\ doc_country data = Some country_name
    /\ doc_continent data = Some continent_name
    /\ import_module (default_world example_today)
         (country_module_name continent_name country_name) = inr module
    /\ module country_name = inr cls
    /\ (let p4 := present (doc_start_hour data) in
        let p5 := p4 && present (doc_end_hour data) in
        let p6 := p5 && present (doc_work_days data) in
        let p7 := p6 && present (doc_vacation data) in
        default_cfg
        = mkcfg (Some language) (Some country_name) (Some continent_name)
            (doc_start_hour data) (when p4 (doc_end_hour data))
            (when p5 (doc_work_days data)) (when p6 (doc_vacation data))
            (when p7 (doc_holiday data)) (Some cls))
    /\ initial_state
       = match first_missing_key data with
         | None => initial_state
         | Some key =>
             mkstate (CFG initial_state)
               (stdout initial_state ++ missing_key_diagnostic key ++ LF)
         end.
Proof.
  apply (configuration_load_result (default_world example_today)
           initial_state default_cfg initial_state).
  vm_compute. reflexivity.
Defined.

(** X3: the converse.  When the file decodes to a document that has the
    keys [report_language], [country] and [continent], and [workalendar]
    has the module and the class of the country, [Configuration()]
    returns: the later attributes are assigned up to the first missing
    key, whose diagnostic is all that is printed, and a call of [get_cfg]
    with nothing cached stores the object in [CFG].  With all eight keys
    there nothing is printed. *)
Theorem configuration_load_succeeds w st text data language country_name
    continent_name module cls :
  config_file w = Some text ->
  json_loads w text = Some data ->
  doc_report_language data = Some language ->
  doc_country data = Some country_name ->
  doc_continent data = Some continent_name ->
  import_module w (country_module_name continent_name country_name)
  = inr module ->
  module country_name = inr cls ->
  let p4 := present (doc_start_hour data) in
  let p5 := p4 && present (doc_end_hour data) in
  let p6 := p5 && present (doc_work_days data) in
  let p7 := p6 && present (doc_vacation data) in
  let cfg :=
    mkcfg (Some language) (Some country_name) (Some continent_name)
      (doc_start_hour data) (when p4 (doc_end_hour data))
      (when p5 (doc_work_days data)) (when p6 (doc_vacation data))
      (when p7 (doc_holiday data)) (Some cls) in
  let st1 :=
    match first_missing_key data with
    | None => st
    | Some key =>
        mkstate (CFG st) (stdout st ++ missing_key_diagnostic key ++ LF)
    end in
  Configuration_init w st = (inr cfg, st1)
  /\ (CFG st = None ->
      get_cfg w st = (inr cfg, mkstate (Some cfg) (stdout st1)))
  /\ (first_missing_key data = None -> st1 = st).
Proof.
  intros F J Rl Co Ct I C p4 p5 p6 p7 cfg st1.
  assert (X : Configuration_init w st = (inr cfg, st1)).
  { pose proof (Configuration_init_steps w st) as S. rewrite F, J in S.
    cbv zeta in S. rewrite assign_attributes_value in S.
    cbn [fst snd] in S. cbv zeta in S. rewrite Rl, Co, Ct in S.
    cbn [continent country report_language start_hour end_hour work_days
         vacation_spelling holiday_spelling present when andb] in S.
    rewrite S. clear S.
    match goal with
    | |- context [load_country_module w continent_name country_name ?s] =>
        destruct (load_country_module_cases w continent_name country_name s)
          as [(cls' & L & module' & I' & C') | (err & L & Why)]
    end.
    - rewrite L. assert (module' = module) by congruence. subst module'.
      assert (cls' = cls) by congruence. subst cls'.
      unfold cfg, st1, p7, p6, p5, p4, missing_key_diagnostic.
      destruct (first_missing_key data) as [key |];
        rewrite ?string_app_assoc; reflexivity.
    - exfalso. destruct Why as [Why | (module' & I' & C')]; congruence. }
  split; [exact X |]. split.
  - intros N. unfold get_cfg, read_CFG. unfold bind at 1. rewrite N.
    rewrite (bind_inr _ _ _ _ _ X). reflexivity.
  - intros K. unfold st1. rewrite K. reflexivity.
Qed.

Lemma configuration_load_succeeds_witness :
  Configuration_init (default_world example_today) initial_state
  = (inr default_cfg, initial_state)
  /\ (CFG initial_state = None ->
      get_cfg (default_world example_today) initial_state
      = (inr default_cfg, mkstate (Some default_cfg) (stdout initial_state)))
  /\ (first_missing_key default_config_doc = None
      -> initial_state = initial_state).
Proof.
  apply (configuration_load_succeeds (default_world example_today)
           initial_state default_config_text default_config_doc
           "English" "Poland" "Europe"
           (fun cls => if String.eqb cls "Poland" then inr poland
                       else inl "module 'workalendar.europe.poland' has no attribute")
           poland).
  - reflexivity.
  - vm_compute. reflexivity.
  - reflexivity.
  - reflexivity.
  - reflexivity.
  - vm_compute. reflexivity.
  - reflexivity.
Defined.

(** X4: two ways [Configuration()] fails on a file that decodes to an
    object with text for its names.  When one of the keys
    [report_language], [country], [continent] is missing, it prints the
    diagnostic naming the first missing key and then raises
    [AttributeError] for [continent], whichever of the three is missing,
    because [self.continent] is read first.  When the three are there,
    with names of ASCII characters, and [workalendar] lacks the module
    or the module lacks the class, it prints the diagnostic of a later
    missing key, if there is one, then the four lines of
    [load_country_module], and exits with status 1.  Either way [CFG] is
    not touched. *)
Theorem configuration_load_errors w st text data :
  config_file w = Some text -> json_loads w text = Some data ->
  (forall key,
      first_missing_key data = Some key ->
      In key ["report_language"; "country"; "continent"] ->
      Configuration_init w st
      = (inl (AttributeError "continent"),
         mkstate (CFG st) (stdout st ++ missing_key_diagnostic key ++ LF)))
  /\ (forall language country_name continent_name error_info,
        doc_report_language data = Some language ->
        doc_country data = Some country_name ->
        doc_continent data = Some continent_name ->
        is_ascii continent_name = true -> is_ascii country_name = true ->
        (import_module w (country_module_name continent_name country_name)
         = inl error_info
         \/ exists module,
             import_module w (country_module_name continent_name country_name)
             = inr module
             /\ module country_name = inl error_info) ->
        Configuration_init w st
        = (inl (SystemExit 1),
           mkstate (CFG st)
             (stdout st
              ++ match first_missing_key data with
                 | None => ""
                 | Some key => missing_key_diagnostic key ++ LF
                 end
              ++ import_diagnostic country_name error_info))).
Proof.
  intros F J.
  pose proof (Configuration_init_steps w st) as S. rewrite F, J in S.
  cbv zeta in S. rewrite assign_attributes_value in S. cbn [fst snd] in S.
  cbv zeta in S. cbn [continent country] in S.
  split.
  - intros key K I. unfold first_missing_key in K.
    destruct data as [[language |] [country_name |] [continent_name |]
                        sh eh wd va ho];
      cbn [doc_report_language doc_country doc_continent doc_start_hour
           doc_end_hour doc_work_days doc_vacation doc_holiday present when
           andb negb] in S, K.
    2-8: injection K as <-; rewrite S; unfold missing_key_diagnostic;
         cbn [first_missing_key doc_report_language doc_country doc_continent
              present negb];
         rewrite ?string_app_assoc; reflexivity.
    exfalso.
    destruct sh; cbn [present negb] in K;
      [destruct eh; cbn [present negb] in K;
       [destruct wd; cbn [present negb] in K;
        [destruct va; cbn [present negb] in K;
         [destruct ho; cbn [present negb] in K |] |] |] |];
      try discriminate K; injection K as <-; cbn [In] in I;
      repeat (destruct I as [I | I]; [discriminate I |]); exact I.
  - intros language country_name continent_name error_info Rl Co Ct _ _ Why.
    rewrite Rl, Co, Ct in S.
    cbn [present when andb] in S. rewrite S. clear S.
    match goal with
    | |- context [load_country_module w continent_name country_name ?s] =>
        destruct (load_country_module_cases w continent_name country_name s)
          as [(cls & L & module' & I' & C') | (err & L & Why')]
    end.
    + exfalso. destruct Why as [Why | (module & I & C)]; congruence.
    + assert (E : err = error_info).
      { destruct Why as [Why | (module & I & C)],
          Why' as [Why' | (module' & I' & C')]; congruence. }
      subst err. rewrite L. f_equal. cbn [CFG stdout].
      destruct (first_missing_key data) as [key |];
        unfold missing_key_diagnostic; cbn [CFG stdout];
        rewrite ?string_app_assoc; reflexivity.
Qed.

Lemma configuration_load_errors_witness :
  Configuration_init no_country_world initial_state
  = (inl (AttributeError "continent"), no_country_state)
  /\ Configuration_init unknown_country_world initial_state
     = (inl (SystemExit 1),
        mkstate None
          (import_diagnostic "Narnia"
             "No module named 'workalendar.europe.narnia'")).
Proof.
  split.
  - apply (proj1 (configuration_load_errors no_country_world initial_state
                    ("{" ++ json_pair "report_language" (json_string "English")
                     ++ "}")
                    (mkdoc (Some "English") None None None None None None None)
                    eq_refl ltac:(vm_compute; reflexivity))
             "country").
    + reflexivity.
    + cbn [In]. tauto.
  - apply (proj2 (configuration_load_errors unknown_country_world
                    initial_state unknown_country_text unknown_country_doc
                    eq_refl ltac:(vm_compute; reflexivity))
             "English" "Narnia" "Europe"
             "No module named 'workalendar.europe.narnia'").
    + reflexivity.
    + reflexivity.
    + reflexivity.
    + reflexivity.
    + reflexivity.
    + left. vm_compute. reflexivity.
Defined.

(** ** Work days by their number *)

Lemma workday_week_day y week d days :
  1 <= y -> 1 <= week <= weeks_in_year y -> 1 <= d <= 7 ->
  workday days (date_of (ord2ymd (week_day_ordinal y week d))) = listed days d.
Proof.
  intros Hy Hw Hd. unfold workday, listed.
  pose proof (isocalendar_ord2ymd y week d Hy Hw Hd) as I.
  unfold week_day_ordinal. destruct (ord2ymd _) as [[y' m'] d'].
  cbn [date_of]. rewrite I. reflexivity.
Qed.

(** The filtered days of a week are the days whose number is listed. *)
Lemma filter_week_of y week days :
  1 <= y -> 1 <= week <= weeks_in_year y ->
  filter (workday days) (week_of y week)
  = map (fun d => date_of (ord2ymd (week_day_ordinal y week d)))
      (listed_weekdays days).
Proof.
  intros Hy Hw. unfold week_of, listed_weekdays. rewrite filter_map_swap.
  f_equal. apply filter_ext_in. intros d Hd.
  apply workday_week_day; try assumption. cbn in Hd. lia.
Qed.

Lemma listed_weekdays_nonempty days :
  listed_weekdays days <> [] <-> exists d, 1 <= d <= 7 /\ In d days.
Proof.
  split.
  - intros N. destruct (listed_weekdays days) as [| d l] eqn:E; [congruence |].
    assert (I : In d (listed_weekdays days)) by (rewrite E; left; reflexivity).
    apply filter_In in I. destruct I as [I L]. exists d. split.
    + cbn in I. lia.
    + unfold listed in L. apply existsb_exists in L.
      destruct L as (x & Hx & Ex). apply Z.eqb_eq in Ex. subst x. exact Hx.
  - intros (d & Hd & I) E.
    assert (X : In d (listed_weekdays days)).
    { apply filter_In. split.
      - cbn. lia.
      - apply existsb_exists. exists d. split; [exact I | apply Z.eqb_refl]. }
    rewrite E in X. destruct X.
Qed.

(** [week_days] reads no state. *)
Lemma week_days_any_state w week s1 s2 :
  fst (week_days w week s1) = fst (week_days w week s2).
Proof.
  unfold week_days. generalize (range 1 (DAYS_IN_A_WEEK + 1)). intros l.
  induction l as [| d l IH]; [reflexivity |].
  cbn [mapM]. unfold bind at 1 3. rewrite !get_day_from_week_run.
  destruct (fromisocalendar _ _ _); [reflexivity |].
  unfold bind at 1 2.
  pose proof (mapM_days_state w week l s1) as S1.
  pose proof (mapM_days_state w week l s2) as S2.
  destruct (mapM _ l s1) as [[e1 | l1] t1], (mapM _ l s2) as [[e2 | l2] t2];
    cbn in *; congruence.
Qed.

Lemma week_days_run w week st :
  week_days w week st = (fst (week_days w week st), st).
Proof.
  pose proof (week_days_state w week st). destruct (week_days w week st).
  cbn in *. congruence.
Qed.

(** ** The groups of a week *)

(** Among seven consecutive days, the days of one month are days of one
    year. *)
Lemma week_year_months n :
  1 <= n ->
  exists j y1 m1 y2 m2,
    m1 <> m2 /\
    forall i, 0 <= i < 7 ->
      year (date_of (ord2ymd (n + i))) = (if i <? j then y1 else y2)
      /\ month (date_of (ord2ymd (n + i))) = (if i <? j then m1 else m2).
Proof.
  intros Hn. destruct (ord2ymd n) as [[y m] d] eqn:E.
  pose proof (ord2ymd_spec n Hn) as Sp. rewrite E in Sp.
  destruct Sp as (Hy & [Hm Hd] & O).
  pose proof (days_in_month_bounds y m Hm) as Bd.
  exists (days_in_month y m - d + 1), y, m,
    (fst (next_month y m)), (snd (next_month y m)).
  split.
  - unfold next_month. destruct (Z.ltb_spec m 12); cbn [snd]; lia.
  - intros i Hi. destruct (Z.ltb_spec i (days_in_month y m - d + 1)) as [L | L].
    + rewrite (ord2ymd_same_month n y m d i Hn E) by lia. split; reflexivity.
    + rewrite (ord2ymd_next_month n y m d i Hn E) by lia. split; reflexivity.
Qed.

Lemma week_of_In y w a :
  In a (week_of y w) ->
  exists i, 0 <= i < 7
            /\ a = date_of (ord2ymd (week_day_ordinal y w 1 + i)).
Proof.
  unfold week_of. intros H. apply in_map_iff in H. destruct H as (d & <- & Hd).
  exists (d - 1). rewrite <- week_day_ordinal_shift. cbn in Hd.
  split; [lia | reflexivity].
Qed.

Lemma week_same_month_same_year y w a b :
  1 <= y -> 1 <= w -> In a (week_of y w) -> In b (week_of y w) ->
  month a = month b -> year a = year b.
Proof.
  intros Hy Hw Ha Hb E.
  assert (P : 1 <= week_day_ordinal y w 1) by (apply week_day_ordinal_pos; lia).
  destruct (week_year_months _ P) as (j & y1 & m1 & y2 & m2 & N & F).
  apply week_of_In in Ha, Hb.
  destruct Ha as (i & Hi & ->), Hb as (k & Hk & ->).
  destruct (F i Hi) as [Yi Mi], (F k Hk) as [Yk Mk].
  rewrite Yi, Yk. rewrite Mi, Mk in E.
  destruct (i <? j), (k <? j); congruence.
Qed.

Lemma last_in_tail {A} (x : A) (l : list A) :
  l <> [] -> In (last (x :: l) x) l.
Proof.
  intros N. destruct l as [| y l]; [congruence |].
  change (last (x :: y :: l) x) with (last (y :: l) x). apply last_In.
Qed.

(** What a successful [get_list_of_days] returns: one or two groups, each
    a non-empty, date-ordered part of the week lying in one month. *)
Lemma get_list_of_days_groups w week st groups st' :
  get_list_of_days w week st = (inr groups, st') ->
  let y := get_current_year w in
  1 <= y /\ 1 <= week <= weeks_in_year y
  /\ (List.length groups = 1 \/ List.length groups = 2)%nat
  /\ (exists days, List.concat groups = filter (workday days) (week_of y week))
  /\ Forall (fun g => g <> [] /\ StronglySorted date_lt g
                      /\ incl g (week_of y week)
                      /\ exists m, Forall (fun d => month d = m) g) groups.
Proof.
  intros L y.
  destruct (get_list_of_days_inr w week st groups st' L)
    as (ds & cfg & days & W & G & D & MS).
  destruct (week_days_inr w week st ds st W) as (_ & E & Hy & Hw & _).
  fold y in E, Hy, Hw. unfold MINYEAR in Hy.
  split; [lia |]. split; [exact Hw |].
  assert (Hy1 : 1 <= y) by lia. assert (Hw1 : 1 <= week) by lia.
  subst ds.
  pose proof (sorted_filter date_lt (workday days) _ (week_of_sorted y week Hy1 Hw1))
    as Sw.
  assert (Iw : incl (filter (workday days) (week_of y week)) (week_of y week)).
  { intros d Hd. apply filter_In in Hd. apply Hd. }
  destruct (work_blocks y week (workday days) Hy1 Hw1)
    as (g1 & g2 & m1 & m2 & B & A1 & A2 & N).
  rewrite B in *. rewrite (month_split_blocks g1 g2 m1 m2 A1 A2 N) in MS.
  assert (S1 : StronglySorted date_lt g1) by (eapply sorted_app_l; exact Sw).
  assert (S2 : StronglySorted date_lt g2) by (eapply sorted_app_r; exact Sw).
  assert (I1 : incl g1 (week_of y week))
    by (intros d Hd; apply Iw, in_or_app; left; exact Hd).
  assert (I2 : incl g2 (week_of y week))
    by (intros d Hd; apply Iw, in_or_app; right; exact Hd).
  destruct g1 as [| x xs], g2 as [| z zs]; try discriminate MS;
    injection MS as <-.
  - split; [left; reflexivity |]. split.
    + exists days. rewrite B. cbn. rewrite app_nil_r. reflexivity.
    + apply Forall_cons; [| apply Forall_nil].
      split; [discriminate |]. split; [exact S2 |]. split; [exact I2 |].
      exists m2. exact A2.
  - split; [left; reflexivity |]. split.
    + exists days. rewrite B. cbn. rewrite !app_nil_r. reflexivity.
    + apply Forall_cons; [| apply Forall_nil].
      split; [discriminate |]. split; [exact S1 |]. split; [exact I1 |].
      exists m1. exact A1.
  - split; [right; reflexivity |]. split.
    + exists days. rewrite B. cbn [List.concat]. rewrite app_nil_r. reflexivity.
    + apply Forall_cons; [| apply Forall_cons; [| apply Forall_nil]].
      * split; [discriminate |]. split; [exact S1 |]. split; [exact I1 |].
        exists m1. exact A1.
      * split; [discriminate |]. split; [exact S2 |]. split; [exact I2 |].
        exists m2. exact A2.
Qed.

(** X5: whatever the week and the work days, a successful
    [get_list_of_days] returns one or two groups holding at most seven
    dates in all; no group is empty, and the dates of a group all lie in
    the same month of the same year. *)
Theorem get_list_of_days_groups_invariant w week st groups st' :
  get_list_of_days w week st = (inr groups, st') ->
  (List.length groups = 1 \/ List.length groups = 2)%nat
  /\ (List.length (List.concat groups) <= 7)%nat
  /\ Forall (fun g => g <> []
                      /\ forall a b, In a g -> In b g ->
                                     month a = month b /\ year a = year b)
       groups.
Proof.
  intros L.
  destruct (get_list_of_days_groups w week st groups st' L)
    as (Hy & Hw & Len & (days & C) & F).
  split; [exact Len |]. split.
  - rewrite C.
    pose proof (filter_length_le (workday days)
                  (week_of (get_current_year w) week)) as Le.
    exact Le.
  - eapply Forall_impl; [| exact F]. cbn beta.
    intros g (N & _ & I & m & M). split; [exact N |].
    intros a b Ha Hb. rewrite Forall_forall in M.
    assert (E : month a = month b) by (rewrite (M a Ha), (M b Hb); reflexivity).
    split; [exact E |].
    apply (week_same_month_same_year (get_current_year w) week a b);
      try assumption; try lia; apply I; assumption.
Qed.

Lemma get_list_of_days_groups_invariant_witness :
  (List.length [example_work_february; example_work_march] = 1
   \/ List.length [example_work_february; example_work_march] = 2)%nat
  /\ (List.length (List.concat [example_work_february; example_work_march])
      <= 7)%nat
  /\ Forall (fun g => g <> []
                      /\ forall a b, In a g -> In b g ->
                                     month a = month b /\ year a = year b)
       [example_work_february; example_work_march].
Proof.
  apply (get_list_of_days_groups_invariant (default_world example_today) 9
           initial_state [example_work_february; example_work_march]
           loaded_state).
  vm_compute. reflexivity.
Defined.

(** X6: in every group [get_list_of_days] returns, the last date lies in
    the month and year of the first and its day of the month is not
    before the first's (it is after it when the group has several dates):
    the range in a title of [get_reports] runs forward inside the month
    the title names. *)
Theorem group_range_ascending w week st groups st' :
  get_list_of_days w week st = (inr groups, st') ->
  Forall (fun g =>
            exists first rest,
              g = first :: rest
              /\ month (last g first) = month first
              /\ year (last g first) = year first
              /\ day first <= day (last g first)
              /\ (rest <> [] -> day first < day (last g first)))
    groups.
Proof.
  intros L.
  destruct (get_list_of_days_groups w week st groups st' L)
    as (Hy & Hw & _ & _ & F).
  eapply Forall_impl; [| exact F]. cbn beta.
  intros g (N & S & I & m & M).
  destruct g as [| first rest]; [congruence |]. exists first, rest.
  split; [reflexivity |].
  assert (Il : In (last (first :: rest) first) (first :: rest)) by apply last_In.
  rewrite Forall_forall in M.
  assert (Em : month (last (first :: rest) first) = month first).
  { rewrite (M _ Il), (M first (or_introl eq_refl)). reflexivity. }
  assert (Ey : year (last (first :: rest) first) = year first).
  { apply (week_same_month_same_year (get_current_year w) week);
      try assumption; try lia; apply I; [exact Il | left; reflexivity]. }
  split; [exact Em |]. split; [exact Ey |].
  assert (Lt : rest <> [] -> day first < day (last (first :: rest) first)).
  { intros Nr. apply StronglySorted_inv in S. destruct S as [_ Hf].
    rewrite Forall_forall in Hf.
    specialize (Hf _ (last_in_tail first rest Nr)).
    unfold date_lt in Hf. lia. }
  split; [| exact Lt].
  destruct rest as [| r rs]; [cbn; lia |].
  assert (r :: rs <> []) by discriminate. specialize (Lt H). lia.
Qed.

Lemma group_range_ascending_witness :
  Forall (fun g =>
            exists first rest,
              g = first :: rest
              /\ month (last g first) = month first
              /\ year (last g first) = year first
              /\ day first <= day (last g first)
              /\ (rest <> [] -> day first < day (last g first)))
    [example_work_february; example_work_march].
Proof.
  apply (group_range_ascending (default_world example_today) 9 initial_state
           [example_work_february; example_work_march] loaded_state).
  vm_compute. reflexivity.
Defined.

(** ** The work days of a week, by their number *)

Lemma Forall2_In_l {A B} (R : A -> B -> Prop) (l : list A) (l' : list B) a :
  Forall2 R l l' -> In a l -> exists b, R a b.
Proof.
  intros F. induction F as [| x y l l' Rxy _ IH]; intros I.
  - destruct I.
  - destruct I as [<- | I]; [exists y; exact Rxy | exact (IH I)].
Qed.

Lemma week_day_run w week d st ds :
  week_days w week st = (inr ds, st) -> 1 <= d <= 7 ->
  get_day_from_week w week d st
  = (inr (date_of (ord2ymd (week_day_ordinal (get_current_year w) week d))), st).
Proof.
  intros W Hd. unfold week_days in W. rewrite week_range in W.
  apply mapM_days_inr in W.
  assert (I : In d [1; 2; 3; 4; 5; 6; 7]) by (cbn [In]; lia).
  destruct (Forall2_In_l _ _ _ d W I) as (dt & E).
  rewrite get_day_from_week_run, E.
  destruct (fromisocalendar_inr _ _ _ _ E) as (_ & _ & _ & -> & _).
  reflexivity.
Qed.

(** X7: the date [get_day_from_week] returns for weekday number [d] is a
    work day for [is_workday] exactly when [d] is among the configured
    work days. *)
Theorem week_day_is_workday w week d st dt st1 cfg days st2 :
  get_day_from_week w week d st = (inr dt, st1) ->
  work_days cfg = Some days ->
  is_workday cfg dt st2 = (inr (listed days d), st2).
Proof.
  intros G D. rewrite get_day_from_week_run in G.
  destruct (fromisocalendar (get_current_year w) week d) as [e | dt'] eqn:E;
    [discriminate G |].
  injection G as -> _.
  destruct (fromisocalendar_inr _ _ _ _ E) as (Hy & Hw & Hd & -> & _).
  unfold MINYEAR in Hy.
  unfold is_workday. rewrite D. unfold getattr, bind, ret.
  change (existsb (Z.eqb (iso_weekday (isocalendar ?x))) days)
    with (workday days x).
  rewrite workday_week_day by lia. reflexivity.
Qed.

Lemma week_day_is_workday_witness :
  is_workday default_cfg example_today loaded_state
  = (inr (listed [1; 2; 3; 4; 5] 3), loaded_state).
Proof.
  apply (week_day_is_workday (default_world example_today) 9 3 initial_state
           example_today initial_state default_cfg [1; 2; 3; 4; 5]
           loaded_state).
  - vm_compute. reflexivity.
  - reflexivity.
Defined.

Lemma Forall2_map_run {A B} (f : A -> B) (R : A -> B -> Prop) (l : list A) :
  (forall a, In a l -> R a (f a)) -> Forall2 R l (map f l).
Proof.
  induction l as [| a l IH]; intros H; cbn [map].
  - apply Forall2_nil.
  - apply Forall2_cons.
    + apply H. left. reflexivity.
    + apply IH. intros b Hb. apply H. right. exact Hb.
Qed.

Lemma listed_weekdays_In days d :
  In d (listed_weekdays days) -> 1 <= d <= 7.
Proof.
  intros H. apply filter_In in H. destruct H as [H _]. cbn in H. lia.
Qed.

Lemma month_split_concat y week (p : date -> bool) :
  1 <= y -> 1 <= week ->
  match month_split (filter p (week_of y week)) with
  | inr groups => List.concat groups = filter p (week_of y week)
  | inl e => e = IndexError /\ filter p (week_of y week) = []
  end.
Proof.
  intros Hy Hw.
  destruct (work_blocks y week p Hy Hw) as (g1 & g2 & m1 & m2 & B & A1 & A2 & N).
  rewrite B, (month_split_blocks g1 g2 m1 m2 A1 A2 N).
  destruct g1, g2; cbn [List.concat]; rewrite ?app_nil_r; auto.
Qed.

(** X8: once the seven dates of the week are there and the configuration
    gives work days, [get_list_of_days] succeeds exactly when some number
    from 1 to 7 is among the work days, and fails with [IndexError]
    otherwise.  When it succeeds, the dates of its groups, taken together,
    are the dates [get_day_from_week] gives for the numbers from 1 to 7
    that the work days list, in increasing order of the number and each
    once: the order of the work days, repeated numbers and numbers outside
    1..7 change nothing. *)
Theorem get_list_of_days_by_numbers w week st ds cfg st' days :
  week_days w week st = (inr ds, st) ->
  get_cfg w st = (inr cfg, st') ->
  work_days cfg = Some days ->
  ((exists d, 1 <= d <= 7 /\ In d days) ->
   exists groups,
     get_list_of_days w week st = (inr groups, st')
     /\ Forall2 (fun d dt => get_day_from_week w week d st = (inr dt, st))
          (listed_weekdays days) (List.concat groups))
  /\ ((forall d, 1 <= d <= 7 -> ~ In d days) ->
      get_list_of_days w week st = (inl IndexError, st')).
Proof.
  intros W G D.
  destruct (week_days_inr w week st ds st W) as (_ & E & Hy & Hw & _).
  unfold MINYEAR in Hy.
  assert (Ne : ds <> []) by (rewrite E; discriminate).
  rewrite (get_list_of_days_eval w week st ds cfg st' days W G D Ne).
  pose proof (month_split_concat (get_current_year w) week (workday days)) as C.
  rewrite <- E in C. specialize (C ltac:(lia) ltac:(lia)).
  assert (F : filter (workday days) ds
              = map (fun d => date_of (ord2ymd (week_day_ordinal
                                                  (get_current_year w) week d)))
                  (listed_weekdays days)).
  { rewrite E. apply filter_week_of; lia. }
  split.
  - intros X. apply listed_weekdays_nonempty in X.
    destruct (month_split (filter (workday days) ds)) as [e | groups].
    + destruct C as [_ C]. rewrite F in C. apply map_eq_nil in C. contradiction.
    + exists groups. split; [reflexivity |]. rewrite C, F.
      apply Forall2_map_run. intros d Hd.
      apply (week_day_run w week d st ds W), (listed_weekdays_In days d Hd).
  - intros X.
    assert (L : listed_weekdays days = []).
    { destruct (listed_weekdays days) as [| d l] eqn:El; [reflexivity |].
      assert (N : listed_weekdays days <> []) by (rewrite El; discriminate).
      apply listed_weekdays_nonempty in N. destruct N as (d' & Hd & I).
      destruct (X d' Hd I). }
    rewrite F, L. reflexivity.
Qed.

Lemma get_list_of_days_by_numbers_witness :
  ((exists d, 1 <= d <= 7 /\ In d [9; 5; 4; 4; 3; 0; 2; 1]) ->
   exists groups,
     get_list_of_days (default_world example_today) 9 shuffled_state
     = (inr groups, shuffled_state)
     /\ Forall2 (fun d dt =>
                   get_day_from_week (default_world example_today) 9 d
                     shuffled_state
                   = (inr dt, shuffled_state))
          (listed_weekdays [9; 5; 4; 4; 3; 0; 2; 1]) (List.concat groups))
  /\ ((forall d, 1 <= d <= 7 -> ~ In d [9; 5; 4; 4; 3; 0; 2; 1]) ->
      get_list_of_days (default_world example_today) 9 shuffled_state
      = (inl IndexError, shuffled_state)).
Proof.
  apply (get_list_of_days_by_numbers (default_world example_today) 9
           shuffled_state example_week shuffled_cfg shuffled_state
           [9; 5; 4; 4; 3; 0; 2; 1]).
  - vm_compute. reflexivity.
  - reflexivity.
  - reflexivity.
Defined.

Lemma week_days_any_world w1 w2 week s1 s2 :
  today w1 = today w2 ->
  fst (week_days w1 week s1) = fst (week_days w2 week s2).
Proof.
  intros T. unfold week_days. generalize (range 1 (DAYS_IN_A_WEEK + 1)).
  intros l. induction l as [| d l IH]; [reflexivity |].
  cbn [mapM]. unfold bind at 1 3. rewrite !get_day_from_week_run.
  unfold get_current_year. rewrite T.
  destruct (fromisocalendar _ _ _); [reflexivity |].
  unfold bind at 1 2.
  pose proof (mapM_days_state w1 week l s1) as S1.
  pose proof (mapM_days_state w2 week l s2) as S2.
  destruct (mapM _ l s1) as [[e1 | l1] t1], (mapM _ l s2) as [[e2 | l2] t2];
    cbn in *; congruence.
Qed.

Lemma listed_In days d : listed days d = true <-> In d days.
Proof.
  unfold listed. rewrite existsb_exists. split.
  - intros (x & Hx & E). apply Z.eqb_eq in E. subst x. exact Hx.
  - intros H. exists d. split; [exact H | apply Z.eqb_refl].
Qed.

Lemma listed_weekdays_ext days1 days2 :
  (forall d, 1 <= d <= 7 -> (In d days1 <-> In d days2)) ->
  listed_weekdays days1 = listed_weekdays days2.
Proof.
  intros H. unfold listed_weekdays. apply filter_ext_in. intros d Hd.
  assert (R : 1 <= d <= 7) by (cbn in Hd; lia).
  specialize (H d R). rewrite <- !listed_In in H.
  destruct (listed days1 d), (listed days2 d); try reflexivity;
    destruct H as [H1 H2]; [discriminate (H1 eq_refl) | discriminate (H2 eq_refl)].
Qed.

(** X9: the result of [get_list_of_days], the groups or the exception,
    depends on the day the program runs and on the numbers from 1 to 7
    among the work days, and on nothing else: two runs on the same day
    whose configurations list the same numbers from 1 to 7 end alike,
    whatever the other attributes, the holiday calendar and the state
    are. *)
Theorem get_list_of_days_same_work_days w1 w2 week s1 s2 c1 c2 t1 t2
    days1 days2 :
  today w1 = today w2 ->
  get_cfg w1 s1 = (inr c1, t1) -> work_days c1 = Some days1 ->
  get_cfg w2 s2 = (inr c2, t2) -> work_days c2 = Some days2 ->
  (forall d, 1 <= d <= 7 -> (In d days1 <-> In d days2)) ->
  fst (get_list_of_days w1 week s1) = fst (get_list_of_days w2 week s2).
Proof.
  intros T G1 D1 G2 D2 Same.
  pose proof (week_days_any_world w1 w2 week s1 s2 T) as W.
  pose proof (week_days_run w1 week s1) as R1.
  pose proof (week_days_run w2 week s2) as R2.
  rewrite <- W in R2.
  destruct (fst (week_days w1 week s1)) as [e | ds].
  - unfold get_list_of_days.
    rewrite (bind_inl _ _ _ _ _ R1), (bind_inl _ _ _ _ _ R2). reflexivity.
  - destruct (week_days_inr w1 week s1 ds s1 R1) as (_ & E1 & Hy & Hw & _).
    destruct (week_days_inr w2 week s2 ds s2 R2) as (_ & E2 & _).
    unfold MINYEAR in Hy.
    assert (Ne : ds <> []) by (rewrite E1; discriminate).
    rewrite (get_list_of_days_eval w1 week s1 ds c1 t1 days1 R1 G1 D1 Ne).
    rewrite (get_list_of_days_eval w2 week s2 ds c2 t2 days2 R2 G2 D2 Ne).
    cbn [fst]. f_equal. rewrite E1.
    rewrite !filter_week_of by lia.
    rewrite (listed_weekdays_ext days1 days2 Same). reflexivity.
Qed.

Lemma get_list_of_days_same_work_days_witness :
  fst (get_list_of_days (default_world example_today) 9 initial_state)
  = fst (get_list_of_days (missing_file_world example_today) 9 shuffled_state).
Proof.
  apply (get_list_of_days_same_work_days (default_world example_today)
           (missing_file_world example_today) 9 initial_state shuffled_state
           default_cfg shuffled_cfg loaded_state shuffled_state
           [1; 2; 3; 4; 5] [9; 5; 4; 4; 3; 0; 2; 1]).
  - reflexivity.
  - vm_compute. reflexivity.
  - reflexivity.
  - reflexivity.
  - reflexivity.
  - intros d Hd. cbn [In]. lia.
Defined.

(** ** The week of today *)

(** X10: the current week, as [get_current_year] and [get_current_week]
    give it, is the week of today: asked for today's weekday number in
    it, [get_day_from_week] returns today, and the seven dates of the
    current week, when they resolve, have today among them. *)
Theorem today_in_current_week w st :
  valid_date (today w) ->
  get_day_from_week w (get_current_week w)
    (iso_weekday (isocalendar (today w))) st
  = (inr (today w), st)
  /\ forall ds st1,
       week_days w (get_current_week w) st = (inr ds, st1) -> In (today w) ds.
Proof.
  intros V.
  pose proof (fromisocalendar_isocalendar (today w) V) as R.
  assert (G : get_day_from_week w (get_current_week w)
                (iso_weekday (isocalendar (today w))) st
              = (inr (today w), st)).
  { rewrite get_day_from_week_run. unfold get_current_year, get_current_week.
    rewrite R. reflexivity. }
  split; [exact G |].
  intros ds st1 W.
  destruct (week_days_inr w _ st ds st1 W) as (_ & -> & _).
  destruct (fromisocalendar_inr _ _ _ _ R) as (_ & _ & Hd & E & _).
  unfold week_of. apply in_map_iff.
  exists (iso_weekday (isocalendar (today w))). split.
  - symmetry. exact E.
  - cbn [In]. lia.
Qed.

Lemma today_in_current_week_witness :
  get_day_from_week (default_world example_today)
    (get_current_week (default_world example_today))
    (iso_weekday (isocalendar (today (default_world example_today))))
    initial_state
  = (inr (today (default_world example_today)), initial_state)
  /\ forall ds st1,
       week_days (default_world example_today)
         (get_current_week (default_world example_today)) initial_state
       = (inr ds, st1) ->
       In (today (default_world example_today)) ds.
Proof.
  apply (today_in_current_week (default_world example_today) initial_state).
  vm_compute. intuition discriminate.
Defined.

(** X11: [main] reports weeks of the current ISO year only.  The current
    week is one of them; with a [--week] offset that leads before week 1
    or past the last week of the year, [main] ends with the [ValueError]
    of [date.fromisocalendar] before anything else happens: the
    configuration is not loaded and nothing is printed. *)
Theorem main_week_outside_year w week_delta st :
  valid_date (today w) ->
  1 <= get_current_week w <= weeks_in_year (get_current_year w)
  /\ (~ 1 <= get_current_week w + week_delta
           <= weeks_in_year (get_current_year w) ->
      main w week_delta st
      = (inl (ValueError (InvalidWeek (get_current_week w + week_delta))), st)).
Proof.
  intros V. split.
  - destruct V as [_ V]. pose proof (isocalendar_spec (today w) V) as I.
    cbv zeta in I. apply I.
  - intros Out.
    pose proof (week_days_bad_week w _ st (current_year_range w V) Out) as W.
    unfold main, print_report, get_reports, get_list_of_days.
    rewrite (bind_inl _ _ _ _ _ (bind_inl _ _ _ _ _ (bind_inl _ _ _ _ _ W))).
    reflexivity.
Qed.

Lemma main_week_outside_year_witness :
  1 <= get_current_week new_year_world
    <= weeks_in_year (get_current_year new_year_world)
  /\ (~ 1 <= get_current_week new_year_world + -1
           <= weeks_in_year (get_current_year new_year_world) ->
      main new_year_world (-1) initial_state
      = (inl (ValueError (InvalidWeek (get_current_week new_year_world + -1))),
         initial_state)).
Proof.
  apply (main_week_outside_year new_year_world (-1) initial_state).
  vm_compute. intuition discriminate.
Defined.

(** ** What a run prints *)

Lemma keeps_ret {A} (a : A) : keeps (ret a).
Proof. intros st cfg _. reflexivity. Qed.

Lemma keeps_raise {A} (e : exn) : keeps (@raise state A e).
Proof. intros st cfg _. reflexivity. Qed.

Lemma keeps_bind {A B} (c : M A) (k : A -> M B) :
  keeps c -> (forall a, keeps (k a)) -> keeps (bind c k).
Proof.
  intros Hc Hk st cfg C. unfold bind. pose proof (Hc st cfg C) as E.
  destruct (c st) as [[e | a] st1]; cbn [snd] in E; subst st1.
  - reflexivity.
  - exact (Hk a st cfg C).
Qed.

Lemma keeps_getattr {A} name (field : option A) : keeps (getattr name field).
Proof. destruct field; [apply keeps_ret | apply keeps_raise]. Qed.

Lemma keeps_getitem {A} (l : list A) i : keeps (getitem l i).
Proof.
  unfold getitem. cbv zeta.
  destruct (_ && _); [| apply keeps_raise].
  destruct (nth_error _ _); [apply keeps_ret | apply keeps_raise].
Qed.

Lemma keeps_mapM {A B} (f : A -> M B) (l : list A) :
  (forall x, keeps (f x)) -> keeps (mapM f l).
Proof.
  intros Hf. induction l as [| x xs IH]; [apply keeps_ret |].
  cbn [mapM]. apply keeps_bind; [apply Hf |]. intros y.
  apply keeps_bind; [exact IH |]. intros ys. apply keeps_ret.
Qed.

Lemma keeps_filterM {A} (p : A -> M bool) (l : list A) :
  (forall x, keeps (p x)) -> keeps (filterM p l).
Proof.
  intros Hp. induction l as [| x xs IH]; [apply keeps_ret |].
  cbn [filterM]. apply keeps_bind; [apply Hp |]. intros b.
  apply keeps_bind; [exact IH |]. intros ys. apply keeps_ret.
Qed.

Lemma keeps_get_cfg w : keeps (get_cfg w).
Proof. intros st cfg C. rewrite (get_cfg_cached w st cfg C). reflexivity. Qed.

Lemma keeps_week_days w week : keeps (week_days w week).
Proof. intros st cfg _. apply week_days_state. Qed.

Lemma keeps_get_list_of_days w week : keeps (get_list_of_days w week).
Proof.
  unfold get_list_of_days.
  apply keeps_bind; [apply keeps_week_days |]. intros ds.
  apply keeps_bind.
  { apply keeps_filterM. intros d.
    apply keeps_bind; [apply keeps_get_cfg |]. intros cfg.
    unfold is_workday. cbv zeta.
    apply keeps_bind; [apply keeps_getattr |]. intros days. apply keeps_ret. }
  intros work.
  apply keeps_bind; [apply keeps_getitem |]. intros first.
  apply keeps_bind; [apply keeps_getitem |]. intros last_day.
  destruct (negb _); [| apply keeps_ret].
  apply keeps_bind; [apply keeps_getitem |]. intros first'.
  apply keeps_bind; [apply keeps_getitem |]. intros last'.
  apply keeps_ret.
Qed.

Lemma keeps_format_day w d : keeps (format_day w d).
Proof.
  unfold format_day.
  apply keeps_bind; [apply keeps_get_cfg |]. intros cfg. cbv zeta.
  apply keeps_bind; [| intros description; apply keeps_ret].
  apply keeps_bind.
  { unfold is_holiday.
    apply keeps_bind; [apply keeps_getattr |]. intros cal. apply keeps_ret. }
  intros [|]; [apply keeps_getattr |].
  apply keeps_bind; [apply keeps_ret |].
  intros [|]; [apply keeps_getattr |].
  apply keeps_bind; [apply keeps_getattr |]. intros work_start.
  apply keeps_bind; [apply keeps_getattr |]. intros work_end.
  apply keeps_ret.
Qed.

Lemma keeps_get_reports w week : keeps (get_reports w week).
Proof.
  unfold get_reports.
  apply keeps_bind; [apply keeps_get_list_of_days |]. intros groups.
  apply keeps_mapM. intros sub_week.
  apply keeps_bind; [apply keeps_getitem |]. intros d_first.
  apply keeps_bind; [apply keeps_getitem |]. intros d_last.
  apply keeps_bind; [apply keeps_getitem |]. intros d_month. cbv zeta.
  apply keeps_bind; [apply keeps_mapM; intros d; apply keeps_format_day |].
  intros days_lines. apply keeps_ret.
Qed.

Lemma bind_eq {S A B} (c : Py.M S A) (k : A -> Py.M S B) s1 s2 :
  c s1 = c s2 -> bind c k s1 = bind c k s2.
Proof. intros E. unfold bind. rewrite E. reflexivity. Qed.

(** The first call of [get_cfg] is the only one that acts: after it the
    run goes on as a run that starts with the configuration cached. *)
Lemma get_list_of_days_after_load w week st ds cfg st1 :
  week_days w week st = (inr ds, st) -> ds <> [] ->
  get_cfg w st = (inr cfg, st1) ->
  get_list_of_days w week st = get_list_of_days w week st1.
Proof.
  intros W Ne G.
  assert (W1 : week_days w week st1 = (inr ds, st1)).
  { rewrite (week_days_run w week st1).
    rewrite <- (week_days_any_state w week st st1), W. reflexivity. }
  pose proof (get_cfg_result w st cfg st1 G) as C.
  unfold get_list_of_days.
  rewrite (bind_inr _ _ _ _ _ W), (bind_inr _ _ _ _ _ W1).
  apply bind_eq. destruct ds as [| d ds']; [congruence |].
  cbn [filterM]. apply bind_eq.
  rewrite (bind_inr _ _ _ _ _ G).
  rewrite (bind_inr _ _ _ _ _ (get_cfg_cached w st1 cfg C)). reflexivity.
Qed.

Lemma week_days_nonempty w week st ds :
  week_days w week st = (inr ds, st) -> ds <> [].
Proof.
  intros W. destruct (week_days_inr w week st ds st W) as (_ & -> & _).
  discriminate.
Qed.

(** X13: [main] prints the whole report or nothing of it.  A run that
    fails leaves the state as it was, or as the first call of [get_cfg]
    left it (the configuration cached, the diagnostic of a missing key
    printed); a run that ends normally has printed, after that call, the
    text of all the sub-reports [get_reports] returned.  The report is
    computed in full before its first line is printed. *)
Theorem main_prints_all_or_nothing w week_delta st r st' :
  main w week_delta st = (r, st') ->
  match r with
  | inl _ => st' = st \/ st' = snd (get_cfg w st)
  | inr _ =>
      exists reports,
        get_reports w (get_current_week w + week_delta) st
        = (inr reports, snd (get_cfg w st))
        /\ st' = mkstate (CFG (snd (get_cfg w st)))
                   (stdout (snd (get_cfg w st)) ++ render reports)
  end.
Proof.
  intros Hm.
  pose proof (week_days_run w (get_current_week w + week_delta) st) as W.
  destruct (fst (week_days w (get_current_week w + week_delta) st))
    as [e | ds].
  { assert (X : main w week_delta st = (inl e, st)).
    { unfold main, print_report, get_reports, get_list_of_days.
      rewrite (bind_inl _ _ _ _ _ (bind_inl _ _ _ _ _ (bind_inl _ _ _ _ _ W))).
      reflexivity. }
    rewrite X in Hm. injection Hm as <- <-. left. reflexivity. }
  destruct (get_cfg w st) as [[e | cfg] st1] eqn:G; cbn [snd].
  { rewrite (main_get_cfg_raises w week_delta st ds e st1 W G) in Hm.
    injection Hm as <- <-. right. reflexivity. }
  pose proof (get_cfg_result w st cfg st1 G) as C.
  pose proof (get_list_of_days_after_load w _ st ds cfg st1 W
                (week_days_nonempty w _ st ds W) G) as L.
  assert (R : get_reports w (get_current_week w + week_delta) st
              = get_reports w (get_current_week w + week_delta) st1).
  { unfold get_reports, bind. rewrite L. reflexivity. }
  pose proof (keeps_get_reports w (get_current_week w + week_delta) st1 cfg C)
    as K.
  rewrite <- R in K.
  destruct (get_reports w (get_current_week w + week_delta) st)
    as [[e | reports] st2] eqn:GR; cbn [snd] in K; subst st2.
  - unfold main, print_report in Hm. rewrite (bind_inl _ _ _ _ _ GR) in Hm.
    injection Hm as <- <-. right. reflexivity.
  - unfold main, print_report in Hm. rewrite (bind_inr _ _ _ _ _ GR) in Hm.
    rewrite print_sub_reports in Hm. injection Hm as <- <-.
    exists reports. split; reflexivity.
Qed.

Lemma main_prints_all_or_nothing_witness :
  exists reports,
    get_reports (default_world example_today)
      (get_current_week (default_world example_today) + 0) initial_state
    = (inr reports, snd (get_cfg (default_world example_today) initial_state))
    /\ mkstate (Some default_cfg) (render example_reports)
       = mkstate
           (CFG (snd (get_cfg (default_world example_today) initial_state)))
           (stdout (snd (get_cfg (default_world example_today) initial_state))
            ++ render reports).
Proof.
  apply (main_prints_all_or_nothing (default_world example_today) 0
           initial_state (inr tt)
           (mkstate (Some default_cfg) (render example_reports))).
  vm_compute. reflexivity.
Defined.

(** ** A run that succeeds *)

Lemma week_days_resolve w week st :
  valid_date (today w) ->
  1 <= week <= weeks_in_year (get_current_year w) ->
  ~ (get_current_year w = MAXYEAR /\ week = 52) ->
  week_days w week st = (inr (week_of (get_current_year w) week), st).
Proof.
  intros V Hw Hmax. pose proof (current_year_range w V) as Hy.
  assert (F : Forall (fun d => exists dt,
                        fromisocalendar (get_current_year w) week d = inr dt)
                [1; 2; 3; 4; 5; 6; 7]).
  { apply Forall_forall. intros d Hd. eexists.
    apply fromisocalendar_ok; try assumption; [cbn [In] in Hd; lia | tauto]. }
  destruct (mapM_days_ok w week _ st F) as (ds & R & _).
  assert (W : week_days w week st = (inr ds, st)).
  { unfold week_days. rewrite week_range. exact R. }
  destruct (week_days_inr w week st ds st W) as (_ & E & _).
  rewrite W, E. reflexivity.
Qed.

Lemma get_reports_lines w week st groups st' cfg cal holiday_label
    work_start work_end :
  get_list_of_days w week st = (inr groups, st') ->
  CFG st' = Some cfg ->
  calendar cfg = Some cal ->
  holiday_spelling cfg = Some holiday_label ->
  start_hour cfg = Some work_start ->
  end_hour cfg = Some work_end ->
  exists reports,
    get_reports w week st = (inr reports, st')
    /\ Forall2 (fun g r => List.length r = S (List.length g)) groups reports.
Proof.
  intros L C Cal H S E.
  destruct (get_list_of_days_inr w week st groups st' L)
    as (ds & cfg0 & days & W & G & D & MS).
  pose proof (month_split_groups _ _ MS) as Gs.
  clear MS. unfold get_reports. rewrite (bind_inr _ _ _ _ _ L). clear L.
  induction Gs as [| g gs [Ng _] _ (reports & IH & F)].
  - exists []. split; [reflexivity | apply Forall2_nil].
  - destruct g as [| first rest]; [congruence |].
    destruct (mapM_format_day w st' cfg cal holiday_label work_start work_end
                (first :: rest) C Cal H S E) as (lines & ML & FL).
    eexists (_ :: reports). split.
    + cbn [mapM].
      erewrite bind_inr; [| rewrite (bind_inr _ _ _ _ _ (getitem_first first rest st'));
                            rewrite (bind_inr _ _ _ _ _ (getitem_last first rest st'));
                            rewrite (bind_inr _ _ _ _ _ (getitem_first first rest st'));
                            rewrite (bind_inr _ _ _ _ _ ML); reflexivity].
      rewrite (bind_inr _ _ _ _ _ IH). reflexivity.
    + apply Forall2_cons; [| exact F].
      cbn [List.length]. f_equal. symmetry. exact (Forall2_length FL).
Qed.

Lemma concat_lines_length (groups : list (list date))
    (reports : list (list string)) :
  Forall2 (fun g r => List.length r = S (List.length g)) groups reports ->
  List.length (List.concat reports)
  = (List.length (List.concat groups) + List.length groups)%nat.
Proof.
  intros F. induction F as [| g r gs rs E _ IH]; [reflexivity |].
  cbn [List.concat List.length]. rewrite !length_app, IH, E. lia.
Qed.

(** X12: when the week [main] is asked for is a week of the current ISO
    year (the last week of year 9999 apart), the configuration is there
    with its calendar, holiday label and hours, and some number from 1 to
    7 is among its work days, [main] ends normally: it prints one or two
    sub-reports and nothing else, with one title line for each sub-report
    and one day line for each number from 1 to 7 among the work days. *)
Theorem main_prints_report w week_delta st cfg st' days cal holiday_label
    work_start work_end :
  valid_date (today w) ->
  1 <= get_current_week w + week_delta <= weeks_in_year (get_current_year w) ->
  ~ (get_current_year w = MAXYEAR /\ get_current_week w + week_delta = 52) ->
  get_cfg w st = (inr cfg, st') ->
  work_days cfg = Some days ->
  calendar cfg = Some cal ->
  holiday_spelling cfg = Some holiday_label ->
  start_hour cfg = Some work_start ->
  end_hour cfg = Some work_end ->
  (exists d, 1 <= d <= 7 /\ In d days) ->
  exists reports,
    main w week_delta st
    = (inr tt, mkstate (Some cfg) (stdout st' ++ render reports))
    /\ (List.length reports = 1 \/ List.length reports = 2)%nat
    /\ List.length (List.concat reports)
       = (List.length (listed_weekdays days) + List.length reports)%nat.
Proof.
  intros V Hw Hmax G D Cal H S E X.
  pose proof (week_days_resolve w _ st V Hw Hmax) as W.
  pose proof (current_year_range w V) as Hy. unfold MINYEAR in Hy.
  assert (Ne : week_of (get_current_year w) (get_current_week w + week_delta)
               <> []) by discriminate.
  pose proof (get_list_of_days_eval w _ st _ cfg st' days W G D Ne) as L.
  pose proof (month_split_concat (get_current_year w)
                (get_current_week w + week_delta) (workday days)
                ltac:(lia) ltac:(lia)) as Cc.
  pose proof (filter_week_of (get_current_year w)
                (get_current_week w + week_delta) days ltac:(lia) Hw) as Fw.
  apply listed_weekdays_nonempty in X.
  destruct (month_split _) as [e | groups].
  { destruct Cc as [_ Cc]. rewrite Fw in Cc. apply map_eq_nil in Cc.
    contradiction. }
  pose proof (get_cfg_result w st cfg st' G) as C.
  destruct (get_reports_lines w _ st groups st' cfg cal holiday_label
              work_start work_end L C Cal H S E) as (reports & R & F).
  exists reports. split; [| split].
  - unfold main, print_report. rewrite (bind_inr _ _ _ _ _ R).
    rewrite print_sub_reports, C. reflexivity.
  - destruct (get_list_of_days_groups w _ st groups st' L)
      as (_ & _ & Len & _).
    rewrite <- (Forall2_length F). exact Len.
  - rewrite (concat_lines_length groups reports F), Cc, Fw, length_map.
    rewrite (Forall2_length F). reflexivity.
Qed.

Lemma main_prints_report_witness :
  exists reports,
    main (default_world example_today) 0 initial_state
    = (inr tt, mkstate (Some default_cfg) (stdout loaded_state ++ render reports))
    /\ (List.length reports = 1 \/ List.length reports = 2)%nat
    /\ List.length (List.concat reports)
       = Nat.add (List.length (listed_weekdays [1; 2; 3; 4; 5]))
           (List.length reports).
Proof.
  apply (main_prints_report (default_world example_today) 0 initial_state
           default_cfg loaded_state [1; 2; 3; 4; 5] poland "Holiday" "8:00"
           "17:00").
  - vm_compute. intuition discriminate.
  - vm_compute. intuition discriminate.
  - vm_compute. intros [K _]. discriminate K.
  - vm_compute. reflexivity.
  - reflexivity.
  - reflexivity.
  - reflexivity.
  - reflexivity.
  - reflexivity.
  - exists 1. cbn [In]. lia.
Defined.

(** ** A document that lacks a key *)

(** The object [Configuration()] returns for a given document. *)
Lemma Configuration_init_loaded w st text data cfg st0 :
  config_file w = Some text -> json_loads w text = Some data ->
  Configuration_init w st = (inr cfg, st0) ->
  let p4 := present (doc_start_hour data) in
  let p5 := p4 && present (doc_end_hour data) in
  let p6 := p5 && present (doc_work_days data) in
  let p7 := p6 && present (doc_vacation data) in
  start_hour cfg = doc_start_hour data
  /\ end_hour cfg = when p4 (doc_end_hour data)
  /\ work_days cfg = when p5 (doc_work_days data)
  /\ holiday_spelling cfg = when p7 (doc_holiday data)
  /\ (exists cls, calendar cfg = Some cls)
  /\ st0 = match first_missing_key data with
           | None => st
           | Some key =>
               mkstate (CFG st) (stdout st ++ missing_key_diagnostic key ++ LF)
           end.
Proof.
  intros F J H. pose proof (Configuration_init_steps w st) as S.
  rewrite H, F, J in S.
  cbv zeta in S. rewrite assign_attributes_value in S. cbn [fst snd] in S.
  cbv zeta in S. cbn [continent country report_language start_hour end_hour
                      work_days vacation_spelling holiday_spelling] in S.
  unfold first_missing_key in *.
  destruct data as [[language |] [country_name |] [continent_name |] sh eh wd va ho];
    cbn [doc_report_language doc_country doc_continent doc_start_hour
         doc_end_hour doc_work_days doc_vacation doc_holiday present when
         andb negb] in *; try discriminate S.
  match type of S with
  | context [load_country_module w continent_name country_name ?s] =>
      destruct (load_country_module_cases w continent_name country_name s)
        as [(cls & L & _) | (err & L & _)]; rewrite L in S
  end; [| discriminate S].
  injection S as -> ->. cbn [start_hour end_hour work_days holiday_spelling
                             calendar].
  split; [reflexivity |]. split; [reflexivity |]. split; [reflexivity |].
  split; [reflexivity |]. split; [exists cls; reflexivity |].
  unfold missing_key_diagnostic.
  destruct sh, eh, wd, va, ho; cbn [present negb];
    rewrite ?string_app_assoc; reflexivity.
Qed.

Lemma get_cfg_loads w st cfg st1 :
  CFG st = None -> get_cfg w st = (inr cfg, st1) ->
  exists st0, Configuration_init w st = (inr cfg, st0)
              /\ st1 = mkstate (Some cfg) (stdout st0).
Proof.
  intros N G. unfold get_cfg, read_CFG in G. unfold bind at 1 in G.
  rewrite N in G. unfold bind at 1 in G.
  destruct (Configuration_init w st) as [[e | c] st0]; [discriminate G |].
  unfold bind, set_CFG, ret in G. injection G as <- <-.
  exists st0. split; reflexivity.
Qed.

Lemma main_without_work_days w week_delta st ds cfg st1 :
  week_days w (get_current_week w + week_delta) st = (inr ds, st) ->
  get_cfg w st = (inr cfg, st1) -> work_days cfg = None ->
  main w week_delta st = (inl (AttributeError "work_days"), st1).
Proof.
  intros W G D.
  pose proof (week_days_nonempty w _ st ds W) as Ne.
  unfold main, print_report, get_reports.
  apply bind_inl, bind_inl. unfold get_list_of_days.
  rewrite (bind_inr _ _ _ _ _ W). apply bind_inl.
  destruct ds as [| d ds']; [congruence |].
  cbn [filterM]. apply bind_inl. rewrite (bind_inr _ _ _ _ _ G).
  unfold is_workday. rewrite D. reflexivity.
Qed.

(** X14: a document that lacks [start_hour], [end_hour] or [work_days]
    still loads, with the diagnostic naming the first missing key, but
    the assignments stop at that key, so the object has no [work_days]
    even when the document has them: for every week whose dates resolve
    [main] then ends with [AttributeError] for [work_days] and prints
    nothing after the diagnostic. *)
Theorem missing_key_stops_report w week_delta st text data key cfg st1 ds :
  CFG st = None ->
  config_file w = Some text -> json_loads w text = Some data ->
  first_missing_key data = Some key ->
  In key ["start_hour"; "end_hour"; "work_days"] ->
  get_cfg w st = (inr cfg, st1) ->
  week_days w (get_current_week w + week_delta) st = (inr ds, st) ->
  main w week_delta st = (inl (AttributeError "work_days"), st1)
  /\ st1 = mkstate (Some cfg) (stdout st ++ missing_key_diagnostic key ++ LF).
Proof.
  intros N F J K I G W.
  destruct (get_cfg_loads w st cfg st1 N G) as (st0 & H & ->).
  destruct (Configuration_init_loaded w st text data cfg st0 F J H)
    as (_ & _ & D & _ & _ & E).
  cbv zeta in D. rewrite K in E. subst st0. cbn [stdout].
  split; [| reflexivity].
  apply (main_without_work_days w week_delta st ds cfg _ W G).
  rewrite D. unfold first_missing_key in K.
  destruct (doc_report_language data), (doc_country data),
    (doc_continent data), (doc_start_hour data), (doc_end_hour data),
    (doc_work_days data); cbn [present negb andb when] in *;
    try reflexivity; try discriminate K.
  all: exfalso;
  destruct (doc_vacation data); cbn [present negb] in K;
    [destruct (doc_holiday data); cbn [present negb] in K |];
    try discriminate K; injection K as <-; cbn [In] in I;
    repeat (destruct I as [I | I]; [discriminate I |]); exact I.
Qed.

Lemma missing_key_stops_report_witness :
  main no_end_hour_world 0 initial_state
  = (inl (AttributeError "work_days"), no_end_hour_state)
  /\ no_end_hour_state
     = mkstate (Some no_end_hour_cfg)
         (stdout initial_state ++ missing_key_diagnostic "end_hour" ++ LF).
Proof.
  apply (missing_key_stops_report no_end_hour_world 0 initial_state
           no_end_hour_text no_end_hour_doc "end_hour" no_end_hour_cfg
           no_end_hour_state example_week).
  - reflexivity.
  - reflexivity.
  - vm_compute. reflexivity.
  - reflexivity.
  - cbn [In]. tauto.
  - vm_compute. reflexivity.
  - vm_compute. reflexivity.
Defined.

Lemma mapM_format_day_no_label w st cfg cal work_start work_end l :
  CFG st = Some cfg -> calendar cfg = Some cal ->
  holiday_spelling cfg = None ->
  start_hour cfg = Some work_start -> end_hour cfg = Some work_end ->
  if existsb cal l
  then mapM (format_day w) l st = (inl (AttributeError "holiday_spelling"), st)
  else exists lines, mapM (format_day w) l st = (inr lines, st).
Proof.
  intros C Cal H S E. induction l as [| d ds IH].
  - exists []. reflexivity.
  - pose proof (format_day_run w st cfg st d cal (get_cfg_cached w st cfg C) Cal)
      as R.
    rewrite H, S, E in R. cbn [existsb mapM].
    destruct (cal d); cbn [orb].
    + apply bind_inl. exact R.
    + rewrite (bind_inr _ _ _ _ _ R).
      destruct (existsb cal ds).
      * apply bind_inl. exact IH.
      * destruct IH as (lines & IH). rewrite (bind_inr _ _ _ _ _ IH).
        eexists. reflexivity.
Qed.

Lemma get_reports_no_label w week st groups st1 cfg cal work_start work_end :
  get_list_of_days w week st = (inr groups, st1) ->
  CFG st1 = Some cfg -> calendar cfg = Some cal ->
  holiday_spelling cfg = None ->
  start_hour cfg = Some work_start -> end_hour cfg = Some work_end ->
  if existsb cal (List.concat groups)
  then get_reports w week st = (inl (AttributeError "holiday_spelling"), st1)
  else exists reports, get_reports w week st = (inr reports, st1).
Proof.
  intros L C Cal H S E.
  destruct (get_list_of_days_inr w week st groups st1 L)
    as (ds & cfg0 & days & W & G & D & MS).
  pose proof (month_split_groups _ _ MS) as Gs.
  clear MS. unfold get_reports. rewrite (bind_inr _ _ _ _ _ L). clear L.
  induction Gs as [| g gs [Ng _] _ IH].
  - exists []. reflexivity.
  - destruct g as [| first rest]; [congruence |].
    cbn [List.concat]. rewrite existsb_app.
    pose proof (mapM_format_day_no_label w st1 cfg cal work_start work_end
                  (first :: rest) C Cal H S E) as ML.
    cbn [mapM].
    destruct (existsb cal (first :: rest)); cbn [orb].
    + apply bind_inl.
      rewrite (bind_inr _ _ _ _ _ (getitem_first first rest st1)).
      rewrite (bind_inr _ _ _ _ _ (getitem_last first rest st1)).
      rewrite (bind_inr _ _ _ _ _ (getitem_first first rest st1)).
      apply bind_inl. exact ML.
    + destruct ML as (lines & ML).
      erewrite bind_inr;
        [| rewrite (bind_inr _ _ _ _ _ (getitem_first first rest st1));
           rewrite (bind_inr _ _ _ _ _ (getitem_last first rest st1));
           rewrite (bind_inr _ _ _ _ _ (getitem_first first rest st1));
           rewrite (bind_inr _ _ _ _ _ ML); reflexivity].
      destruct (existsb cal (List.concat gs)).
      * apply bind_inl. exact IH.
      * destruct IH as (reports & IH). rewrite (bind_inr _ _ _ _ _ IH).
        eexists. reflexivity.
Qed.

(** X15: a document that lacks only [vacation] or [holiday] loads with
    its diagnostic and leaves the object without a holiday label.  The
    report of a week then depends on the calendar: when a reported day is
    a holiday, [main] ends with [AttributeError] for [holiday_spelling]
    and prints nothing of the report; when none is, [main] prints the
    report and ends normally. *)
Theorem missing_label_stops_holiday_weeks w week_delta st text data key cfg
    st1 groups :
  CFG st = None ->
  config_file w = Some text -> json_loads w text = Some data ->
  first_missing_key data = Some key ->
  In key ["vacation"; "holiday"] ->
  get_cfg w st = (inr cfg, st1) ->
  get_list_of_days w (get_current_week w + week_delta) st = (inr groups, st1) ->
  stdout st1 = stdout st ++ missing_key_diagnostic key ++ LF
  /\ exists cal,
       calendar cfg = Some cal
       /\ if existsb cal (List.concat groups)
          then main w week_delta st
               = (inl (AttributeError "holiday_spelling"), st1)
          else exists reports,
                 main w week_delta st
                 = (inr tt, mkstate (Some cfg) (stdout st1 ++ render reports)).
Proof.
  intros N F J K I G L.
  destruct (get_cfg_loads w st cfg st1 N G) as (st0 & H & E1).
  destruct (Configuration_init_loaded w st text data cfg st0 F J H)
    as (Sh & Eh & _ & Ho & (cal & Cal) & E).
  cbv zeta in Eh, Ho. rewrite K in E. subst st0.
  split; [rewrite E1; reflexivity |].
  exists cal. split; [exact Cal |].
  pose proof (get_cfg_result w st cfg st1 G) as C.
  assert (X : holiday_spelling cfg = None
              /\ exists work_start work_end,
                   start_hour cfg = Some work_start
                   /\ end_hour cfg = Some work_end).
  { rewrite Ho, Sh, Eh. unfold first_missing_key in K.
    destruct (doc_report_language data), (doc_country data),
      (doc_continent data), (doc_start_hour data) as [ws |],
      (doc_end_hour data) as [we |], (doc_work_days data);
      cbn [present negb andb when] in *;
      try (exfalso; injection K as <-; cbn [In] in I;
           repeat (destruct I as [I | I]; [discriminate I |]); exact I).
    split; [| exists ws, we; split; reflexivity].
    destruct (doc_vacation data); cbn [present negb when] in *;
      [| reflexivity].
    destruct (doc_holiday data); cbn [present negb] in K;
      [discriminate K | reflexivity]. }
  destruct X as (Hn & work_start & work_end & S & E).
  pose proof (get_reports_no_label w _ st groups st1 cfg cal work_start
                work_end L C Cal Hn S E) as R.
  unfold main, print_report.
  destruct (existsb cal (List.concat groups)).
  - apply bind_inl. exact R.
  - destruct R as (reports & R). exists reports.
    rewrite (bind_inr _ _ _ _ _ R), print_sub_reports, C. reflexivity.
Qed.

Lemma missing_label_stops_holiday_weeks_witness :
  stdout no_holiday_key_state
  = stdout initial_state ++ missing_key_diagnostic "holiday" ++ LF
  /\ exists cal,
       calendar no_holiday_key_cfg = Some cal
       /\ if existsb cal
               (List.concat
                  [[mkdate 2024 4 29; mkdate 2024 4 30];
                   [mkdate 2024 5 1; mkdate 2024 5 2; mkdate 2024 5 3]])
          then main no_holiday_key_world 0 initial_state
               = (inl (AttributeError "holiday_spelling"), no_holiday_key_state)
          else exists reports,
                 main no_holiday_key_world 0 initial_state
                 = (inr tt, mkstate (Some no_holiday_key_cfg)
                              (stdout no_holiday_key_state ++ render reports)).
Proof.
  apply (missing_label_stops_holiday_weeks no_holiday_key_world 0
           initial_state no_holiday_key_text no_holiday_key_doc "holiday"
           no_holiday_key_cfg no_holiday_key_state
           [[mkdate 2024 4 29; mkdate 2024 4 30];
            [mkdate 2024 5 1; mkdate 2024 5 2; mkdate 2024 5 3]]).
  - reflexivity.
  - reflexivity.
  - vm_compute. reflexivity.
  - reflexivity.
  - cbn [In]. tauto.
  - vm_compute. reflexivity.
  - vm_compute. reflexivity.
Defined.

(** * The vacation label *)

Lemma load_country_module_ext w1 w2 continent_name country_name st :
  (forall name, import_module w1 name = import_module w2 name) ->
  load_country_module w1 continent_name country_name st
  = load_country_module w2 continent_name country_name st.
Proof. intros H. unfold load_country_module. rewrite H. reflexivity. Qed.

(** In two such environments [Configuration()] fails alike, or returns
    objects that differ at most in the vacation label. *)
Lemma Configuration_init_differ w1 w2 st :
  differ_in_vacation w1 w2 ->
  match Configuration_init w1 st, Configuration_init w2 st with
  | (inl e1, u1), (inl e2, u2) => e1 = e2 /\ u1 = u2
  | (inr c1, u1), (inr c2, u2) =>
      c2 = set_vacation (vacation_spelling c2) c1 /\ u1 = u2
  | _, _ => False
  end.
Proof.
  intros (_ & I & D).
  pose proof (Configuration_init_steps w1 st) as S1.
  pose proof (Configuration_init_steps w2 st) as S2.
  destruct (config_file w1) as [text1 |], (config_file w2) as [text2 |];
    try contradiction.
  2:{ rewrite S1, S2. split; reflexivity. }
  destruct (json_loads w1 text1) as [d1 |], (json_loads w2 text2) as [d2 |];
    try contradiction.
  2:{ rewrite S1, S2. split; reflexivity. }
  destruct D as (v1 & v2 & V & ->).
  cbv zeta in S1, S2. rewrite assign_attributes_value in S1, S2.
  cbn [fst snd] in S1, S2. cbv zeta in S1, S2. unfold first_missing_key in *.
  destruct d1 as [rl co ct sh eh wd va ho]. cbn [doc_vacation] in V. subst va.
  unfold set_doc_vacation in S2.
  cbn [doc_report_language doc_country doc_continent doc_start_hour
       doc_end_hour doc_work_days doc_vacation doc_holiday] in S1, S2.
  destruct rl as [language |], co as [country_name |],
    ct as [continent_name |];
    cbn [present when andb negb continent country report_language start_hour
         end_hour work_days vacation_spelling holiday_spelling] in S1, S2.
  2-8: rewrite S1, S2; split; reflexivity.
  assert (E : forall s,
             load_country_module w1 continent_name country_name s
             = load_country_module w2 continent_name country_name s)
    by (intros s; apply load_country_module_ext, I).
  destruct sh, eh, wd, ho;
    cbn [present when andb negb] in S1, S2;
    rewrite E in S1; rewrite S1, S2;
    match goal with
    | |- context [load_country_module w2 continent_name country_name ?s] =>
        destruct (load_country_module w2 continent_name country_name s)
          as [[e | cls] u]
    end; split; reflexivity.
Qed.

Lemma get_cfg_unloaded w st :
  CFG st = None ->
  get_cfg w st
  = match Configuration_init w st with
    | (inl e, u) => (inl e, u)
    | (inr c, u) => (inr c, mkstate (Some c) (stdout u))
    end.
Proof.
  intros N. unfold get_cfg, read_CFG. unfold bind at 1. rewrite N.
  unfold bind at 1.
  destruct (Configuration_init w st) as [[e | c] u]; reflexivity.
Qed.

Lemma get_cfg_differ w1 w2 st :
  differ_in_vacation w1 w2 -> CFG st = None ->
  match get_cfg w1 st, get_cfg w2 st with
  | (inl e1, u1), (inl e2, u2) => e1 = e2 /\ u1 = u2
  | (inr c1, u1), (inr c2, u2) =>
      same_but_vacation c1 (vacation_spelling c2) u1 u2
  | _, _ => False
  end.
Proof.
  intros D N. pose proof (Configuration_init_differ w1 w2 st D) as X.
  rewrite !get_cfg_unloaded by exact N.
  destruct (Configuration_init w1 st) as [[e1 | c1] u1],
    (Configuration_init w2 st) as [[e2 | c2] u2]; try contradiction.
  - exact X.
  - destruct X as [E ->].
    repeat split; cbn [CFG stdout]; congruence.
Qed.

Lemma get_list_of_days_cfg_raises w week st ds e u :
  week_days w week st = (inr ds, st) ->
  get_cfg w st = (inl e, u) ->
  get_list_of_days w week st = (inl e, u).
Proof.
  intros W G. pose proof (week_days_nonempty w week st ds W) as Ne.
  unfold get_list_of_days. rewrite (bind_inr _ _ _ _ _ W). apply bind_inl.
  destruct ds as [| d ds']; [congruence |].
  cbn [filterM]. apply bind_inl, bind_inl. exact G.
Qed.

Lemma format_day_after_load w d st cfg u :
  get_cfg w st = (inr cfg, u) -> format_day w d st = format_day w d u.
Proof.
  intros G. unfold format_day.
  rewrite (bind_inr _ _ _ _ _ G).
  rewrite (bind_inr _ _ _ _ _
             (get_cfg_cached w u cfg (get_cfg_result w st cfg u G))).
  reflexivity.
Qed.

(** From a state with nothing cached, the runs in two such environments
    return and print the same. *)
Lemma unloaded_runs_alike w1 w2 st :
  differ_in_vacation w1 w2 -> CFG st = None ->
  (forall d, fst (format_day w1 d st) = fst (format_day w2 d st))
  /\ (forall week,
        fst (get_reports w1 week st) = fst (get_reports w2 week st))
  /\ (forall week,
        fst (print_report w1 week st) = fst (print_report w2 week st)
        /\ stdout (snd (print_report w1 week st))
           = stdout (snd (print_report w2 week st))).
Proof.
  intros D N. pose proof (get_cfg_differ w1 w2 st D N) as X.
  pose proof D as (T & _).
  destruct (get_cfg w1 st) as [[e1 | c1] u1] eqn:G1,
    (get_cfg w2 st) as [[e2 | c2] u2] eqn:G2; try contradiction.
  - (* the configuration does not load *)
    destruct X as [<- <-].
    assert (R : forall week,
               (get_reports w1 week st = get_reports w2 week st)
               /\ print_report w1 week st = print_report w2 week st).
    { intros week.
      pose proof (week_days_run w1 week st) as W1.
      pose proof (week_days_run w2 week st) as W2.
      rewrite <- (week_days_any_world w1 w2 week st st T) in W2.
      destruct (fst (week_days w1 week st)) as [e | ds].
      - assert (L1 : get_list_of_days w1 week st = (inl e, st))
          by (unfold get_list_of_days; apply bind_inl; exact W1).
        assert (L2 : get_list_of_days w2 week st = (inl e, st))
          by (unfold get_list_of_days; apply bind_inl; exact W2).
        unfold print_report, get_reports.
        rewrite (bind_inl _ _ _ _ _ (bind_inl _ _ _ _ _ L1)).
        rewrite (bind_inl _ _ _ _ _ (bind_inl _ _ _ _ _ L2)).
        rewrite (bind_inl _ _ _ _ _ L1), (bind_inl _ _ _ _ _ L2).
        split; reflexivity.
      - pose proof (get_list_of_days_cfg_raises w1 week st ds e1 u1 W1 G1)
          as L1.
        pose proof (get_list_of_days_cfg_raises w2 week st ds e1 u1 W2 G2)
          as L2.
        unfold print_report, get_reports.
        rewrite (bind_inl _ _ _ _ _ (bind_inl _ _ _ _ _ L1)).
        rewrite (bind_inl _ _ _ _ _ (bind_inl _ _ _ _ _ L2)).
        rewrite (bind_inl _ _ _ _ _ L1), (bind_inl _ _ _ _ _ L2).
        split; reflexivity. }
    split; [| split].
    + intros d. unfold format_day.
      rewrite (bind_inl _ _ _ _ _ G1), (bind_inl _ _ _ _ _ G2). reflexivity.
    + intros week. destruct (R week) as [-> _]. reflexivity.
    + intros week. destruct (R week) as [_ ->]. split; reflexivity.
  - (* it loads: the runs go on from states that differ in the label *)
    pose proof (get_cfg_result w2 st c2 u2 G2) as C2.
    assert (Rep : forall week,
               (fst (get_reports w1 week st) = fst (get_reports w2 week st))
               /\ fst (print_report w1 week st) = fst (print_report w2 week st)
               /\ stdout (snd (print_report w1 week st))
                  = stdout (snd (print_report w2 week st))).
    { intros week.
      pose proof (week_days_run w1 week st) as W1.
      pose proof (week_days_run w2 week st) as W2.
      rewrite <- (week_days_any_world w1 w2 week st st T) in W2.
      destruct (fst (week_days w1 week st)) as [e | ds].
      - assert (L1 : get_list_of_days w1 week st = (inl e, st))
          by (unfold get_list_of_days; apply bind_inl; exact W1).
        assert (L2 : get_list_of_days w2 week st = (inl e, st))
          by (unfold get_list_of_days; apply bind_inl; exact W2).
        unfold print_report, get_reports.
        rewrite (bind_inl _ _ _ _ _ (bind_inl _ _ _ _ _ L1)).
        rewrite (bind_inl _ _ _ _ _ (bind_inl _ _ _ _ _ L2)).
        rewrite (bind_inl _ _ _ _ _ L1), (bind_inl _ _ _ _ _ L2).
        repeat split.
      - pose proof (get_list_of_days_after_load w1 week st ds c1 u1 W1
                      (week_days_nonempty w1 week st ds W1) G1) as L1.
        pose proof (get_list_of_days_after_load w2 week st ds c2 u2 W2
                      (week_days_nonempty w2 week st ds W2) G2) as L2.
        assert (R1 : get_reports w1 week st = get_reports w1 week u1)
          by (unfold get_reports; apply bind_eq; exact L1).
        assert (R2 : get_reports w2 week st = get_reports w2 week u2)
          by (unfold get_reports; apply bind_eq; exact L2).
        assert (P1 : print_report w1 week st = print_report w1 week u1)
          by (unfold print_report; apply bind_eq; exact R1).
        assert (P2 : print_report w2 week st = print_report w2 week u2)
          by (unfold print_report; apply bind_eq; exact R2).
        rewrite R1, R2, P1, P2.
        split; [apply (alike_get_reports c1 (vacation_spelling c2) w1 w2 T
                         week u1 u2 X) |].
        destruct (alike_print_report c1 (vacation_spelling c2) w1 w2 T
                    week u1 u2 X) as [E R'].
        split; [exact E | apply R']. }
    split; [| split].
    + intros d.
      rewrite (format_day_after_load w1 d st c1 u1 G1).
      rewrite (format_day_after_load w2 d st c2 u2 G2).
      apply (alike_format_day c1 (vacation_spelling c2) w1 w2 d u1 u2 X).
    + intros week. apply Rep.
    + intros week. apply Rep.
Qed.

(** C10: [is_vacation] always returns [False], so [format_day] never
    takes its description from the vacation label: every line it returns
    is the holiday-label line or the line of the working hours.  The
    vacation label changes nothing in what [format_day], [get_reports]
    and [print_report] return and print, neither from states where
    configurations that differ in the label are cached, nor from a state
    with nothing cached in environments whose files differ in the value
    of [vacation]. *)
Theorem vacation_label_unused :
  (forall cfg d st, is_vacation cfg d st = (inr false, st))
  /\ (forall w d st line st',
        format_day w d st = (inr line, st') ->
        exists cfg cal,
          CFG st' = Some cfg /\ calendar cfg = Some cal
          /\ ((cal d = true
               /\ exists label, holiday_spelling cfg = Some label
                                /\ line = line_head d ++ label)
              \/ (cal d = false
                  /\ exists work_start work_end,
                      start_hour cfg = Some work_start
                      /\ end_hour cfg = Some work_end
                      /\ line = line_head d ++ "Start: " ++ work_start
                                ++ "; End: " ++ work_end)))
  /\ (forall w cfg v s1 s2,
        same_but_vacation cfg v s1 s2 ->
        (forall d, fst (format_day w d s1) = fst (format_day w d s2))
        /\ (forall week,
              fst (get_reports w week s1) = fst (get_reports w week s2))
        /\ (forall week,
              fst (print_report w week s1) = fst (print_report w week s2)
              /\ stdout (snd (print_report w week s1))
                 = stdout (snd (print_report w week s2))))
  /\ (forall w1 w2 st,
        differ_in_vacation w1 w2 -> CFG st = None ->
        (forall d, fst (format_day w1 d st) = fst (format_day w2 d st))
        /\ (forall week,
              fst (get_reports w1 week st) = fst (get_reports w2 week st))
        /\ (forall week,
              fst (print_report w1 week st) = fst (print_report w2 week st)
              /\ stdout (snd (print_report w1 week st))
                 = stdout (snd (print_report w2 week st)))).
Proof.
  split; [reflexivity |]. split; [| split].
  - intros w d st line st' H.
    destruct (get_cfg w st) as [[e | cfg] st1] eqn:G.
    { unfold format_day in H. rewrite (bind_inl _ _ _ _ _ G) in H. discriminate H. }
    destruct (calendar cfg) as [cal |] eqn:C.
    + rewrite (format_day_run w st cfg st1 d cal G C) in H.
      exists cfg, cal.
      destruct (cal d) eqn:Hol.
      * destruct (holiday_spelling cfg) as [label |]; [| discriminate H].
        assert (E1 : line = line_head d ++ label).
        { unfold line_head. rewrite !string_app_assoc. congruence. }
        assert (E2 : st' = st1) by congruence. subst st'.
        split; [eapply get_cfg_result; exact G |]. split; [exact C |].
        left. split; [reflexivity |]. exists label. split; [reflexivity | exact E1].
      * destruct (start_hour cfg) as [ws |]; [| discriminate H].
        destruct (end_hour cfg) as [we |]; [| discriminate H].
        assert (E1 : line = line_head d ++ "Start: " ++ ws ++ "; End: " ++ we).
        { unfold line_head. rewrite !string_app_assoc.
          unfold hours_text in H. congruence. }
        assert (E2 : st' = st1) by congruence. subst st'.
        split; [eapply get_cfg_result; exact G |]. split; [exact C |].
        right. split; [reflexivity |]. exists ws, we.
        split; [reflexivity |]. split; [reflexivity | exact E1].
    + unfold format_day in H. rewrite (bind_inr _ _ _ _ _ G) in H.
      unfold is_holiday, getattr in H. rewrite C in H.
      unfold bind, raise in H. discriminate H.
  - intros w cfg v s1 s2 R. split; [| split].
    + intros d. apply (alike_format_day cfg v w w d s1 s2 R).
    + intros week. apply (alike_get_reports cfg v w w eq_refl week s1 s2 R).
    + intros week.
      destruct (alike_print_report cfg v w w eq_refl week s1 s2 R) as [E R'].
      split; [exact E | apply R'].
  - intros w1 w2 st D N. exact (unloaded_runs_alike w1 w2 st D N).
Qed.

Lemma vacation_label_unused_witness :
  (exists cfg cal,
      CFG loaded_state = Some cfg /\ calendar cfg = Some cal
      /\ ((cal (mkdate 2024 5 1) = true
           /\ exists label, holiday_spelling cfg = Some label
                            /\ "Wed-01:05.: Holiday"
                               = line_head (mkdate 2024 5 1) ++ label)
          \/ (cal (mkdate 2024 5 1) = false
              /\ exists work_start work_end,
                  start_hour cfg = Some work_start
                  /\ end_hour cfg = Some work_end
                  /\ "Wed-01:05.: Holiday"
                     = line_head (mkdate 2024 5 1) ++ "Start: " ++ work_start
                       ++ "; End: " ++ work_end)))
  /\ fst (print_report (default_world example_today) 9 loaded_state)
     = fst (print_report (default_world example_today) 9
              (mkstate (Some (set_vacation (Some "Leave") default_cfg)) ""))
  /\ stdout (snd (print_report (default_world example_today) 9 initial_state))
     = stdout (snd (print_report (leave_world example_today) 9 initial_state)).
Proof.
  split; [| split].
  - apply (proj1 (proj2 vacation_label_unused)
             (default_world example_today) (mkdate 2024 5 1) initial_state
             "Wed-01:05.: Holiday" loaded_state).
    vm_compute. reflexivity.
  - apply (proj1 (proj2 (proj2 vacation_label_unused))
             (default_world example_today) default_cfg (Some "Leave")
             loaded_state
             (mkstate (Some (set_vacation (Some "Leave") default_cfg)) "")).
    repeat split.
  - apply (proj2 (proj2 (proj2 vacation_label_unused))
             (default_world example_today) (leave_world example_today)
             initial_state).
    + split; [reflexivity |]. split; [intros name; reflexivity |].
      vm_compute. exists "Vacation", "Leave". split; reflexivity.
    + reflexivity.
Defined.
